(** * OwnPay: signed webhook delivery and the order/payment lifecycle

    A shallow embedding of [server/webhooks.ts], [server/storage.ts],
    [shared/schema.ts] and of two handlers of [registerRoutes]
    ([/api/v2/orders] and [/api/process-payment]), followed by the
    properties of the delivery loop and of the lifecycle that the
    specification states about them.

    What the code takes from its platform is a parameter of the
    embedding: the HMAC, [new URL], the url check of zod,
    [randomUUID], the clock, [Math.random], [JSON.stringify],
    [process.env] and the merchant's endpoint. *)

From Stdlib Require Import ZArith List String Ascii Bool Lia.
From Stdlib Require Import DecimalString.
From Stdlib Require Import Sorted Permutation.
From Equations Require Import Equations.
Import ListNotations.

Local Open Scope string_scope.
Local Open Scope Z_scope.
Set Warnings "-notation-for-abbreviation".

(** ** JavaScript values used by the code *)

Module Js.

(** [String(n)] and [n.toString()] for an integral number. *)
Definition Number_toString (n : Z) : string :=
  NilZero.string_of_int (Z.to_int n).

(** Truthiness of an optional string: [undefined] and the empty string
    are falsy. *)
Definition truthy_string (s : option string) : bool :=
  match s with
  | Some EmptyString => false
  | Some _ => true
  | None => false
  end.

(** Truthiness of an optional boolean. *)
Definition truthy_bool (b : option bool) : bool :=
  match b with
  | Some true => true
  | _ => false
  end.

(** [a ?? b] *)
Definition nullish {A} (a : option A) (b : A) : A :=
  match a with
  | Some x => x
  | None => b
  end.

(** A [Record<string, string>] / [Map<string, V>]: keys in insertion
    order; assigning an existing key replaces its value in place. *)
Definition Dict (V : Type) := list (string * V).

Fixpoint get {V} (d : Dict V) (k : string) : option V :=
  match d with
  | [] => None
  | (k', v) :: d' => if String.eqb k' k then Some v else get d' k
  end.

Fixpoint set {V} (d : Dict V) (k : string) (v : V) : Dict V :=
  match d with
  | [] => [(k, v)]
  | (k', v') :: d' =>
      if String.eqb k' k then (k, v) :: d' else (k', v') :: set d' k v
  end.

End Js.

(** ** server/webhooks.ts *)

Module Webhooks.

Record WebhookOptions := {
  url : string;
  body : string;
  secret : string;
  maxRetries : option Z;
  idempotencyKey : option string;
  testMode : option bool
}.

(** What [sendSignedWebhook] resolves to. *)
Record DeliveryResult := { success : bool; status : Z }.

(** One [fetch] call: the request as handed to [fetch]. *)
Record Request := {
  req_url : string;
  req_method : string;
  req_headers : Js.Dict string;
  req_body : string
}.

(** [fetch] either resolves with a response (its status code) or
    rejects (connection refused, DNS failure, ...). *)
Inductive FetchOutcome :=
| Responded (code : Z)
| TransportError (msg : string).

(** [res.ok]: the status is in the range 200-299. *)
Definition ok (code : Z) : bool := (200 <=? code) && (code <=? 299).

(** What the outside world observes of a dispatch, in order. *)
Inductive Event :=
| EvFetch (r : Request) (o : FetchOutcome)
| EvSleep (ms : Z).

(** The world a dispatch runs in: the clock (ms since the epoch), the
    number of requests the network has answered, the number of random
    draws taken, and the events so far (oldest first). *)
Record World := {
  now : Z;
  fetched : nat;
  drawn : nat;
  events : list Event
}.

(** A settled promise. *)
Inductive Settled (A : Type) :=
| Fulfilled (a : A)
| Rejected (err : string).
Arguments Fulfilled {A} a.
Arguments Rejected {A} err.

Section Runtime.

(** [crypto.createHmac("sha256", key).update(msg).digest("hex")] *)
Variable hmac_sha256_hex : string -> string -> string.
(** The merchant endpoint: the outcome of the k-th request. *)
Variable endpoint : nat -> Request -> FetchOutcome.
(** How long the k-th request takes (ms). *)
Variable latency : nat -> Z.
(** The value of [Math.floor(Math.random() * 300)] at the k-th draw. *)
Variable jitter_draw : nat -> Z.

Definition computeSignature (secret payload : string) : string :=
  let h := hmac_sha256_hex secret payload in
  "sha256=" ++ h.

(** [await sleep(ms)] *)
Definition sleep (ms : Z) (w : World) : World :=
  {| now := now w + Z.max 0 ms;
     fetched := fetched w;
     drawn := drawn w;
     events := events w ++ [EvSleep ms] |}.

(** [await fetch(url, init)] *)
Definition fetch (r : Request) (w : World) : World * Settled Z :=
  let o := endpoint (fetched w) r in
  let w' := {| now := now w + Z.max 0 (latency (fetched w));
               fetched := S (fetched w);
               drawn := drawn w;
               events := events w ++ [EvFetch r o] |} in
  match o with
  | Responded code => (w', Fulfilled code)
  | TransportError msg => (w', Rejected msg)
  end.

(** [Math.floor(Math.random() * 300)] *)
Definition random_jitter (w : World) : World * Z :=
  ({| now := now w; fetched := fetched w; drawn := S (drawn w);
      events := events w |},
   jitter_draw (drawn w)).

Definition baseDelay : Z := 1000.

(** [Math.min(30000, baseDelay * 2 ** attempt + jitter)] *)
Definition backoffDelay (attempt jitter : Z) : Z :=
  Z.min 30000 (baseDelay * 2 ^ attempt + jitter).

(** The headers object built at the top of the [try] block. *)
Definition buildHeaders (opts : WebhookOptions)
    (signature timestamp : string) (attempt : Z) : Js.Dict string :=
  let headers :=
    [ ("Content-Type", "application/json");
      ("X-Gateway-Signature", signature);
      ("X-Gateway-Timestamp", timestamp);
      ("X-Gateway-Retry-Count", Js.Number_toString attempt) ] in
  let headers :=
    if Js.truthy_string (idempotencyKey opts)
    then Js.set headers "X-Gateway-Idempotency-Key"
                (Js.nullish (idempotencyKey opts) EmptyString)
    else headers in
  let headers :=
    if Js.truthy_bool (testMode opts)
    then Js.set headers "X-Gateway-Test-Mode" "true"
    else headers in
  headers.

Definition buildRequest (opts : WebhookOptions)
    (signature timestamp : string) (attempt : Z) : Request :=
  {| req_url := url opts;
     req_method := "POST";
     req_headers := buildHeaders opts signature timestamp attempt;
     req_body := body opts |}.

Definition failure : DeliveryResult := {| success := false; status := 0 |}.

(** The [while (attempt <= maxRetries)] loop.  The [try] block can
    only throw at [await fetch]; the [catch] block then does what
    the tail of the [try] block does after a non-ok response. *)
Equations? attemptLoop (opts : WebhookOptions) (maxRetries : Z)
    (signature timestamp : string) (attempt : Z) (w : World)
    : World * Settled DeliveryResult
    by wf (Z.to_nat (maxRetries + 1 - attempt)) lt :=
  attemptLoop opts maxRetries signature timestamp attempt w
    with Z_le_gt_dec attempt maxRetries := {
    | left _ =>
        match fetch (buildRequest opts signature timestamp attempt) w with
        | (w1, Fulfilled code) =>
            if ok code
            then (w1, Fulfilled {| success := true; status := code |})
            else
              let attempt' := attempt + 1 in
              let (w2, jitter) := random_jitter w1 in
              let delay := backoffDelay attempt' jitter in
              let w3 := sleep delay w2 in
              attemptLoop opts maxRetries signature timestamp attempt' w3
        | (w1, Rejected err) =>
            let attempt' := attempt + 1 in
            let (w2, jitter) := random_jitter w1 in
            let delay := backoffDelay attempt' jitter in
            let w3 := sleep delay w2 in
            attemptLoop opts maxRetries signature timestamp attempt' w3
        end
    | right _ => (w, Fulfilled failure) }.
Proof. all: lia. Qed.

Definition sendSignedWebhook (opts : WebhookOptions) (w : World)
    : World * Settled DeliveryResult :=
  let maxRetries := Js.nullish (maxRetries opts) 5 in
  let attempt := 0 in
  let timestamp := Js.Number_toString (now w / 1000) in
  let signature := computeSignature (secret opts) (body opts) in
  attemptLoop opts maxRetries signature timestamp attempt w.

End Runtime.

End Webhooks.

(** ** JSON values and string helpers *)

Module Json.

(** A parsed JSON document ([req.body] after [express.json()]).
    Numbers are the integral ones: every amount in this program is a
    count of minor currency units. *)
#[local] Unset Elimination Schemes.
Inductive t :=
| JNull
| JBool (b : bool)
| JNum (n : Z)
| JStr (s : string)
| JArr (items : list t)
| JObj (fields : list (string * t)).
#[local] Set Elimination Schemes.

(** [obj.key]; [None] is [undefined]. *)
Definition field (j : t) (k : string) : option t :=
  match j with
  | JObj fields => Js.get fields k
  | _ => None
  end.

(** An object literal in which [undefined] properties disappear, as
    they do under [JSON.stringify]. *)
Fixpoint object (props : list (string * option t)) : list (string * t) :=
  match props with
  | [] => []
  | (k, Some v) :: rest => (k, v) :: object rest
  | (_, None) :: rest => object rest
  end.

End Json.

Module Str.

(** [s.slice(0, n)] *)
Definition slice_to (n : nat) (s : string) : string := substring 0 n s.

(** [s.slice(-n)] *)
Definition slice_last (n : nat) (s : string) : string :=
  substring (String.length s - n) n s.

(** [s.startsWith(p)] *)
Definition startsWith (p s : string) : bool := prefix p s.

(** [s.includes(p)] *)
Fixpoint includes (p s : string) : bool :=
  prefix p s ||
  match s with
  | EmptyString => false
  | String _ s' => includes p s'
  end.

Definition upper_ascii (c : ascii) : ascii :=
  let n := nat_of_ascii c in
  if (Nat.leb 97 n && Nat.leb n 122)%bool then ascii_of_nat (n - 32) else c.

(** [s.toUpperCase()] on ASCII text. *)
Fixpoint toUpperCase (s : string) : string :=
  match s with
  | EmptyString => EmptyString
  | String c s' => String (upper_ascii c) (toUpperCase s')
  end.

(** [s.replace(/-/g, empty)] *)
Fixpoint remove_dashes (s : string) : string :=
  match s with
  | EmptyString => EmptyString
  | String c s' =>
      if Ascii.eqb c "-"%char then remove_dashes s'
      else String c (remove_dashes s')
  end.

(** [s] ends with [suffix]. *)
Definition endsWith (suffix s : string) : Prop :=
  exists front, s = front ++ suffix.

End Str.

(** ** shared/schema.ts *)

Module Schema.
Import Json.

Inductive PaymentMethod := card | upi | netbanking.

Definition PaymentMethod_name (m : PaymentMethod) : string :=
  match m with
  | card => "card"
  | upi => "upi"
  | netbanking => "netbanking"
  end.

Inductive TxStatus := success | failed.

Record BankAccount := {
  ba_id : string;
  accountHolderName : string;
  accountNumber : string;
  bankName : string;
  balance : Z
}.

Record Order := {
  o_id : string;
  o_name : string;
  o_email : string;
  o_phone : string;
  o_amount : Z
}.

Record Customer := {
  customer_id : string;
  c_name : option string;
  c_email : option string;
  c_phone : option string
}.

Record Plan := { plan_id : string; p_name : option string }.

Record CreateOrderV2 := {
  merchant_id : string;
  order_id : string;
  one_time_order_token : option string;
  amount_in_paisa : Z;
  currency : string;
  display_amount : option string;
  customer : option Customer;
  plan : option Plan;
  return_url : string;
  callback_url : string;
  test_mode : option bool;
  metadata : option Json.t;
  idempotency_key : option string
}.

Record Transaction := {
  t_id : string;
  t_orderId : string;
  t_amount : Z;
  t_paymentMethod : PaymentMethod;
  t_bankAccountId : option string;
  t_bankName : option string;
  t_status : TxStatus;
  t_failureReason : option string;
  t_timestamp : string
}.

Record CardDetails := {
  cardNumber : string;
  expiry : string;
  cvv : string;
  cardHolderName : string
}.

Record ProcessPaymentInput := {
  orderId : string;
  amount : Z;
  paymentMethod : PaymentMethod;
  bankAccountId : option string;
  cardDetails : option CardDetails;
  upiId : option string
}.

(** *** The zod combinators the schemas are built from.
    A parser takes the value of a property ([None] when the property
    is absent) and returns the parsed value, or [None] on an issue. *)

Definition Parser (A : Type) := option Json.t -> option A.

Definition z_string : Parser string :=
  fun j => match j with Some (JStr s) => Some s | _ => None end.

Definition z_number : Parser Z :=
  fun j => match j with Some (JNum n) => Some n | _ => None end.

Definition z_boolean : Parser bool :=
  fun j => match j with Some (JBool b) => Some b | _ => None end.

(** [p.optional()] *)
Definition z_optional {A} (p : Parser A) : Parser (option A) :=
  fun j => match j with
           | None => Some None
           | Some _ => option_map Some (p j)
           end.

(** [p.default(d)] *)
Definition z_default {A} (p : Parser A) (d : A) : Parser A :=
  fun j => match j with
           | None => Some d
           | Some _ => p j
           end.

(** [p.refine(check)], for [min], [max], [positive], [url]. *)
Definition z_check {A} (p : Parser A) (check : A -> bool) : Parser A :=
  fun j => match p j with
           | Some a => if check a then Some a else None
           | None => None
           end.

(** [z.record(z.any())]: any object that is not an array. *)
Definition z_record_any : Parser Json.t :=
  fun j => match j with Some (JObj f) => Some (JObj f) | _ => None end.

(** [z.enum(["card", "upi", "netbanking"])] *)
Definition z_paymentMethod : Parser PaymentMethod :=
  fun j => match z_string j with
           | Some s =>
               if String.eqb s "card" then Some card
               else if String.eqb s "upi" then Some upi
               else if String.eqb s "netbanking" then Some netbanking
               else None
           | None => None
           end.

(** [z.object({...})] applied to a property: the value must be an
    object; [fields] then parses its properties. *)
Definition z_object {A} (fields : Json.t -> option A) : Parser A :=
  fun j => match j with
           | Some (JObj f) => fields (JObj f)
           | _ => None
           end.

Notation "x <- e ;; k" :=
  (match e with Some x => k | None => None end)
  (at level 61, e at next level, right associativity).

Definition customerSchema : Parser Customer :=
  z_object (fun o =>
    cid <- z_string (field o "customer_id");;
    n <- z_optional z_string (field o "name");;
    e <- z_optional z_string (field o "email");;
    p <- z_optional z_string (field o "phone");;
    Some {| customer_id := cid; c_name := n; c_email := e; c_phone := p |}).

Definition planSchema : Parser Plan :=
  z_object (fun o =>
    pid <- z_string (field o "plan_id");;
    n <- z_optional z_string (field o "name");;
    Some {| plan_id := pid; p_name := n |}).

Section Zod.

(** The check behind [z.string().url()]. *)
Variable zod_url : string -> bool.

Definition token_length_ok (s : string) : bool :=
  (Nat.leb 32 (String.length s) && Nat.leb (String.length s) 128)%bool.

(** [createOrderV2Schema.safeParse(body)]; [None] is
    [{ success: false }]. *)
Definition createOrderV2Schema : Parser CreateOrderV2 :=
  z_object (fun o =>
    mid <- z_string (field o "merchant_id");;
    oid <- z_string (field o "order_id");;
    tok <- z_optional (z_check z_string token_length_ok)
             (field o "one_time_order_token");;
    amt <- z_check z_number (fun n => 0 <? n) (field o "amount_in_paisa");;
    cur <- z_default z_string "INR" (field o "currency");;
    disp <- z_optional z_string (field o "display_amount");;
    cust <- z_optional customerSchema (field o "customer");;
    pl <- z_optional planSchema (field o "plan");;
    ru <- z_check z_string zod_url (field o "return_url");;
    cu <- z_check z_string zod_url (field o "callback_url");;
    tm <- z_optional z_boolean (field o "test_mode");;
    md <- z_optional z_record_any (field o "metadata");;
    ik <- z_optional z_string (field o "idempotency_key");;
    Some {| merchant_id := mid; order_id := oid;
            one_time_order_token := tok; amount_in_paisa := amt;
            currency := cur; display_amount := disp; customer := cust;
            plan := pl; return_url := ru; callback_url := cu;
            test_mode := tm; metadata := md; idempotency_key := ik |}).

End Zod.

Definition cardDetailsSchema : Parser CardDetails :=
  z_object (fun o =>
    n <- z_string (field o "cardNumber");;
    e <- z_string (field o "expiry");;
    c <- z_string (field o "cvv");;
    h <- z_string (field o "cardHolderName");;
    Some {| cardNumber := n; expiry := e; cvv := c; cardHolderName := h |}).

(** [processPaymentSchema.safeParse(body)] *)
Definition processPaymentSchema : Parser ProcessPaymentInput :=
  z_object (fun o =>
    oid <- z_string (field o "orderId");;
    amt <- z_number (field o "amount");;
    pm <- z_paymentMethod (field o "paymentMethod");;
    ba <- z_optional z_string (field o "bankAccountId");;
    cd <- z_optional cardDetailsSchema (field o "cardDetails");;
    up <- z_optional z_string (field o "upiId");;
    Some {| orderId := oid; amount := amt; paymentMethod := pm;
            bankAccountId := ba; cardDetails := cd; upiId := up |}).

End Schema.

(** ** server/storage.ts *)

Module Storage.
Import Schema.

Inductive OrderStatus := CREATED | COMPLETED | FAILED.

(** The object [createOrderV2] stores, with the three properties the
    payment route later writes on it. *)
Record V2Order := {
  gateway_order_id : string;
  v_merchant_id : string;
  merchant_order_id : string;
  v_one_time_order_token : string;
  v_amount_in_paisa : Z;
  v_currency : string;
  v_display_amount : option string;
  v_customer : option Customer;
  v_plan : option Plan;
  v_return_url : string;
  v_callback_url : string;
  v_test_mode : bool;
  v_metadata : option Json.t;
  v_idempotency_key : option string;
  status : OrderStatus;
  created_at : string;
  paid_at : option string;
  transaction_id : option string
}.

(** [MemStorage]: the four maps, and how many values have been taken
    from [randomUUID] so far. *)
Record MemStorage := {
  bankAccounts : Js.Dict BankAccount;
  orders : Js.Dict Order;
  v2orders : Js.Dict V2Order;
  transactions : Js.Dict Transaction;
  uuids : nat
}.

Record CreatedV2 := {
  r_gateway_order_id : string;
  r_one_time_order_token : string;
  r_redirect_url : string
}.

Section Runtime.

(** The k-th value returned by [randomUUID()]. *)
Variable randomUUID : nat -> string.

Definition getBankAccount (id : string) (st : MemStorage)
    : option BankAccount :=
  Js.get (bankAccounts st) id.

Definition updateBankAccountBalance (id : string) (newBalance : Z)
    (st : MemStorage) : MemStorage * option BankAccount :=
  match Js.get (bankAccounts st) id with
  | Some account =>
      let account :=
        {| ba_id := ba_id account;
           accountHolderName := accountHolderName account;
           accountNumber := accountNumber account;
           bankName := bankName account;
           balance := newBalance |} in
      ({| bankAccounts := Js.set (bankAccounts st) id account;
          orders := orders st;
          v2orders := v2orders st;
          transactions := transactions st;
          uuids := uuids st |},
       Some account)
  | None => (st, None)
  end.

Definition createOrderV2 (order : CreateOrderV2) (nowIso : string)
    (st : MemStorage) : MemStorage * CreatedV2 :=
  let gatewayOrderId := "gw_" ++ Str.slice_to 8 (randomUUID (uuids st)) in
  let n1 := S (uuids st) in
  let '(token, n2) :=
    match one_time_order_token order with
    | Some t => (t, n1)
    | None =>
        ("ott_" ++ Str.slice_to 40 (Str.remove_dashes (randomUUID n1)),
         S n1)
    end in
  let stored :=
    {| gateway_order_id := gatewayOrderId;
       v_merchant_id := merchant_id order;
       merchant_order_id := order_id order;
       v_one_time_order_token := token;
       v_amount_in_paisa := amount_in_paisa order;
       v_currency :=
         if Js.truthy_string (Some (currency order))
         then currency order else "INR";
       v_display_amount := display_amount order;
       v_customer := customer order;
       v_plan := plan order;
       v_return_url := return_url order;
       v_callback_url := callback_url order;
       v_test_mode := Js.truthy_bool (test_mode order);
       v_metadata := metadata order;
       v_idempotency_key := idempotency_key order;
       status := CREATED;
       created_at := nowIso;
       paid_at := None;
       transaction_id := None |} in
  ({| bankAccounts := bankAccounts st;
      orders := orders st;
      v2orders := Js.set (v2orders st) gatewayOrderId stored;
      transactions := transactions st;
      uuids := n2 |},
   {| r_gateway_order_id := gatewayOrderId;
      r_one_time_order_token := token;
      r_redirect_url :=
        "https://localhost:5000/checkout?gw_order=" ++ gatewayOrderId |}).

Fixpoint find_by_merchant (vs : Js.Dict V2Order)
    (merchantId merchantOrderId : string) : option V2Order :=
  match vs with
  | [] => None
  | (_, v) :: rest =>
      if (String.eqb (v_merchant_id v) merchantId
          && String.eqb (merchant_order_id v) merchantOrderId)%bool
      then Some v
      else find_by_merchant rest merchantId merchantOrderId
  end.

Definition getOrderByMerchantId (merchantId merchantOrderId : string)
    (st : MemStorage) : option V2Order :=
  find_by_merchant (v2orders st) merchantId merchantOrderId.

Definition getV2Order (gatewayOrderId : string) (st : MemStorage)
    : option V2Order :=
  Js.get (v2orders st) gatewayOrderId.

Definition getOrder (id : string) (st : MemStorage) : option Order :=
  Js.get (orders st) id.

(** [transactionData] is the transaction without its [t_id]. *)
Definition createTransaction (transactionData : Transaction)
    (st : MemStorage) : MemStorage * Transaction :=
  let id :=
    "TXN_" ++ Str.toUpperCase (Str.slice_to 12 (randomUUID (uuids st))) in
  let transaction :=
    {| t_id := id;
       t_orderId := t_orderId transactionData;
       t_amount := t_amount transactionData;
       t_paymentMethod := t_paymentMethod transactionData;
       t_bankAccountId := t_bankAccountId transactionData;
       t_bankName := t_bankName transactionData;
       t_status := t_status transactionData;
       t_failureReason := t_failureReason transactionData;
       t_timestamp := t_timestamp transactionData |} in
  ({| bankAccounts := bankAccounts st;
      orders := orders st;
      v2orders := v2orders st;
      transactions := Js.set (transactions st) id transaction;
      uuids := S (uuids st) |},
   transaction).

End Runtime.

End Storage.

(** ** The route handlers of [registerRoutes] *)

Module Routes.
Import Schema Storage.

(** The part of a parsed [URL] the route reads. *)
Record URL := { protocol : string; hostname : string }.

(** What the handlers take from the platform and from the outside. *)
Record Runtime := {
  zod_url : string -> bool;          (* the check of z.string().url() *)
  URL_parse : string -> option URL;  (* new URL(s); None when it throws *)
  randomUUID : nat -> string;        (* the k-th randomUUID() *)
  Date_toISOString : Z -> string;    (* new Date(ms).toISOString() *)
  JSON_stringify : Json.t -> string;
  process_env : string -> option string;
  hmac_sha256_hex : string -> string -> string;
  endpoint : nat -> Webhooks.Request -> Webhooks.FetchOutcome;
  latency : nat -> Z;
  jitter_draw : nat -> Z
}.

(** The JSON bodies the two routes answer with.  The [details] of a
    validation failure are not modelled. *)
Inductive ResponseBody :=
| ErrorBody (error : string) (message : option string)
| OrderCreatedBody (gateway_order_id redirect_url token : string)
    (test_mode : bool)
| TransactionBody (t : Transaction).

Record HttpResponse := { code : Z; json : ResponseBody }.

(** The server process: its storage, the world its webhooks go out
    to, and what it wrote with [console.error]. *)
Record Server := {
  store : MemStorage;
  world : Webhooks.World;
  console : list string
}.

Definition with_store (sv : Server) (st : MemStorage) : Server :=
  {| store := st; world := world sv; console := console sv |}.

Section Handlers.

Variable rt : Runtime.

Definition nowIso (sv : Server) : string :=
  Date_toISOString rt (Webhooks.now (world sv)).

(** [u.protocol === "https:" || u.hostname === "localhost" ||
    u.hostname === "127.0.0.1"] *)
Definition url_allowed (u : URL) : bool :=
  String.eqb (protocol u) "https:"
  || String.eqb (hostname u) "localhost"
  || String.eqb (hostname u) "127.0.0.1".

(** [app.post("/api/v2/orders", ...)] *)
Definition post_v2_orders (body : Json.t) (sv : Server)
    : Server * HttpResponse :=
  match createOrderV2Schema (zod_url rt) (Some body) with
  | None =>
      (sv, {| code := 400; json := ErrorBody "Validation failed" None |})
  | Some data =>
      match URL_parse rt (return_url data),
            URL_parse rt (callback_url data) with
      | Some ru, Some cu =>
          let okReturn := url_allowed ru in
          let okCallback := url_allowed cu in
          if negb okReturn || negb okCallback
          then (sv, {| code := 400;
                       json := ErrorBody "ERR_URL_NOT_REGISTERED"
                         (Some "return_url and callback_url must be HTTPS and pre-registered") |})
          else
            let (st', created) :=
              createOrderV2 (randomUUID rt) data (nowIso sv) (store sv) in
            (with_store sv st',
             {| code := 201;
                json := OrderCreatedBody
                          (r_gateway_order_id created)
                          (r_redirect_url created)
                          (r_one_time_order_token created)
                          (Js.truthy_bool (test_mode data)) |})
      | _, _ =>
          (sv, {| code := 400;
                  json := ErrorBody "ERR_URL_NOT_REGISTERED"
                            (Some "invalid return_url or callback_url") |})
      end
  end.

(** Lines 106-115 of the payment route: [true] when the handler
    goes on, [false] when it answers 404 "Order not found". *)
Definition order_found (orderId : string) (st : MemStorage) : bool :=
  match getOrder orderId st with
  | Some _ => true
  | None =>
      if Js.truthy_string (Some orderId) && Str.startsWith "gw_" orderId
      then match getV2Order orderId st with
           | Some _ => true
           | None => false
           end
      else false
  end.

(** The simulated outcome of a payment (lines 117-149): [None] when
    the handler answers 404 "Bank account not found", else the
    storage after the debit, the status, the failure reason and the
    bank name. *)
Definition simulate_payment (data : ProcessPaymentInput) (st : MemStorage)
    : option (MemStorage * TxStatus * option string * option string) :=
  if match paymentMethod data with netbanking => true | _ => false end
     && Js.truthy_string (bankAccountId data)
  then
    match getBankAccount (Js.nullish (bankAccountId data) EmptyString) st with
    | None => None
    | Some bankAccount =>
        let bankName := Some (bankName bankAccount) in
        if balance bankAccount <? amount data
        then Some (st, failed,
                   Some "Insufficient balance in the selected bank account",
                   bankName)
        else
          let (st', _) :=
            updateBankAccountBalance
              (Js.nullish (bankAccountId data) EmptyString)
              (balance bankAccount - amount data) st in
          Some (st', success, None, bankName)
    end
  else
    match paymentMethod data, cardDetails data with
    | card, Some cardDetails =>
        let lastFourDigits := Str.slice_last 4 (cardNumber cardDetails) in
        if String.eqb lastFourDigits "0000"
        then Some (st, failed, Some "Card declined by issuer", None)
        else if String.eqb lastFourDigits "1111"
        then Some (st, failed, Some "Insufficient funds", None)
        else Some (st, success, None, None)
    | _, _ =>
        if match paymentMethod data with upi => true | _ => false end
           && Js.truthy_string (upiId data)
        then
          if Str.includes "fail" (Js.nullish (upiId data) EmptyString)
          then Some (st, failed, Some "UPI transaction declined", None)
          else Some (st, success, None, None)
        else Some (st, success, None, None)
    end.

(** The webhook body built for a v2 order (lines 184-197). *)
Definition webhook_payload (v2 : V2Order) (transaction : Transaction)
    (status : TxStatus) (data : ProcessPaymentInput) (paidAt : string)
    : Json.t :=
  Json.JObj (Json.object
    [ ("gateway_order_id", Some (Json.JStr (gateway_order_id v2)));
      ("merchant_order_id", Some (Json.JStr (merchant_order_id v2)));
      ("payment_ref", Some (Json.JStr (t_id transaction)));
      ("status", Some (Json.JStr
         match status with success => "SUCCESS" | failed => "FAILED" end));
      ("amount_in_paisa", Some (Json.JNum (v_amount_in_paisa v2)));
      ("currency", Some (Json.JStr (v_currency v2)));
      ("paid_at", Some (Json.JStr paidAt));
      ("payment_method", Some (Json.JStr
         (Str.toUpperCase (PaymentMethod_name (paymentMethod data)))));
      ("card",
         match paymentMethod data, cardDetails data with
         | card, Some cardDetails =>
             Some (Json.JObj (Json.object
               [ ("network", Some (Json.JStr EmptyString));
                 ("masked", Some (Json.JStr
                    ("****" ++ Str.slice_last 4 (cardNumber cardDetails))));
                 ("token_id", None) ]))
         | _, _ => None
         end);
      ("one_time_order_token",
         Some (Json.JStr (v_one_time_order_token v2)));
      ("test_mode", Some (Json.JBool (v_test_mode v2)));
      ("metadata", v_metadata v2) ]).

(** [v2.status = ...; v2.paid_at = ...; v2.transaction_id = ...]
    written on the object the map holds. *)
Definition mark_paid (v2 : V2Order) (status : TxStatus)
    (paidAt txId : string) : V2Order :=
  {| gateway_order_id := gateway_order_id v2;
     v_merchant_id := v_merchant_id v2;
     merchant_order_id := merchant_order_id v2;
     v_one_time_order_token := v_one_time_order_token v2;
     v_amount_in_paisa := v_amount_in_paisa v2;
     v_currency := v_currency v2;
     v_display_amount := v_display_amount v2;
     v_customer := v_customer v2;
     v_plan := v_plan v2;
     v_return_url := v_return_url v2;
     v_callback_url := v_callback_url v2;
     v_test_mode := v_test_mode v2;
     v_metadata := v_metadata v2;
     v_idempotency_key := v_idempotency_key v2;
     status := match status with
               | success => COMPLETED
               | failed => FAILED
               end;
     created_at := created_at v2;
     paid_at := Some paidAt;
     transaction_id := Some txId |}.

(** The webhook block of the payment route (lines 162-209): the
    storage after it, and the dispatches it started without
    awaiting them. *)
Definition notify_v2 (data : ProcessPaymentInput) (status : TxStatus)
    (transaction : Transaction) (iso : string) (st : MemStorage)
    : MemStorage * list Webhooks.WebhookOptions :=
  let v2order := getOrderByMerchantId EmptyString EmptyString st in
  match Js.get (v2orders st) (orderId data) with
  | Some v2 =>
      let v2 := mark_paid v2 status iso (t_id transaction) in
      let st' :=
        {| bankAccounts := bankAccounts st;
           orders := orders st;
           v2orders := Js.set (v2orders st) (orderId data) v2;
           transactions := transactions st;
           uuids := uuids st |} in
      let payload := webhook_payload v2 transaction status data iso in
      let raw := JSON_stringify rt payload in
      let secret :=
        if v_test_mode v2
        then Js.nullish (process_env rt "MERCHANT_TEST_WEBHOOK_SECRET")
                        "test_secret"
        else Js.nullish (process_env rt "MERCHANT_WEBHOOK_SECRET")
                        "prod_secret" in
      (st',
       [ {| Webhooks.url := v_callback_url v2;
            Webhooks.body := raw;
            Webhooks.secret := secret;
            Webhooks.maxRetries := None;
            Webhooks.idempotencyKey := Some (t_id transaction);
            Webhooks.testMode := Some (v_test_mode v2) |} ])
  | None => (st, [])
  end.

(** [storage.createTransaction({...})] of lines 151-160. *)
Definition transaction_for (data : ProcessPaymentInput) (sv : Server)
    (st1 : MemStorage) (status : TxStatus)
    (failureReason bankName : option string) : MemStorage * Transaction :=
  createTransaction (randomUUID rt)
    {| t_id := EmptyString;
       t_orderId := orderId data;
       t_amount := amount data;
       t_paymentMethod := paymentMethod data;
       t_bankAccountId := bankAccountId data;
       t_bankName := bankName;
       t_status := status;
       t_failureReason := failureReason;
       t_timestamp := nowIso sv |} st1.

(** [app.post("/api/process-payment", ...)] from the parsed input
    on: the server after the handler returned, its answer, and the
    dispatches left running. *)
Definition process_payment (data : ProcessPaymentInput) (sv : Server)
    : Server * HttpResponse * list Webhooks.WebhookOptions :=
  if negb (order_found (orderId data) (store sv))
  then (sv, {| code := 404; json := ErrorBody "Order not found" None |}, [])
  else
    match simulate_payment data (store sv) with
    | None =>
        (sv, {| code := 404;
                json := ErrorBody "Bank account not found" None |}, [])
    | Some (st1, status, failureReason, bankName) =>
        let (st2, transaction) :=
          transaction_for data sv st1 status failureReason bankName in
        let (st3, started) :=
          notify_v2 data status transaction (nowIso sv) st2 in
        (with_store sv st3,
         {| code := 201; json := TransactionBody transaction |},
         started)
    end.

(** The whole route, from [req.body]. *)
Definition post_process_payment (body : Json.t) (sv : Server)
    : Server * HttpResponse * list Webhooks.WebhookOptions :=
  match processPaymentSchema (Some body) with
  | None =>
      (sv, {| code := 400; json := ErrorBody "Validation failed" None |}, [])
  | Some data => process_payment data sv
  end.

(** A started dispatch running to its end, with the [.then]
    callback of line 203. *)
Definition settle (opts : Webhooks.WebhookOptions) (sv : Server) : Server :=
  let (w', r) :=
    Webhooks.sendSignedWebhook (hmac_sha256_hex rt) (endpoint rt)
      (latency rt) (jitter_draw rt) opts (world sv) in
  {| store := store sv;
     world := w';
     console :=
       match r with
       | Webhooks.Fulfilled r =>
           if negb (Webhooks.success r)
           then console sv
                ++ ["Webhook delivery failed for " ++ Webhooks.url opts]
           else console sv
       | Webhooks.Rejected _ => console sv
       end |}.

(** A payment event followed by the delivery it started. *)
Definition process_payment_and_deliver (data : ProcessPaymentInput)
    (sv : Server) : Server * HttpResponse :=
  let '(sv', res, started) := process_payment data sv in
  (fold_left (fun s o => settle o s) started sv', res).

End Handlers.

End Routes.

(** ** Observing a dispatch *)

Module Trace.
Import Webhooks.

(** A fetch outcome that ends the loop: a response with [res.ok]. *)
Definition delivered (o : FetchOutcome) : bool :=
  match o with
  | Responded code => ok code
  | TransportError _ => false
  end.

(** The requests sent, in order. *)
Fixpoint requests (evs : list Event) : list Request :=
  match evs with
  | [] => []
  | EvFetch r _ :: rest => r :: requests rest
  | EvSleep _ :: rest => requests rest
  end.

(** The suspensions taken, in order. *)
Fixpoint sleeps (evs : list Event) : list Z :=
  match evs with
  | [] => []
  | EvFetch _ _ :: rest => sleeps rest
  | EvSleep ms :: rest => ms :: sleeps rest
  end.

(** The events a computation added when it took [w] to [w']. *)
Definition produced (w w' : World) : list Event :=
  skipn (List.length (events w)) (events w').

(** The last event, if any. *)
Definition last_event (evs : list Event) : option Event :=
  nth_error evs (pred (List.length evs)).

(** A header of a request. *)
Definition header (r : Request) (name : string) : option string :=
  Js.get (req_headers r) name.

(** The request of attempt [i] of a dispatch started in world [w]. *)
Definition request_of (hmac_sha256_hex : string -> string -> string)
    (opts : WebhookOptions) (w : World) (i : Z) : Request :=
  buildRequest opts
    (computeSignature hmac_sha256_hex (secret opts) (body opts))
    (Js.Number_toString (now w / 1000)) i.

Section Relation.

Variable endpoint : nat -> Request -> FetchOutcome.
Variable latency : nat -> Z.
Variable jitter_draw : nat -> Z.
Variable mk : Z -> Request.
Variable maxRetries : Z.

(** The world after a failed iteration: the request, the draw, the
    suspension. *)
Definition after_failure (attempt : Z) (w : World) : World :=
  let w1 := fst (fetch endpoint latency (mk attempt) w) in
  sleep (backoffDelay (attempt + 1) (jitter_draw (drawn w1)))
        (fst (random_jitter jitter_draw w1)).

(** The runs of the loop, as a relation: from [attempt], with [k]
    requests answered and [d] draws taken so far, the loop adds the
    events [evs] and ends with the result [res]. *)
Inductive Dispatch : Z -> nat -> nat -> list Event -> DeliveryResult -> Prop :=
| D_exhausted attempt k d :
    attempt > maxRetries ->
    Dispatch attempt k d [] failure
| D_accepted attempt k d code :
    attempt <= maxRetries ->
    endpoint k (mk attempt) = Responded code ->
    ok code = true ->
    Dispatch attempt k d [EvFetch (mk attempt) (Responded code)]
             {| success := true; status := code |}
| D_retry attempt k d rest res :
    attempt <= maxRetries ->
    delivered (endpoint k (mk attempt)) = false ->
    Dispatch (attempt + 1) (S k) (S d) rest res ->
    Dispatch attempt k d
             (EvFetch (mk attempt) (endpoint k (mk attempt))
              :: EvSleep (backoffDelay (attempt + 1) (jitter_draw d))
              :: rest)
             res.

End Relation.
Arguments Dispatch endpoint jitter_draw mk maxRetries _ _ _ _ _ : assert.

End Trace.

(** ** Properties as the specification words them *)

Module Stated.
Import Webhooks.

(** The interval the specification gives for the delay: from
    [2^n * 1000] up to, but not including, [min(30000, 2^n * 1000) + 300]. *)
Definition in_specified_interval (n delay : Z) : Prop :=
  2 ^ n * 1000 <= delay < Z.min 30000 (2 ^ n * 1000) + 300.

(** Backoff taken only between attempts: the events of a dispatch
    never end with a suspension. *)
Definition backoff_only_between_attempts (evs : list Event) : Prop :=
  forall ms, Trace.last_event evs <> Some (EvSleep ms).

(** A payment event replayed on an order that is already terminal
    makes no second transition and starts no second dispatch. *)
Definition replay_is_noop (rt : Routes.Runtime)
    (data : Schema.ProcessPaymentInput) (sv : Routes.Server) : Prop :=
  forall v2,
    Js.get (Storage.v2orders (Routes.store sv)) (Schema.orderId data) = Some v2 ->
    Storage.status v2 <> Storage.CREATED ->
    let run := Routes.process_payment rt data sv in
    option_map Storage.status
      (Js.get (Storage.v2orders (Routes.store (fst (fst run))))
              (Schema.orderId data))
    = Some (Storage.status v2)
    /\ snd run = [].

(** An address the URL rule accepts: it parses, and it is HTTPS or
    its host is localhost or 127.0.0.1. *)
Definition url_acceptable (rt : Routes.Runtime) (s : string) : bool :=
  match Routes.URL_parse rt s with
  | Some u => Routes.url_allowed u
  | None => false
  end.

(** The same for a property of the request body, which may be absent
    or may not be a string. *)
Definition field_acceptable (rt : Routes.Runtime) (body : Json.t)
    (name : string) : bool :=
  match Json.field body name with
  | Some (Json.JStr s) => url_acceptable rt s
  | _ => false
  end.

(** The answer 400 with the code ERR_URL_NOT_REGISTERED, no order
    having been created. *)
Definition rejected_unregistered (sv : Routes.Server)
    (out : Routes.Server * Routes.HttpResponse) : Prop :=
  Routes.code (snd out) = 400
  /\ (exists message,
        Routes.json (snd out)
        = Routes.ErrorBody "ERR_URL_NOT_REGISTERED" message)
  /\ fst out = sv.

(** The URL rule of order creation: rejected as unregistered exactly
    when one of the two addresses is not acceptable. *)
Definition url_rule (rt : Routes.Runtime) (body : Json.t)
    (sv : Routes.Server) : Prop :=
  rejected_unregistered sv (Routes.post_v2_orders rt body sv)
  <-> (field_acceptable rt body "return_url" = false
       \/ field_acceptable rt body "callback_url" = false).

(** The status an order takes for a payment outcome. *)
Definition terminal_of (s : Schema.TxStatus) : Storage.OrderStatus :=
  match s with
  | Schema.success => Storage.COMPLETED
  | Schema.failed => Storage.FAILED
  end.

End Stated.

(** ** Concrete scenarios *)

Module Scenario.
Import Webhooks.

(** A stand-in digest. *)
Definition digest : string -> string -> string :=
  fun _ _ => "9f2c".

(** A merchant that accepts every request. *)
Definition accepting : nat -> Request -> FetchOutcome :=
  fun _ _ => Responded 200.

(** A merchant that answers 503 to every request. *)
Definition rejecting : nat -> Request -> FetchOutcome :=
  fun _ _ => Responded 503.

(** A merchant that answers 500 once and accepts from then on. *)
Definition flaky : nat -> Request -> FetchOutcome :=
  fun k _ => match k with O => Responded 500 | S _ => Responded 200 end.

(** A merchant that cannot be reached. *)
Definition unreachable : nat -> Request -> FetchOutcome :=
  fun _ _ => TransportError "ECONNREFUSED".

Definition quick : nat -> Z := fun _ => 40.

Definition steady_jitter : nat -> Z := fun _ => 0.

Definition hook : WebhookOptions :=
  {| url := "https://merchant.example/hook";
     body := "{}";
     secret := "test_secret";
     maxRetries := None;
     idempotencyKey := Some "TXN_0A1B2C3D4E5F";
     testMode := Some true |}.

Definition dawn : World :=
  {| now := 1700000000123; fetched := 0; drawn := 0; events := [] |}.

(** *** A server, a v2 order and two card payments *)

Import Routes.

(** [new URL] on the addresses used below. *)
Definition parse (s : string) : option URL :=
  if String.eqb s "https://merchant.example/return"
  then Some {| protocol := "https:"; hostname := "merchant.example" |}
  else if String.eqb s "https://merchant.example/hook"
  then Some {| protocol := "https:"; hostname := "merchant.example" |}
  else if String.eqb s "http://shop.example/return"
  then Some {| protocol := "http:"; hostname := "shop.example" |}
  else if String.eqb s "http://localhost:3000/hook"
  then Some {| protocol := "http:"; hostname := "localhost" |}
  else None.

Definition uuid (k : nat) : string :=
  match k with
  | 0%nat => "7d3f9a10-5c2e-4b1a-9e77-0a1b2c3d4e5f"
  | 1%nat => "c41e88b2-90aa-4f3d-8a16-5e6f7a8b9c0d"
  | 2%nat => "0b9d2f64-1e3c-4a5b-b7c8-d9e0f1a2b3c4"
  | _ => "e5f60718-293a-4b4c-8d5e-6f708192a3b4"
  end.

(** A platform whose [z.string().url()] accepts what [new URL] parses
    and whose merchant rejects every webhook. *)
Definition platform : Runtime :=
  {| zod_url := fun s => match parse s with Some _ => true | None => false end;
     URL_parse := parse;
     randomUUID := uuid;
     Date_toISOString := fun _ => "2023-11-14T22:13:20.123Z";
     JSON_stringify := fun _ => "{}";
     process_env := fun _ => None;
     hmac_sha256_hex := digest;
     endpoint := rejecting;
     latency := quick;
     jitter_draw := steady_jitter |}.

Definition boot : Server :=
  {| store := {| Storage.bankAccounts := [];
                 Storage.orders := [];
                 Storage.v2orders := [];
                 Storage.transactions := [];
                 Storage.uuids := 0 |};
     world := dawn;
     console := [] |}.

Definition order_body (return_url : string) : Json.t :=
  Json.JObj
    [ ("merchant_id", Json.JStr "m_42");
      ("order_id", Json.JStr "order-1001");
      ("amount_in_paisa", Json.JNum 49900);
      ("return_url", Json.JStr return_url);
      ("callback_url", Json.JStr "https://merchant.example/hook") ].

(** The same body without its [merchant_id]. *)
Definition anonymous_body (return_url : string) : Json.t :=
  Json.JObj
    [ ("order_id", Json.JStr "order-1001");
      ("amount_in_paisa", Json.JNum 49900);
      ("return_url", Json.JStr return_url);
      ("callback_url", Json.JStr "https://merchant.example/hook") ].

(** The server after the order was created; its id is [gw_7d3f9a10]. *)
Definition opened : Server :=
  fst (post_v2_orders platform
         (order_body "https://merchant.example/return") boot).

Definition card_payment (number : string) : Schema.ProcessPaymentInput :=
  {| Schema.orderId := "gw_7d3f9a10";
     Schema.amount := 49900;
     Schema.paymentMethod := Schema.card;
     Schema.bankAccountId := None;
     Schema.cardDetails :=
       Some {| Schema.cardNumber := number;
               Schema.expiry := "12/29";
               Schema.cvv := "123";
               Schema.cardHolderName := "A Customer" |};
     Schema.upiId := None |}.

(** The server after a first, successful card payment for the order. *)
Definition paid : Server :=
  fst (fst (process_payment platform (card_payment "4242424242424242") opened)).

End Scenario.

(** ** Bank accounts, v1 orders and the transaction list *)

Module MapOps.

(** [map.delete(k)]: the dictionary without [k], and whether [k] was
    there. *)
Fixpoint remove {V} (d : Js.Dict V) (k : string) : Js.Dict V :=
  match d with
  | [] => []
  | (k', v) :: d' =>
      if String.eqb k' k then remove d' k else (k', v) :: remove d' k
  end.

(** [map.has(k)] *)
Definition has {V} (d : Js.Dict V) (k : string) : bool :=
  match Js.get d k with
  | Some _ => true
  | None => false
  end.

(** [Array.from(map.values())] *)
Definition values {V} (d : Js.Dict V) : list V := map snd d.

(** The keys, in insertion order. *)
Definition keys {V} (d : Js.Dict V) : list string := map fst d.

End MapOps.

Module Ledger.
Import Json Schema Storage.

(** [InsertBankAccount]: a bank account without its id. *)
Record InsertBankAccount := {
  i_accountHolderName : string;
  i_accountNumber : string;
  i_bankName : string;
  i_balance : Z
}.

(** [Partial<InsertBankAccount>] *)
Record PartialBankAccount := {
  p_accountHolderName : option string;
  p_accountNumber : option string;
  p_bankName : option string;
  p_balance : option Z
}.

(** [InsertOrder]: a v1 order without its id. *)
Record InsertOrder := {
  i_name : string;
  i_email : string;
  i_phone : string;
  i_amount : Z
}.

(** [z.string().min(n)] *)
Definition min_length (n : nat) (s : string) : bool :=
  Nat.leb n (String.length s).

(** [insertBankAccountSchema = bankAccountSchema.omit({ id: true })] *)
Definition insertBankAccountSchema : Parser InsertBankAccount :=
  z_object (fun o =>
    h <- z_check z_string (min_length 1) (field o "accountHolderName");;
    n <- z_check z_string (min_length 10) (field o "accountNumber");;
    b <- z_check z_string (min_length 1) (field o "bankName");;
    bal <- z_check z_number (fun x => 0 <=? x) (field o "balance");;
    Some {| i_accountHolderName := h; i_accountNumber := n;
            i_bankName := b; i_balance := bal |}).

(** [insertBankAccountSchema.partial()] *)
Definition insertBankAccountSchema_partial : Parser PartialBankAccount :=
  z_object (fun o =>
    h <- z_optional (z_check z_string (min_length 1))
           (field o "accountHolderName");;
    n <- z_optional (z_check z_string (min_length 10))
           (field o "accountNumber");;
    b <- z_optional (z_check z_string (min_length 1)) (field o "bankName");;
    bal <- z_optional (z_check z_number (fun x => 0 <=? x))
             (field o "balance");;
    Some {| p_accountHolderName := h; p_accountNumber := n;
            p_bankName := b; p_balance := bal |}).

Section Runtime.

(** The k-th value returned by [randomUUID()]. *)
Variable randomUUID : nat -> string.
(** The check behind [z.string().email()]. *)
Variable zod_email : string -> bool.
(** [new Date(s).getTime()] on the timestamps the server writes. *)
Variable Date_getTime : string -> Z.

(** [insertOrderSchema = orderSchema.omit({ id: true })] *)
Definition insertOrderSchema : Parser InsertOrder :=
  z_object (fun o =>
    n <- z_check z_string (min_length 1) (field o "name");;
    e <- z_check z_string zod_email (field o "email");;
    p <- z_check z_string (min_length 10) (field o "phone");;
    a <- z_check z_number (fun x => 1 <=? x) (field o "amount");;
    Some {| i_name := n; i_email := e; i_phone := p; i_amount := a |}).

Definition createBankAccount (insertAccount : InsertBankAccount)
    (st : MemStorage) : MemStorage * BankAccount :=
  let id := randomUUID (uuids st) in
  let account :=
    {| ba_id := id;
       accountHolderName := i_accountHolderName insertAccount;
       accountNumber := i_accountNumber insertAccount;
       bankName := i_bankName insertAccount;
       balance := i_balance insertAccount |} in
  ({| bankAccounts := Js.set (bankAccounts st) id account;
      orders := orders st;
      v2orders := v2orders st;
      transactions := transactions st;
      uuids := S (uuids st) |},
   account).

Definition getBankAccounts (st : MemStorage) : list BankAccount :=
  MapOps.values (bankAccounts st).

(** [{ ...account, ...data }] *)
Definition merge_account (account : BankAccount) (data : PartialBankAccount)
    : BankAccount :=
  {| ba_id := ba_id account;
     accountHolderName :=
       Js.nullish (p_accountHolderName data) (accountHolderName account);
     accountNumber := Js.nullish (p_accountNumber data) (accountNumber account);
     bankName := Js.nullish (p_bankName data) (bankName account);
     balance := Js.nullish (p_balance data) (balance account) |}.

Definition updateBankAccount (id : string) (data : PartialBankAccount)
    (st : MemStorage) : MemStorage * option BankAccount :=
  match Js.get (bankAccounts st) id with
  | Some account =>
      let updatedAccount := merge_account account data in
      ({| bankAccounts := Js.set (bankAccounts st) id updatedAccount;
          orders := orders st;
          v2orders := v2orders st;
          transactions := transactions st;
          uuids := uuids st |},
       Some updatedAccount)
  | None => (st, None)
  end.

Definition deleteBankAccount (id : string) (st : MemStorage)
    : MemStorage * bool :=
  ({| bankAccounts := MapOps.remove (bankAccounts st) id;
      orders := orders st;
      v2orders := v2orders st;
      transactions := transactions st;
      uuids := uuids st |},
   MapOps.has (bankAccounts st) id).

Definition createOrder (insertOrder : InsertOrder) (st : MemStorage)
    : MemStorage * Order :=
  let id :=
    "ORD_" ++ Str.toUpperCase (Str.slice_to 8 (randomUUID (uuids st))) in
  let order :=
    {| o_id := id;
       o_name := i_name insertOrder;
       o_email := i_email insertOrder;
       o_phone := i_phone insertOrder;
       o_amount := i_amount insertOrder |} in
  ({| bankAccounts := bankAccounts st;
      orders := Js.set (orders st) id order;
      v2orders := v2orders st;
      transactions := transactions st;
      uuids := S (uuids st) |},
   order).

Definition getTransaction (id : string) (st : MemStorage)
    : option Transaction :=
  Js.get (transactions st) id.

(** The comparator of [getTransactions]:
    [new Date(b.timestamp).getTime() - new Date(a.timestamp).getTime()]. *)
Definition compare_newest_first (a b : Transaction) : Z :=
  Date_getTime (t_timestamp b) - Date_getTime (t_timestamp a).

(** [a] may stand before [b] in the list: it is not older. *)
Definition not_older (a b : Transaction) : Prop :=
  Date_getTime (t_timestamp b) <= Date_getTime (t_timestamp a).

(** [array.sort(cmp)].  The sort of the language is stable, which
    fixes its result for a comparator that is an order; it is
    written here as the insertion sort that keeps [x] before the
    elements it does not have to follow. *)
Fixpoint insert_by (cmp : Transaction -> Transaction -> Z) (x : Transaction)
    (l : list Transaction) : list Transaction :=
  match l with
  | [] => [x]
  | y :: l' =>
      if cmp x y <=? 0 then x :: y :: l' else y :: insert_by cmp x l'
  end.

Fixpoint Array_sort (cmp : Transaction -> Transaction -> Z)
    (l : list Transaction) : list Transaction :=
  match l with
  | [] => []
  | x :: l' => insert_by cmp x (Array_sort cmp l')
  end.

Definition getTransactions (st : MemStorage) : list Transaction :=
  Array_sort compare_newest_first (MapOps.values (transactions st)).

(** The three accounts of [seedInitialData]. *)
Definition initialAccounts : list InsertBankAccount :=
  [ {| i_accountHolderName := "John Doe";
       i_accountNumber := "1234567890123";
       i_bankName := "HDFC Bank";
       i_balance := 50000 |};
    {| i_accountHolderName := "Jane Smith";
       i_accountNumber := "9876543210987";
       i_bankName := "ICICI Bank";
       i_balance := 25000 |};
    {| i_accountHolderName := "Test User";
       i_accountNumber := "5555666677778888";
       i_bankName := "State Bank of India";
       i_balance := 1000 |} ].

(** [new MemStorage()]: four empty maps, then [seedInitialData]. *)
Definition MemStorage_new : MemStorage :=
  fold_left (fun st account => fst (createBankAccount account st))
    initialAccounts
    {| bankAccounts := []; orders := []; v2orders := [];
       transactions := []; uuids := 0 |}.

(** *** The routes over these *)

Inductive Body :=
| ErrorJson (error : string)
| AccountJson (a : BankAccount)
| AccountsJson (l : list BankAccount)
| OrderJson (o : Order)
| TransactionJson (t : Transaction)
| TransactionsJson (l : list Transaction)
| NoContent.

Record Reply := { r_code : Z; r_body : Body }.

(** [app.post("/api/create-account", ...)] *)
Definition post_create_account (body : Json.t) (sv : Routes.Server)
    : Routes.Server * Reply :=
  match insertBankAccountSchema (Some body) with
  | None => (sv, {| r_code := 400; r_body := ErrorJson "Validation failed" |})
  | Some data =>
      let (st', account) := createBankAccount data (Routes.store sv) in
      (Routes.with_store sv st',
       {| r_code := 201; r_body := AccountJson account |})
  end.

(** [app.get("/api/accounts", ...)] *)
Definition get_accounts (sv : Routes.Server) : Reply :=
  {| r_code := 200; r_body := AccountsJson (getBankAccounts (Routes.store sv)) |}.

(** [app.post("/api/create-order", ...)] *)
Definition post_create_order (body : Json.t) (sv : Routes.Server)
    : Routes.Server * Reply :=
  match insertOrderSchema (Some body) with
  | None => (sv, {| r_code := 400; r_body := ErrorJson "Validation failed" |})
  | Some data =>
      let (st', order) := createOrder data (Routes.store sv) in
      (Routes.with_store sv st', {| r_code := 201; r_body := OrderJson order |})
  end.

(** [app.get("/api/transactions/:id", ...)] *)
Definition get_transaction (id : string) (sv : Routes.Server) : Reply :=
  match getTransaction id (Routes.store sv) with
  | None => {| r_code := 404; r_body := ErrorJson "Transaction not found" |}
  | Some transaction => {| r_code := 200; r_body := TransactionJson transaction |}
  end.

(** [app.get("/api/transactions", ...)] *)
Definition get_transactions (sv : Routes.Server) : Reply :=
  {| r_code := 200;
     r_body := TransactionsJson (getTransactions (Routes.store sv)) |}.

(** [app.put("/api/accounts/:id", ...)] *)
Definition put_account (id : string) (body : Json.t) (sv : Routes.Server)
    : Routes.Server * Reply :=
  match insertBankAccountSchema_partial (Some body) with
  | None => (sv, {| r_code := 400; r_body := ErrorJson "Validation failed" |})
  | Some data =>
      match updateBankAccount id data (Routes.store sv) with
      | (st', None) =>
          (Routes.with_store sv st',
           {| r_code := 404; r_body := ErrorJson "Bank account not found" |})
      | (st', Some account) =>
          (Routes.with_store sv st',
           {| r_code := 200; r_body := AccountJson account |})
      end
  end.

(** [app.delete("/api/accounts/:id", ...)] *)
Definition delete_account (id : string) (sv : Routes.Server)
    : Routes.Server * Reply :=
  match deleteBankAccount id (Routes.store sv) with
  | (st', false) =>
      (Routes.with_store sv st',
       {| r_code := 404; r_body := ErrorJson "Bank account not found" |})
  | (st', true) =>
      (Routes.with_store sv st', {| r_code := 204; r_body := NoContent |})
  end.

End Runtime.

End Ledger.

(** ** Worst cases of a dispatch *)

Module Budget.

(** The sum of a list of durations. *)
Definition total (l : list Z) : Z := fold_right Z.add 0 l.

(** The longest the loop can sleep over its next [n] iterations from
    [attempt] on, the jitter being below 300. *)
Fixpoint worst_case_wait (n : nat) (attempt : Z) : Z :=
  match n with
  | O => 0
  | S n' =>
      Z.min 30000 (Webhooks.baseDelay * 2 ^ (attempt + 1) + 299)
      + worst_case_wait n' (attempt + 1)
  end.

End Budget.

(** ** Invariants of the storage *)

Module Inv.
Import Schema Storage.

(** No stored bank account has a negative balance. *)
Definition balances_nonneg (st : MemStorage) : Prop :=
  forall id account,
    Js.get (bankAccounts st) id = Some account -> 0 <= balance account.

(** Every v2 order is stored under its own gateway order id, which
    starts with gw_. *)
Definition v2_keys_wellformed (st : MemStorage) : Prop :=
  forall k v2,
    Js.get (v2orders st) k = Some v2 ->
    gateway_order_id v2 = k /\ Str.startsWith "gw_" k = true.


End Inv.

(** ** A shop with bank accounts *)

Module Bank.
Import Routes.

(** The server right after [new MemStorage()]. *)
Definition seeded : Server :=
  with_store Scenario.boot (Ledger.MemStorage_new Scenario.uuid).

(** The ids of the three seeded accounts, with balances 50000, 25000
    and 1000. *)
Definition john : string := Scenario.uuid 0.
Definition jane : string := Scenario.uuid 1.

Definition checkout_body : Json.t :=
  Json.JObj
    [ ("name", Json.JStr "Asha Rao");
      ("email", Json.JStr "asha@example.org");
      ("phone", Json.JStr "9876543210");
      ("amount", Json.JNum 49900) ].

(** The server after a v1 order was created; its id is
    [ORD_E5F60718]. *)
Definition shop : Server :=
  fst (Ledger.post_create_order Scenario.uuid (fun _ => true)
         checkout_body seeded).

Definition netbanking_payment (account : string) : Schema.ProcessPaymentInput :=
  {| Schema.orderId := "ORD_E5F60718";
     Schema.amount := 49900;
     Schema.paymentMethod := Schema.netbanking;
     Schema.bankAccountId := Some account;
     Schema.cardDetails := None;
     Schema.upiId := None |}.

End Bank.

(** * Properties *)

(** ** Strings and dictionaries *)

Lemma get_set_same {V} (d : Js.Dict V) k v : Js.get (Js.set d k v) k = Some v.
Proof.
  induction d as [|[k' v'] d IH]; simpl.
  - now rewrite String.eqb_refl.
  - destruct (String.eqb k' k) eqn:E; simpl.
    + now rewrite String.eqb_refl.
    + now rewrite E.
Qed.

Lemma get_set_other {V} (d : Js.Dict V) k k' v :
  k <> k' -> Js.get (Js.set d k v) k' = Js.get d k'.
Proof.
  intros Hne. induction d as [|[k0 v0] d IH]; simpl.
  - destruct (String.eqb_spec k k'); congruence.
  - destruct (String.eqb_spec k0 k) as [->|Hk]; simpl.
    + destruct (String.eqb_spec k k'); congruence.
    + now rewrite IH.
Qed.

Lemma length_app_string (a b : string) :
  String.length (a ++ b) = (String.length a + String.length b)%nat.
Proof. induction a; simpl; congruence. Qed.

Lemma substring_skip (a b : string) n :
  substring (String.length a) n (a ++ b) = substring 0 n b.
Proof. induction a; simpl; auto. Qed.

Lemma substring_all (s : string) : substring 0 (String.length s) s = s.
Proof. induction s; simpl; congruence. Qed.

Lemma slice_last_suffix (front suffix : string) :
  Str.slice_last (String.length suffix) (front ++ suffix) = suffix.
Proof.
  unfold Str.slice_last. rewrite length_app_string.
  replace (String.length front + String.length suffix - String.length suffix)%nat
    with (String.length front) by lia.
  rewrite substring_skip. apply substring_all.
Qed.

(** ** The delivery loop *)

Section DeliveryLoop.
Import Webhooks Trace.

Variable hmac_sha256_hex : string -> string -> string.
Variable endpoint : nat -> Request -> FetchOutcome.
Variable latency : nat -> Z.
Variable jitter_draw : nat -> Z.

Variable opts : WebhookOptions.
Variable maxRetries : Z.
Variables signature timestamp : string.

Notation mk := (buildRequest opts signature timestamp).
Notation loop :=
  (attemptLoop endpoint latency jitter_draw opts maxRetries
               signature timestamp).
Notation after := (after_failure endpoint latency jitter_draw).

Lemma attemptLoop_exit attempt w :
  attempt > maxRetries -> loop attempt w = (w, Fulfilled failure).
Proof.
  intros H. rewrite attemptLoop_equation_1.
  unfold attemptLoop_unfold_clause_1.
  destruct (Z_le_gt_dec attempt maxRetries); [lia | reflexivity].
Qed.

Lemma attemptLoop_accept attempt w code :
  attempt <= maxRetries ->
  endpoint (fetched w) (mk attempt) = Responded code ->
  ok code = true ->
  loop attempt w =
    (fst (fetch endpoint latency (mk attempt) w),
     Fulfilled {| success := true; status := code |}).
Proof.
  intros H Hc Hok. rewrite attemptLoop_equation_1.
  unfold attemptLoop_unfold_clause_1.
  destruct (Z_le_gt_dec attempt maxRetries); [|lia].
  unfold fetch. rewrite Hc. simpl. now rewrite Hok.
Qed.

Lemma attemptLoop_retry attempt w :
  attempt <= maxRetries ->
  delivered (endpoint (fetched w) (mk attempt)) = false ->
  loop attempt w = loop (attempt + 1) (after mk attempt w).
Proof.
  intros H Hd. rewrite attemptLoop_equation_1.
  unfold attemptLoop_unfold_clause_1 at 1.
  destruct (Z_le_gt_dec attempt maxRetries); [|lia].
  unfold after_failure, fetch.
  destruct (endpoint (fetched w) (mk attempt)) as [code|msg]; simpl in *.
  - now rewrite Hd.
  - reflexivity.
Qed.

Lemma delivered_inv o :
  delivered o = true -> exists code, o = Responded code /\ ok code = true.
Proof. destruct o; simpl; [eauto | discriminate]. Qed.

(** Every run of the loop is a run of [Dispatch], and it fulfils. *)
Lemma attemptLoop_dispatch attempt w :
  exists evs res,
    loop attempt w =
      (fst (loop attempt w), Fulfilled res)
    /\ events (fst (loop attempt w)) = (events w ++ evs)%list
    /\ Dispatch endpoint jitter_draw mk maxRetries
                attempt (fetched w) (drawn w) evs res.
Proof.
  remember (Z.to_nat (maxRetries + 1 - attempt)) as n eqn:Hn.
  revert attempt w Hn.
  induction n as [|n IH]; intros attempt w Hn.
  - exists [], failure.
    rewrite attemptLoop_exit by lia. simpl.
    rewrite app_nil_r. repeat split. constructor. lia.
  - assert (Hle : attempt <= maxRetries) by lia.
    destruct (delivered (endpoint (fetched w) (mk attempt))) eqn:Hd.
    + destruct (delivered_inv _ Hd) as (code & Hc & Hok).
      exists [EvFetch (mk attempt) (Responded code)],
             {| success := true; status := code |}.
      rewrite (attemptLoop_accept attempt w code Hle Hc Hok).
      unfold fetch. rewrite Hc. simpl. repeat split.
      now constructor.
    + rewrite (attemptLoop_retry attempt w Hle Hd).
      destruct (IH (attempt + 1) (after mk attempt w)) as
        (evs & res & Hr & He & HD); [lia|].
      exists (EvFetch (mk attempt) (endpoint (fetched w) (mk attempt))
              :: EvSleep (backoffDelay (attempt + 1) (jitter_draw (drawn w)))
              :: evs), res.
      split; [exact Hr|]. split.
      * rewrite He. unfold after_failure, fetch.
        destruct (endpoint (fetched w) (mk attempt)); simpl;
          rewrite <- !app_assoc; reflexivity.
      * constructor; auto.
        unfold after_failure, fetch in HD.
        destruct (endpoint (fetched w) (mk attempt)); simpl in HD; exact HD.
Qed.

End DeliveryLoop.

(** ** What every run of [Dispatch] satisfies *)

Section DispatchFacts.
Import Webhooks Trace.

Variable endpoint : nat -> Request -> FetchOutcome.
Variable jitter_draw : nat -> Z.
Variable mk : Z -> Request.
Variable maxRetries : Z.

Notation Run := (Dispatch endpoint jitter_draw mk maxRetries).

Lemma dispatch_requests_bound attempt k d evs res :
  Run attempt k d evs res ->
  (List.length (requests evs) <= Z.to_nat (maxRetries + 1 - attempt))%nat.
Proof.
  induction 1; simpl; try lia.
Qed.

Lemma dispatch_result attempt k d evs res :
  Run attempt k d evs res ->
  res = failure \/ (success res = true /\ ok (status res) = true).
Proof.
  induction 1; auto.
Qed.

Lemma dispatch_first_accepted attempt k d evs res code :
  Run attempt k d evs res ->
  attempt <= maxRetries ->
  endpoint k (mk attempt) = Responded code ->
  ok code = true ->
  evs = [EvFetch (mk attempt) (Responded code)]
  /\ res = {| success := true; status := code |}.
Proof.
  intros HR Hle Hc Hok. inversion HR; subst.
  - lia.
  - split; congruence.
  - rewrite Hc in *. simpl in *. congruence.
Qed.

Lemma dispatch_all_rejected attempt k d evs res :
  (forall k r, delivered (endpoint k r) = false) ->
  Run attempt k d evs res ->
  res = failure
  /\ List.length (requests evs) = Z.to_nat (maxRetries + 1 - attempt)
  /\ List.length (sleeps evs) = Z.to_nat (maxRetries + 1 - attempt).
Proof.
  intros Hall. induction 1.
  - simpl. repeat split; lia.
  - specialize (Hall k (mk attempt)). rewrite H0 in Hall. simpl in Hall.
    congruence.
  - destruct IHDispatch as (-> & Hr & Hs). simpl. repeat split; lia.
Qed.

Lemma last_event_cons2 e1 e2 rest :
  rest <> [] -> last_event (e1 :: e2 :: rest) = last_event rest.
Proof.
  unfold last_event. destruct rest as [|e3 rest]; [congruence|].
  intros _. reflexivity.
Qed.

Lemma dispatch_all_rejected_last attempt k d evs res :
  (forall k r, delivered (endpoint k r) = false) ->
  Run attempt k d evs res ->
  attempt <= maxRetries ->
  exists j, last_event evs = Some (EvSleep (backoffDelay (maxRetries + 1) j)).
Proof.
  intros Hall. induction 1; intros Hle.
  - lia.
  - specialize (Hall k (mk attempt)). rewrite H0 in Hall. simpl in Hall.
    congruence.
  - destruct (Z_le_gt_dec (attempt + 1) maxRetries) as [Hnext|Hlast].
    + destruct (IHDispatch Hnext) as [j Hj]. exists j.
      rewrite last_event_cons2; [exact Hj|].
      intros ->. discriminate Hj.
    + inversion H1; subst; try lia.
      exists (jitter_draw d). replace (maxRetries + 1) with (attempt + 1) by lia.
      reflexivity.
Qed.

Lemma dispatch_nth_request attempt k d evs res i r :
  Run attempt k d evs res ->
  nth_error (requests evs) i = Some r ->
  r = mk (attempt + Z.of_nat i).
Proof.
  intros HR. revert i. induction HR; intros i Hi; simpl in Hi.
  - destruct i; discriminate.
  - destruct i as [|[|i]]; simpl in Hi; try discriminate.
    injection Hi as <-. f_equal. lia.
  - destruct i as [|i]; simpl in Hi.
    + injection Hi as <-. f_equal. lia.
    + rewrite (IHHR i Hi). f_equal. lia.
Qed.

Lemma half_SS i : (S (S i) / 2 = S (i / 2))%nat.
Proof.
  change (S (S i)) with (2 + i)%nat.
  replace (2 + i)%nat with (i + 1 * 2)%nat by lia.
  rewrite Nat.div_add by lia. lia.
Qed.

(** A failed request is followed at once by a suspension, whatever
    the attempt number. *)
Lemma dispatch_sleep_follows attempt k d evs res i r o :
  Run attempt k d evs res ->
  nth_error evs i = Some (EvFetch r o) ->
  delivered o = false ->
  exists j,
    nth_error evs (S i)
    = Some (EvSleep (backoffDelay (attempt + Z.of_nat (i / 2) + 1) j)).
Proof.
  intros HR. revert i. induction HR; intros i Hi Hd.
  - destruct i; discriminate.
  - destruct i as [|[|i]]; simpl in Hi; try discriminate.
    injection Hi as <- <-. simpl in Hd. congruence.
  - destruct i as [|[|i]]; simpl in Hi; try discriminate.
    + exists (jitter_draw d). simpl. do 3 f_equal. lia.
    + destruct (IHHR i Hi Hd) as [j Hj]. exists j.
      change (nth_error (_ :: _ :: rest) (S (S (S i))))
        with (nth_error rest (S i)).
      rewrite Hj, half_SS. do 3 f_equal. lia.
Qed.

(** A suspension is never the first event and always comes right
    after a failed request. *)
Lemma dispatch_sleep_preceded attempt k d evs res i ms :
  Run attempt k d evs res ->
  nth_error evs i = Some (EvSleep ms) ->
  exists i' r o,
    i = S i' /\ nth_error evs i' = Some (EvFetch r o) /\ delivered o = false.
Proof.
  intros HR. revert i. induction HR; intros i Hi.
  - destruct i; discriminate.
  - destruct i as [|[|i]]; simpl in Hi; discriminate.
  - destruct i as [|[|i]]; simpl in Hi; try discriminate.
    + exists 0%nat, (mk attempt), (endpoint k (mk attempt)). auto.
    + destruct (IHHR i Hi) as (i' & r & o & -> & Hf & Hd).
      exists (S (S i')), r, o. auto.
Qed.

End DispatchFacts.

(** ** [sendSignedWebhook] as a run of [Dispatch] *)

Section Send.
Import Webhooks Trace.

Variable hmac_sha256_hex : string -> string -> string.
Variable endpoint : nat -> Request -> FetchOutcome.
Variable latency : nat -> Z.
Variable jitter_draw : nat -> Z.

Notation send := (sendSignedWebhook hmac_sha256_hex endpoint latency jitter_draw).

Lemma produced_app w w' evs :
  events w' = (events w ++ evs)%list -> produced w w' = evs.
Proof.
  unfold produced. intros ->.
  rewrite skipn_app, skipn_all, Nat.sub_diag. reflexivity.
Qed.

Lemma send_dispatch opts w :
  exists res,
    snd (send opts w) = Fulfilled res
    /\ Dispatch endpoint jitter_draw (request_of hmac_sha256_hex opts w)
                (Js.nullish (maxRetries opts) 5)
                0 (fetched w) (drawn w) (produced w (fst (send opts w))) res.
Proof.
  unfold sendSignedWebhook.
  destruct (attemptLoop_dispatch endpoint latency jitter_draw opts
              (Js.nullish (maxRetries opts) 5)
              (computeSignature hmac_sha256_hex (secret opts) (body opts))
              (Js.Number_toString (now w / 1000)) 0 w)
    as (evs & res & Hr & He & HD).
  exists res. rewrite Hr at 1. split; [reflexivity|].
  rewrite (produced_app _ _ _ He). exact HD.
Qed.

End Send.

(** ** The retry budget *)

(** C1. With the default [maxRetries] of 5, a dispatch sends at most
    6 requests; when the first response is 2xx it resolves to success
    with that status after exactly one request and nothing else; when
    every request fails (non-2xx response or transport error) it sends
    exactly 6 requests and resolves to the failure result. *)
Theorem default_budget_is_six_attempts
    (hmac_sha256_hex : string -> string -> string)
    (endpoint : nat -> Webhooks.Request -> Webhooks.FetchOutcome)
    (latency jitter_draw : nat -> Z)
    (opts : Webhooks.WebhookOptions) (w : Webhooks.World) :
  Webhooks.maxRetries opts = None ->
  let run :=
    Webhooks.sendSignedWebhook hmac_sha256_hex endpoint latency jitter_draw
      opts w in
  let evs := Trace.produced w (fst run) in
  let first := Trace.request_of hmac_sha256_hex opts w 0 in
  (List.length (Trace.requests evs) <= 6)%nat
  /\ (forall code,
        endpoint (Webhooks.fetched w) first = Webhooks.Responded code ->
        Webhooks.ok code = true ->
        snd run = Webhooks.Fulfilled
                    {| Webhooks.success := true; Webhooks.status := code |}
        /\ evs = [Webhooks.EvFetch first (Webhooks.Responded code)])
  /\ ((forall k r, Trace.delivered (endpoint k r) = false) ->
        snd run = Webhooks.Fulfilled Webhooks.failure
        /\ List.length (Trace.requests evs) = 6%nat).
Proof.
  intros Hdef run evs first.
  destruct (send_dispatch hmac_sha256_hex endpoint latency jitter_draw opts w)
    as (res & Hres & HD).
  fold run in Hres, HD. fold evs in HD.
  rewrite Hdef in HD. simpl in HD.
  split; [|split].
  - apply dispatch_requests_bound in HD. simpl in HD. exact HD.
  - intros code Hc Hok.
    destruct (dispatch_first_accepted _ _ _ _ _ _ _ _ _ code HD) as [He Hr];
      auto; try lia.
    rewrite Hres, Hr. auto.
  - intros Hall.
    destruct (dispatch_all_rejected _ _ _ _ _ _ _ _ _ Hall HD) as (-> & Hn & _).
    rewrite Hres. split; [reflexivity|]. rewrite Hn. reflexivity.
Qed.

Lemma default_budget_is_six_attempts_witness :
  (let run :=
     Webhooks.sendSignedWebhook Scenario.digest Scenario.accepting
       Scenario.quick Scenario.steady_jitter Scenario.hook Scenario.dawn in
   snd run = Webhooks.Fulfilled
               {| Webhooks.success := true; Webhooks.status := 200 |}
   /\ List.length (Trace.requests (Trace.produced Scenario.dawn (fst run)))
      = 1%nat)
  /\
  (let run :=
     Webhooks.sendSignedWebhook Scenario.digest Scenario.rejecting
       Scenario.quick Scenario.steady_jitter Scenario.hook Scenario.dawn in
   snd run = Webhooks.Fulfilled Webhooks.failure
   /\ List.length (Trace.requests (Trace.produced Scenario.dawn (fst run)))
      = 6%nat).
Proof.
  split.
  - destruct (default_budget_is_six_attempts Scenario.digest Scenario.accepting
                Scenario.quick Scenario.steady_jitter Scenario.hook
                Scenario.dawn eq_refl) as (_ & Hfirst & _).
    destruct (Hfirst 200 eq_refl eq_refl) as [Hr He].
    split; [exact Hr|]. cbv zeta. rewrite He. reflexivity.
  - destruct (default_budget_is_six_attempts Scenario.digest Scenario.rejecting
                Scenario.quick Scenario.steady_jitter Scenario.hook
                Scenario.dawn eq_refl) as (_ & _ & Hall).
    apply Hall. intros k r. reflexivity.
Defined.

(** ** The backoff delay *)

(** C3, as stated, fails: at attempt 5 the cap of 30000 ms is below
    the lower bound [2^5 * 1000 = 32000] of the stated interval. *)
Lemma backoff_interval_fails_at_attempt_5 :
  1 <= 5 <= 6 /\ 0 <= 0 < 300
  /\ Webhooks.backoffDelay 5 0 = 30000
  /\ ~ Stated.in_specified_interval 5 (Webhooks.backoffDelay 5 0).
Proof.
  repeat split; try lia; try reflexivity.
  unfold Stated.in_specified_interval. vm_compute. intros [H _]. apply H. reflexivity.
Qed.

(** C3, amended. For every attempt number [n] in [1,6] and every
    jitter in [0,300) the delay is [min(30000, 1000 * 2^n + jitter)];
    it lies in [[min(30000, 2^n * 1000), min(30000, 2^n * 1000) + 300)],
    never exceeds 30300 ms (not even 30000), and reaches the
    uncapped lower bound [2^n * 1000] exactly when [n <= 4]. *)
Theorem backoff_delay_bounds (n jitter : Z) :
  1 <= n <= 6 ->
  0 <= jitter < 300 ->
  let delay := Webhooks.backoffDelay n jitter in
  delay = Z.min 30000 (1000 * 2 ^ n + jitter)
  /\ Z.min 30000 (2 ^ n * 1000) <= delay < Z.min 30000 (2 ^ n * 1000) + 300
  /\ delay <= 30000
  /\ delay <= 30300
  /\ (Stated.in_specified_interval n delay <-> n <= 4).
Proof.
  intros Hn Hj. unfold Stated.in_specified_interval, Webhooks.backoffDelay,
    Webhooks.baseDelay. cbv zeta.
  assert (Hcases : n = 1 \/ n = 2 \/ n = 3 \/ n = 4 \/ n = 5 \/ n = 6) by lia.
  destruct Hcases as [-> | [-> | [-> | [-> | [-> | ->]]]]];
    change (2 ^ 1) with 2; change (2 ^ 2) with 4; change (2 ^ 3) with 8;
    change (2 ^ 4) with 16; change (2 ^ 5) with 32; change (2 ^ 6) with 64;
    lia.
Qed.

Lemma backoff_delay_bounds_witness :
  Webhooks.backoffDelay 3 299 = Z.min 30000 (1000 * 2 ^ 3 + 299)
  /\ Z.min 30000 (2 ^ 3 * 1000) <= Webhooks.backoffDelay 3 299
       < Z.min 30000 (2 ^ 3 * 1000) + 300
  /\ Webhooks.backoffDelay 3 299 <= 30000
  /\ Webhooks.backoffDelay 3 299 <= 30300
  /\ (Stated.in_specified_interval 3 (Webhooks.backoffDelay 3 299) <-> 3 <= 4).
Proof.
  apply (backoff_delay_bounds 3 299); lia.
Defined.

(** ** Suspensions *)

(** C4 (the backoff is taken only between attempts, none after the
    final attempt) does not hold of the loop: against a merchant that
    rejects everything, with the default budget, the dispatch sends 6
    requests and suspends 6 times, and its last event is a suspension
    of 30000 ms after the final attempt, before it resolves to
    failure. *)
Lemma suspension_follows_final_attempt :
  let run :=
    Webhooks.sendSignedWebhook Scenario.digest Scenario.rejecting
      Scenario.quick Scenario.steady_jitter Scenario.hook Scenario.dawn in
  let evs := Trace.produced Scenario.dawn (fst run) in
  snd run = Webhooks.Fulfilled Webhooks.failure
  /\ List.length (Trace.requests evs) = 6%nat
  /\ Trace.sleeps evs = [2000; 4000; 8000; 16000; 30000; 30000]
  /\ Trace.last_event evs = Some (Webhooks.EvSleep 30000)
  /\ ~ Stated.backoff_only_between_attempts evs.
Proof.
  cbv zeta.
  assert (Hlast :
    Trace.last_event
      (Trace.produced Scenario.dawn
         (fst (Webhooks.sendSignedWebhook Scenario.digest Scenario.rejecting
                 Scenario.quick Scenario.steady_jitter Scenario.hook
                 Scenario.dawn)))
    = Some (Webhooks.EvSleep 30000)) by (vm_compute; reflexivity).
  repeat split; try (vm_compute; reflexivity); try exact Hlast.
  intros Hclaim. exact (Hclaim 30000 Hlast).
Qed.

(** What the loop does in general: the backoff is taken after every
    failed attempt, the final one included.  A request that fails
    (attempt number [i / 2] at position [i] of the trace) is followed
    at once by a suspension of [backoffDelay] of the incremented
    attempt number; a suspension occurs nowhere else; and when every
    attempt fails the dispatch suspends as often as it sends, its last
    event being the suspension for attempt number [maxRetries + 1],
    before it resolves to failure. *)
Lemma backoff_after_every_failed_attempt
    (hmac_sha256_hex : string -> string -> string)
    (endpoint : nat -> Webhooks.Request -> Webhooks.FetchOutcome)
    (latency jitter_draw : nat -> Z)
    (opts : Webhooks.WebhookOptions) (w : Webhooks.World) :
  let run :=
    Webhooks.sendSignedWebhook hmac_sha256_hex endpoint latency jitter_draw
      opts w in
  let evs := Trace.produced w (fst run) in
  let maxRetries := Js.nullish (Webhooks.maxRetries opts) 5 in
  (forall i r o,
     nth_error evs i = Some (Webhooks.EvFetch r o) ->
     Trace.delivered o = false ->
     exists j,
       nth_error evs (S i)
       = Some (Webhooks.EvSleep
                 (Webhooks.backoffDelay (Z.of_nat (i / 2) + 1) j)))
  /\ (forall i ms,
        nth_error evs i = Some (Webhooks.EvSleep ms) ->
        exists i' r o,
          i = S i'
          /\ nth_error evs i' = Some (Webhooks.EvFetch r o)
          /\ Trace.delivered o = false)
  /\ ((forall k r, Trace.delivered (endpoint k r) = false) ->
      0 <= maxRetries ->
      snd run = Webhooks.Fulfilled Webhooks.failure
      /\ List.length (Trace.sleeps evs) = List.length (Trace.requests evs)
      /\ exists j,
           Trace.last_event evs
           = Some (Webhooks.EvSleep
                     (Webhooks.backoffDelay (maxRetries + 1) j))).
Proof.
  intros run evs maxRetries.
  destruct (send_dispatch hmac_sha256_hex endpoint latency jitter_draw opts w)
    as (res & Hres & HD).
  fold run in Hres, HD. fold evs in HD. fold maxRetries in HD.
  split; [|split].
  - intros i r o Hi Hd.
    destruct (dispatch_sleep_follows _ _ _ _ _ _ _ _ _ _ _ _ HD Hi Hd)
      as [j Hj].
    exists j. exact Hj.
  - intros i ms Hi.
    exact (dispatch_sleep_preceded _ _ _ _ _ _ _ _ _ _ _ HD Hi).
  - intros Hall Hmr.
    destruct (dispatch_all_rejected _ _ _ _ _ _ _ _ _ Hall HD)
      as (Hf & Hn & Hs).
    rewrite Hres, Hf, Hn, Hs. repeat split.
    apply (dispatch_all_rejected_last _ _ _ _ _ _ _ _ _ Hall HD). lia.
Qed.

Lemma backoff_after_every_failed_attempt_example :
  let run :=
    Webhooks.sendSignedWebhook Scenario.digest Scenario.rejecting
      Scenario.quick Scenario.steady_jitter Scenario.hook Scenario.dawn in
  let evs := Trace.produced Scenario.dawn (fst run) in
  snd run = Webhooks.Fulfilled Webhooks.failure
  /\ List.length (Trace.sleeps evs) = List.length (Trace.requests evs)
  /\ exists j,
       Trace.last_event evs
       = Some (Webhooks.EvSleep (Webhooks.backoffDelay (5 + 1) j)).
Proof.
  apply (backoff_after_every_failed_attempt Scenario.digest Scenario.rejecting
           Scenario.quick Scenario.steady_jitter Scenario.hook Scenario.dawn).
  - intros k r. reflexivity.
  - simpl. lia.
Defined.

(** ** Headers *)

(** C5. Within one dispatch the signature, which is the text sha256=
    followed by the hex HMAC-SHA256 of the body under the secret, and
    the timestamp, the clock in whole seconds when the dispatch
    started, are the same on every request, and request number [i]
    (from 0) carries [i] as its retry count. *)
Theorem headers_fixed_within_a_dispatch
    (hmac_sha256_hex : string -> string -> string)
    (endpoint : nat -> Webhooks.Request -> Webhooks.FetchOutcome)
    (latency jitter_draw : nat -> Z)
    (opts : Webhooks.WebhookOptions) (w : Webhooks.World)
    (i : nat) (r : Webhooks.Request) :
  let run :=
    Webhooks.sendSignedWebhook hmac_sha256_hex endpoint latency jitter_draw
      opts w in
  nth_error (Trace.requests (Trace.produced w (fst run))) i = Some r ->
  Webhooks.computeSignature hmac_sha256_hex
    (Webhooks.secret opts) (Webhooks.body opts)
  = "sha256=" ++ hmac_sha256_hex (Webhooks.secret opts) (Webhooks.body opts)
  /\ Trace.header r "X-Gateway-Signature"
     = Some (Webhooks.computeSignature hmac_sha256_hex
               (Webhooks.secret opts) (Webhooks.body opts))
  /\ Trace.header r "X-Gateway-Timestamp"
     = Some (Js.Number_toString (Webhooks.now w / 1000))
  /\ Trace.header r "X-Gateway-Retry-Count"
     = Some (Js.Number_toString (Z.of_nat i)).
Proof.
  intros run Hi.
  destruct (send_dispatch hmac_sha256_hex endpoint latency jitter_draw opts w)
    as (res & Hres & HD).
  fold run in HD.
  rewrite (dispatch_nth_request _ _ _ _ _ _ _ _ _ _ _ HD Hi).
  split; [reflexivity|].
  unfold Trace.header, Trace.request_of, Webhooks.buildRequest,
    Webhooks.buildHeaders.
  cbn [Webhooks.req_headers].
  destruct (Js.truthy_string (Webhooks.idempotencyKey opts));
    destruct (Js.truthy_bool (Webhooks.testMode opts));
    cbn; auto.
Qed.

Lemma headers_fixed_within_a_dispatch_witness :
  let r := Trace.request_of Scenario.digest Scenario.hook Scenario.dawn 1 in
  Webhooks.computeSignature Scenario.digest "test_secret" "{}" = "sha256=9f2c"
  /\ Trace.header r "X-Gateway-Signature" = Some "sha256=9f2c"
  /\ Trace.header r "X-Gateway-Timestamp" = Some "1700000000"
  /\ Trace.header r "X-Gateway-Retry-Count" = Some "1".
Proof.
  exact (headers_fixed_within_a_dispatch Scenario.digest Scenario.flaky
           Scenario.quick Scenario.steady_jitter Scenario.hook Scenario.dawn
           1%nat
           (Trace.request_of Scenario.digest Scenario.hook Scenario.dawn 1)
           eq_refl).
Defined.

(** ** The promise *)

(** C9. [sendSignedWebhook] always fulfils and never rejects; a
    result that is not a success is exactly [{success: false,
    status: 0}]; and when every attempt fails, with whatever status
    code or transport error, the result is that one, the status of
    the last response being dropped. *)
Theorem sendSignedWebhook_never_rejects
    (hmac_sha256_hex : string -> string -> string)
    (endpoint : nat -> Webhooks.Request -> Webhooks.FetchOutcome)
    (latency jitter_draw : nat -> Z)
    (opts : Webhooks.WebhookOptions) (w : Webhooks.World) :
  let run :=
    Webhooks.sendSignedWebhook hmac_sha256_hex endpoint latency jitter_draw
      opts w in
  (exists res,
     snd run = Webhooks.Fulfilled res
     /\ (Webhooks.success res = false ->
         res = {| Webhooks.success := false; Webhooks.status := 0 |}))
  /\ ((forall k r, Trace.delivered (endpoint k r) = false) ->
      snd run = Webhooks.Fulfilled
                  {| Webhooks.success := false; Webhooks.status := 0 |}).
Proof.
  intros run.
  destruct (send_dispatch hmac_sha256_hex endpoint latency jitter_draw opts w)
    as (res & Hres & HD).
  fold run in Hres, HD.
  split.
  - exists res. split; [exact Hres|].
    destruct (dispatch_result _ _ _ _ _ _ _ _ _ HD) as [->|[Hs _]].
    + reflexivity.
    + congruence.
  - intros Hall.
    destruct (dispatch_all_rejected _ _ _ _ _ _ _ _ _ Hall HD) as (Hf & _).
    rewrite Hres, Hf. reflexivity.
Qed.

Lemma sendSignedWebhook_never_rejects_witness :
  snd (Webhooks.sendSignedWebhook Scenario.digest Scenario.unreachable
         Scenario.quick Scenario.steady_jitter Scenario.hook Scenario.dawn)
  = Webhooks.Fulfilled {| Webhooks.success := false; Webhooks.status := 0 |}.
Proof.
  apply (sendSignedWebhook_never_rejects Scenario.digest Scenario.unreachable
           Scenario.quick Scenario.steady_jitter Scenario.hook Scenario.dawn).
  intros k r. reflexivity.
Defined.

(** ** The payment route *)

Section PaymentRoute.
Import Schema Storage Routes.

Variable rt : Runtime.

Lemma updateBankAccountBalance_frame id newBalance st :
  v2orders (fst (updateBankAccountBalance id newBalance st)) = v2orders st
  /\ uuids (fst (updateBankAccountBalance id newBalance st)) = uuids st.
Proof.
  unfold updateBankAccountBalance.
  destruct (Js.get (bankAccounts st) id); auto.
Qed.

Lemma simulate_payment_frame data st st1 s fr bn :
  simulate_payment data st = Some (st1, s, fr, bn) ->
  v2orders st1 = v2orders st.
Proof.
  unfold simulate_payment.
  destruct (_ && _).
  - destruct (getBankAccount _ st) as [acct|]; [|discriminate].
    destruct (balance acct <? amount data).
    + intros [= <- _ _ _]. reflexivity.
    + destruct (updateBankAccountBalance _ _ st) as [st' o] eqn:E.
      intros [= <- _ _ _].
      change st' with (fst (st', o)). rewrite <- E.
      apply updateBankAccountBalance_frame.
  - destruct (paymentMethod data), (cardDetails data);
      repeat match goal with
             | |- context [if ?b then _ else _] => destruct b
             end;
      intros [= <- _ _ _]; reflexivity.
Qed.

Lemma transaction_for_fields data sv st1 s fr bn :
  t_status (snd (transaction_for rt data sv st1 s fr bn)) = s
  /\ t_failureReason (snd (transaction_for rt data sv st1 s fr bn)) = fr
  /\ v2orders (fst (transaction_for rt data sv st1 s fr bn)) = v2orders st1.
Proof. repeat split. Qed.

(** The three ways the handler ends. *)
Lemma process_payment_cases data sv :
  (order_found (orderId data) (store sv) = false
   /\ process_payment rt data sv
      = (sv, {| code := 404; json := ErrorBody "Order not found" None |}, []))
  \/ (order_found (orderId data) (store sv) = true
      /\ simulate_payment data (store sv) = None
      /\ process_payment rt data sv
         = (sv, {| code := 404;
                   json := ErrorBody "Bank account not found" None |}, []))
  \/ (exists st1 s fr bn,
        order_found (orderId data) (store sv) = true
        /\ simulate_payment data (store sv) = Some (st1, s, fr, bn)
        /\ let tx := transaction_for rt data sv st1 s fr bn in
           let out := notify_v2 rt data s (snd tx) (nowIso rt sv) (fst tx) in
           process_payment rt data sv
           = (with_store sv (fst out),
              {| code := 201; json := TransactionBody (snd tx) |},
              snd out)).
Proof.
  unfold process_payment.
  destruct (order_found (orderId data) (store sv)); cbn [negb]; auto.
  right.
  destruct (simulate_payment data (store sv)) as [[[[st1 s] fr] bn]|]; auto.
  right. exists st1, s, fr, bn. split; [reflexivity|]. split; [reflexivity|].
  cbv zeta.
  destruct (transaction_for rt data sv st1 s fr bn) as [st2 tx].
  cbn [fst snd].
  destruct (notify_v2 rt data s tx (nowIso rt sv) st2). reflexivity.
Qed.

(** What the webhook block does to the orders and what it starts. *)
Lemma notify_v2_present data s tx iso st v2 :
  Js.get (v2orders st) (orderId data) = Some v2 ->
  let out := notify_v2 rt data s tx iso st in
  v2orders (fst out)
  = Js.set (v2orders st) (orderId data) (mark_paid v2 s iso (t_id tx))
  /\ exists o, snd out = [o]
               /\ Webhooks.url o = v_callback_url v2
               /\ Webhooks.idempotencyKey o = Some (t_id tx).
Proof.
  intros H. unfold notify_v2. rewrite H. simpl. split; [reflexivity|].
  eexists. split; [reflexivity|]. simpl. auto.
Qed.

Lemma notify_v2_absent data s tx iso st :
  Js.get (v2orders st) (orderId data) = None ->
  notify_v2 rt data s tx iso st = (st, []).
Proof. intros H. unfold notify_v2. now rewrite H. Qed.

Lemma settle_store o sv : store (settle rt o sv) = store sv.
Proof.
  unfold settle.
  destruct (Webhooks.sendSignedWebhook _ _ _ _ o (world sv)). reflexivity.
Qed.

Lemma settle_all_store started sv :
  store (fold_left (fun s o => settle rt o s) started sv) = store sv.
Proof.
  revert sv. induction started as [|o rest IH]; intros sv; simpl.
  - reflexivity.
  - rewrite IH. apply settle_store.
Qed.

End PaymentRoute.

Section Lifecycle.
Import Schema Storage Routes.

Variable rt : Runtime.

Lemma terminal_of_mark_paid v2 s iso id :
  status (mark_paid v2 s iso id) = Stated.terminal_of s.
Proof. destruct s; reflexivity. Qed.

Lemma terminal_of_not_created s : Stated.terminal_of s <> CREATED.
Proof. destruct s; discriminate. Qed.

(** A dispatch is started only by an event that leaves its order in
    a terminal status. *)
Lemma dispatch_only_on_terminal data sv :
  let run := process_payment rt data sv in
  snd run <> [] ->
  exists v2',
    Js.get (v2orders (store (fst (fst run)))) (orderId data) = Some v2'
    /\ (status v2' = COMPLETED \/ status v2' = FAILED).
Proof.
  intros run Hne. subst run.
  destruct (process_payment_cases rt data sv)
    as [[_ E]|[(_ & _ & E)|(st1 & s & fr & bn & _ & Hsim & E)]];
    cbv zeta in E; rewrite E in *; cbn [fst snd] in *; try congruence.
  destruct (Js.get (v2orders (fst (transaction_for rt data sv st1 s fr bn)))
                   (orderId data)) as [v2|] eqn:Hget.
  - destruct (notify_v2_present rt data s
                (snd (transaction_for rt data sv st1 s fr bn))
                (nowIso rt sv) _ v2 Hget) as [Hset _].
    eexists. cbn [store with_store]. rewrite Hset, get_set_same.
    split; [reflexivity|]. destruct s; auto.
  - rewrite (notify_v2_absent rt data s _ _ _ Hget) in Hne.
    cbn [snd] in Hne. congruence.
Qed.

(** An event that completes marks the v2 order it names and starts
    one dispatch. *)
Lemma completed_event_marks_order data sv v2 st1 s fr bn :
  Js.get (v2orders (store sv)) (orderId data) = Some v2 ->
  simulate_payment data (store sv) = Some (st1, s, fr, bn) ->
  let tx := transaction_for rt data sv st1 s fr bn in
  let out := notify_v2 rt data s (snd tx) (nowIso rt sv) (fst tx) in
  v2orders (fst out)
  = Js.set (v2orders (store sv)) (orderId data)
      (mark_paid v2 s (nowIso rt sv) (t_id (snd tx)))
  /\ exists o, snd out = [o].
Proof.
  intros Hget Hsim tx out.
  assert (Hframe : v2orders (fst tx) = v2orders (store sv)).
  { subst tx. cbn [fst transaction_for createTransaction v2orders].
    exact (simulate_payment_frame _ _ _ _ _ _ Hsim). }
  assert (Hget' : Js.get (v2orders (fst tx)) (orderId data) = Some v2)
    by (rewrite Hframe; exact Hget).
  destruct (notify_v2_present rt data s (snd tx) (nowIso rt sv) _ v2 Hget')
    as [Hset [o [Ho _]]].
  fold out in Hset, Ho. rewrite Hset, Hframe. split; [reflexivity|].
  exists o. exact Ho.
Qed.

End Lifecycle.

(** ** Order status *)

(** C2, as stated, fails: the order [gw_7d3f9a10], COMPLETED by a
    first card payment, is moved to FAILED by a replayed payment
    with a declined card, and a second dispatch is started. *)
Lemma replayed_payment_transitions_again :
  let order_status (sv : Routes.Server) :=
    option_map Storage.status
      (Js.get (Storage.v2orders (Routes.store sv)) "gw_7d3f9a10") in
  let replay := Scenario.card_payment "4000000000000000" in
  let run := Routes.process_payment Scenario.platform replay Scenario.paid in
  order_status Scenario.opened = Some Storage.CREATED
  /\ order_status Scenario.paid = Some Storage.COMPLETED
  /\ order_status (fst (fst run)) = Some Storage.FAILED
  /\ List.length (snd run) = 1%nat
  /\ ~ Stated.replay_is_noop Scenario.platform replay Scenario.paid.
Proof.
  cbv zeta.
  repeat split; try (vm_compute; reflexivity).
  intros Hnoop.
  assert (E : exists v2,
             Js.get (Storage.v2orders (Routes.store Scenario.paid))
                    (Schema.orderId (Scenario.card_payment "4000000000000000"))
             = Some v2 /\ Storage.status v2 = Storage.COMPLETED)
    by (vm_compute; eexists; split; reflexivity).
  destruct E as (v2 & Hget & Hst).
  destruct (Hnoop v2 Hget) as [_ Hnone].
  - rewrite Hst. discriminate.
  - vm_compute in Hnone. discriminate.
Qed.

(** C2, amended. A payment-processing event that completes for a v2
    order writes a terminal status, COMPLETED for a successful payment
    and FAILED for a declined one, whatever the order's current
    status, and starts one webhook dispatch each time; so a status
    never goes back to CREATED, an event that is answered with an
    error changes nothing and starts nothing, and no other order is
    touched. *)
Theorem payment_event_writes_terminal_status
    (rt : Routes.Runtime) (data : Schema.ProcessPaymentInput)
    (sv : Routes.Server) (v2 : Storage.V2Order) :
  Js.get (Storage.v2orders (Routes.store sv)) (Schema.orderId data) = Some v2 ->
  let run := Routes.process_payment rt data sv in
  let sv' := fst (fst run) in
  let res := snd (fst run) in
  let started := snd run in
  exists v2',
    Js.get (Storage.v2orders (Routes.store sv')) (Schema.orderId data)
    = Some v2'
    /\ (Storage.status v2 <> Storage.CREATED ->
        Storage.status v2' <> Storage.CREATED)
    /\ (forall t,
          Routes.json res = Routes.TransactionBody t ->
          Storage.status v2' = Stated.terminal_of (Schema.t_status t)
          /\ exists o, started = [o])
    /\ (Routes.code res <> 201 -> v2' = v2 /\ started = [])
    /\ (forall k,
          k <> Schema.orderId data ->
          Js.get (Storage.v2orders (Routes.store sv')) k
          = Js.get (Storage.v2orders (Routes.store sv)) k).
Proof.
  intros Hget run sv' res started. subst sv' res started run.
  destruct (process_payment_cases rt data sv)
    as [[_ E]|[(_ & _ & E)|(st1 & s & fr & bn & _ & Hsim & E)]];
    cbv zeta in E; rewrite E; cbn [fst snd Routes.json Routes.code].
  - exists v2. repeat split; auto; try discriminate.
  - exists v2. repeat split; auto; try discriminate.
  - destruct (completed_event_marks_order rt data sv v2 st1 s fr bn Hget Hsim)
      as [Hset [o Ho]].
    cbn [Routes.store Routes.with_store]. rewrite Hset.
    eexists. split; [apply get_set_same|].
    split; [intros _; rewrite terminal_of_mark_paid;
            apply terminal_of_not_created|].
    split; [|split].
    + intros t [= <-]. rewrite terminal_of_mark_paid.
      split; [reflexivity|]. exists o. exact Ho.
    + intros Hc. exfalso. apply Hc. reflexivity.
    + intros k Hk. apply get_set_other. congruence.
Qed.

Lemma payment_event_writes_terminal_status_witness :
  let run :=
    Routes.process_payment Scenario.platform
      (Scenario.card_payment "4000000000000000") Scenario.paid in
  exists v2',
    Js.get (Storage.v2orders (Routes.store (fst (fst run)))) "gw_7d3f9a10"
    = Some v2'
    /\ Storage.status v2' = Storage.FAILED
    /\ exists o, snd run = [o].
Proof.
  cbv zeta.
  match eval vm_compute in
        (Js.get (Storage.v2orders (Routes.store Scenario.paid)) "gw_7d3f9a10")
  with
  | Some ?v =>
      destruct (payment_event_writes_terminal_status Scenario.platform
                  (Scenario.card_payment "4000000000000000") Scenario.paid v)
        as (v2' & Hget' & _ & Hdone & _);
        [vm_compute; reflexivity|]
  end.
  assert (Et : exists t,
             Routes.json
               (snd (fst (Routes.process_payment Scenario.platform
                            (Scenario.card_payment "4000000000000000")
                            Scenario.paid)))
             = Routes.TransactionBody t
             /\ Schema.t_status t = Schema.failed)
    by (vm_compute; eexists; split; reflexivity).
  destruct Et as (t & Ht & Hs).
  destruct (Hdone t Ht) as [Hst Ho]. rewrite Hs in Hst.
  exists v2'. split; [exact Hget'|]. split; assumption.
Defined.

(** ** Delivery and the stored status *)

(** C6. Running the started delivery to its end leaves the storage
    exactly as the handler left it, whatever the merchant answers: a
    v2 order that a payment event moved to COMPLETED or FAILED still
    has that status after the delivery, also when every attempt
    failed. *)
Theorem delivery_outcome_leaves_status
    (rt : Routes.Runtime) (data : Schema.ProcessPaymentInput)
    (sv : Routes.Server) :
  let handled := Routes.process_payment rt data sv in
  let settled := Routes.process_payment_and_deliver rt data sv in
  Routes.store (fst settled) = Routes.store (fst (fst handled))
  /\ snd settled = snd (fst handled)
  /\ forall v2 t,
       Js.get (Storage.v2orders (Routes.store sv)) (Schema.orderId data)
       = Some v2 ->
       Routes.json (snd settled) = Routes.TransactionBody t ->
       option_map Storage.status
         (Js.get (Storage.v2orders (Routes.store (fst settled)))
                 (Schema.orderId data))
       = Some (Stated.terminal_of (Schema.t_status t)).
Proof.
  intros handled settled.
  assert (Hstore : Routes.store (fst settled) = Routes.store (fst (fst handled))
                   /\ snd settled = snd (fst handled)).
  { subst settled handled. unfold Routes.process_payment_and_deliver.
    destruct (Routes.process_payment rt data sv) as [[sv' res] started].
    cbn [fst snd]. split; [apply settle_all_store | reflexivity]. }
  destruct Hstore as [Hstore Hres].
  split; [exact Hstore|]. split; [exact Hres|].
  intros v2 t Hget Ht. rewrite Hstore. rewrite Hres in Ht.
  subst handled.
  destruct (process_payment_cases rt data sv)
    as [[_ E]|[(_ & _ & E)|(st1 & s & fr & bn & _ & Hsim & E)]];
    cbv zeta in E; rewrite E in *; cbn [fst snd Routes.json] in *;
    try discriminate.
  injection Ht as <-.
  destruct (completed_event_marks_order rt data sv v2 st1 s fr bn Hget Hsim)
    as [Hset _].
  cbn [Routes.store Routes.with_store]. rewrite Hset, get_set_same.
  cbn [option_map]. now rewrite terminal_of_mark_paid.
Qed.

Lemma delivery_outcome_leaves_status_witness :
  let settled :=
    Routes.process_payment_and_deliver Scenario.platform
      (Scenario.card_payment "4242424242424242") Scenario.opened in
  option_map Storage.status
    (Js.get (Storage.v2orders (Routes.store (fst settled))) "gw_7d3f9a10")
  = Some Storage.COMPLETED
  /\ Routes.console (fst settled)
     = ["Webhook delivery failed for https://merchant.example/hook"]
  /\ List.length
       (Trace.requests (Webhooks.events (Routes.world (fst settled))))
     = 6%nat.
Proof.
  cbv zeta. split; [|split; vm_compute; reflexivity].
  match eval vm_compute in
        (Js.get (Storage.v2orders (Routes.store Scenario.opened)) "gw_7d3f9a10",
         Routes.json
           (snd (Routes.process_payment_and_deliver Scenario.platform
                   (Scenario.card_payment "4242424242424242")
                   Scenario.opened)))
  with
  | (Some ?v, Routes.TransactionBody ?t) =>
      destruct (delivery_outcome_leaves_status Scenario.platform
                  (Scenario.card_payment "4242424242424242") Scenario.opened)
        as (_ & _ & Hkept);
      exact (Hkept v t ltac:(vm_compute; reflexivity)
                       ltac:(vm_compute; reflexivity))
  end.
Defined.

(** ** The simulated outcome *)

Section Outcome.
Import Schema Storage Routes.

Variable rt : Runtime.

Lemma simulate_card data st cd :
  paymentMethod data = card ->
  cardDetails data = Some cd ->
  simulate_payment data st
  = if String.eqb (Str.slice_last 4 (cardNumber cd)) "0000"
    then Some (st, failed, Some "Card declined by issuer", None)
    else if String.eqb (Str.slice_last 4 (cardNumber cd)) "1111"
    then Some (st, failed, Some "Insufficient funds", None)
    else Some (st, success, None, None).
Proof.
  intros Hm Hc. unfold simulate_payment. rewrite Hm, Hc. reflexivity.
Qed.

Lemma simulate_without_details data st :
  (paymentMethod data = card /\ cardDetails data = None)
  \/ (paymentMethod data = upi /\ upiId data = None)
  \/ (paymentMethod data = netbanking /\ bankAccountId data = None) ->
  simulate_payment data st = Some (st, success, None, None).
Proof.
  unfold simulate_payment.
  intros [[Hm Hd]|[[Hm Hd]|[Hm Hd]]]; rewrite Hm, Hd; cbn.
  - reflexivity.
  - destruct (cardDetails data); reflexivity.
  - destruct (cardDetails data); reflexivity.
Qed.

(** The answer to an event whose order is found and whose outcome is
    computed. *)
Lemma process_payment_answer data sv st1 s fr bn :
  order_found (orderId data) (store sv) = true ->
  simulate_payment data (store sv) = Some (st1, s, fr, bn) ->
  exists t,
    snd (fst (process_payment rt data sv))
    = {| code := 201; json := TransactionBody t |}
    /\ t_status t = s
    /\ t_failureReason t = fr.
Proof.
  intros Hfound Hsim.
  destruct (process_payment_cases rt data sv)
    as [[E _]|[(_ & E & _)|(st1' & s' & fr' & bn' & _ & Hsim' & E)]];
    try congruence.
  cbv zeta in E. rewrite E. cbn [fst snd].
  rewrite Hsim in Hsim'. injection Hsim' as <- <- <- <-.
  eexists. split; [reflexivity|]. split; reflexivity.
Qed.

End Outcome.

(** C8. For a card payment with card details on an order that is
    found: a card number ending in 0000 yields a transaction with
    status failed and the reason Card declined by issuer; a number
    ending in 4242 yields a transaction with status success; and
    when the order named by the event is not left in a terminal
    status, no webhook dispatch is started. *)
Theorem card_outcomes_and_dispatch
    (rt : Routes.Runtime) (data : Schema.ProcessPaymentInput)
    (sv : Routes.Server) (cd : Schema.CardDetails) :
  Schema.paymentMethod data = Schema.card ->
  Schema.cardDetails data = Some cd ->
  Routes.order_found (Schema.orderId data) (Routes.store sv) = true ->
  let run := Routes.process_payment rt data sv in
  let order_status :=
    option_map Storage.status
      (Js.get (Storage.v2orders (Routes.store (fst (fst run))))
              (Schema.orderId data)) in
  (Str.endsWith "0000" (Schema.cardNumber cd) ->
   exists t,
     snd (fst run)
     = {| Routes.code := 201; Routes.json := Routes.TransactionBody t |}
     /\ Schema.t_status t = Schema.failed
     /\ Schema.t_failureReason t = Some "Card declined by issuer")
  /\ (Str.endsWith "4242" (Schema.cardNumber cd) ->
      exists t,
        snd (fst run)
        = {| Routes.code := 201; Routes.json := Routes.TransactionBody t |}
        /\ Schema.t_status t = Schema.success)
  /\ (order_status <> Some Storage.COMPLETED ->
      order_status <> Some Storage.FAILED ->
      snd run = []).
Proof.
  intros Hm Hc Hfound run order_status.
  split; [|split].
  - intros [front Hn].
    pose proof (simulate_card data (Routes.store sv) cd Hm Hc) as Hsim.
    rewrite Hn in Hsim.
    pose proof (slice_last_suffix front "0000") as Hlast.
    cbn [String.length] in Hlast. rewrite Hlast in Hsim. cbn in Hsim.
    exact (process_payment_answer rt data sv _ _ _ _ Hfound Hsim).
  - intros [front Hn].
    pose proof (simulate_card data (Routes.store sv) cd Hm Hc) as Hsim.
    rewrite Hn in Hsim.
    pose proof (slice_last_suffix front "4242") as Hlast.
    cbn [String.length] in Hlast. rewrite Hlast in Hsim. cbn in Hsim.
    destruct (process_payment_answer rt data sv _ _ _ _ Hfound Hsim)
      as (t & Ht & Hs & _).
    exists t. auto.
  - intros Hnc Hnf.
    destruct (snd run) as [|o rest] eqn:Hstarted; [reflexivity|].
    exfalso.
    destruct (dispatch_only_on_terminal rt data sv) as (v2' & Hget & Hst).
    { fold run. rewrite Hstarted. discriminate. }
    fold run in Hget. subst order_status. rewrite Hget in Hnc, Hnf.
    cbn [option_map] in Hnc, Hnf.
    destruct Hst as [Hst|Hst]; rewrite Hst in *; congruence.
Qed.

Lemma card_outcomes_and_dispatch_witness :
  (exists t,
     snd (fst (Routes.process_payment Scenario.platform
                 (Scenario.card_payment "4000000000000000") Scenario.opened))
     = {| Routes.code := 201; Routes.json := Routes.TransactionBody t |}
     /\ Schema.t_status t = Schema.failed
     /\ Schema.t_failureReason t = Some "Card declined by issuer")
  /\
  (exists t,
     snd (fst (Routes.process_payment Scenario.platform
                 (Scenario.card_payment "4242424242424242") Scenario.opened))
     = {| Routes.code := 201; Routes.json := Routes.TransactionBody t |}
     /\ Schema.t_status t = Schema.success).
Proof.
  split.
  - apply (card_outcomes_and_dispatch Scenario.platform
             (Scenario.card_payment "4000000000000000") Scenario.opened
             {| Schema.cardNumber := "4000000000000000";
                Schema.expiry := "12/29";
                Schema.cvv := "123";
                Schema.cardHolderName := "A Customer" |});
      try reflexivity.
    exists "400000000000". reflexivity.
  - apply (card_outcomes_and_dispatch Scenario.platform
             (Scenario.card_payment "4242424242424242") Scenario.opened
             {| Schema.cardNumber := "4242424242424242";
                Schema.expiry := "12/29";
                Schema.cvv := "123";
                Schema.cardHolderName := "A Customer" |});
      try reflexivity.
    exists "424242424242". reflexivity.
Defined.

(** C10. When the details of the chosen method are absent, a card
    payment without card details, a UPI payment without a UPI id or
    a netbanking payment without a bank account id, no decline is
    simulated: for an order that is found the answer is a transaction
    with status success and no failure reason.  The schema accepts
    such a request: a body with only the order id, the amount and the
    method parses, the three optional properties being absent. *)
Theorem missing_details_always_succeed
    (rt : Routes.Runtime) (data : Schema.ProcessPaymentInput)
    (sv : Routes.Server) :
  Routes.order_found (Schema.orderId data) (Routes.store sv) = true ->
  (Schema.paymentMethod data = Schema.card
   /\ Schema.cardDetails data = None)
  \/ (Schema.paymentMethod data = Schema.upi
      /\ Schema.upiId data = None)
  \/ (Schema.paymentMethod data = Schema.netbanking
      /\ Schema.bankAccountId data = None) ->
  (exists t,
     snd (fst (Routes.process_payment rt data sv))
     = {| Routes.code := 201; Routes.json := Routes.TransactionBody t |}
     /\ Schema.t_status t = Schema.success
     /\ Schema.t_failureReason t = None)
  /\ (forall oid amt method,
        Schema.processPaymentSchema
          (Some (Json.JObj
                   [ ("orderId", Json.JStr oid);
                     ("amount", Json.JNum amt);
                     ("paymentMethod",
                      Json.JStr (Schema.PaymentMethod_name method)) ]))
        = Some {| Schema.orderId := oid;
                  Schema.amount := amt;
                  Schema.paymentMethod := method;
                  Schema.bankAccountId := None;
                  Schema.cardDetails := None;
                  Schema.upiId := None |}).
Proof.
  intros Hfound Hmissing. split.
  - pose proof (simulate_without_details data (Routes.store sv) Hmissing)
      as Hsim.
    exact (process_payment_answer rt data sv _ _ _ _ Hfound Hsim).
  - intros oid amt method. destruct method; reflexivity.
Qed.

Lemma missing_details_always_succeed_witness :
  exists t,
    snd (fst (Routes.process_payment Scenario.platform
                {| Schema.orderId := "gw_7d3f9a10";
                   Schema.amount := 49900;
                   Schema.paymentMethod := Schema.upi;
                   Schema.bankAccountId := None;
                   Schema.cardDetails := None;
                   Schema.upiId := None |} Scenario.opened))
    = {| Routes.code := 201; Routes.json := Routes.TransactionBody t |}
    /\ Schema.t_status t = Schema.success
    /\ Schema.t_failureReason t = None.
Proof.
  apply (missing_details_always_succeed Scenario.platform
           {| Schema.orderId := "gw_7d3f9a10";
              Schema.amount := 49900;
              Schema.paymentMethod := Schema.upi;
              Schema.bankAccountId := None;
              Schema.cardDetails := None;
              Schema.upiId := None |} Scenario.opened).
  - vm_compute. reflexivity.
  - right. left. split; reflexivity.
Defined.

(** ** The URL rule of order creation *)

Section OrderCreation.
Import Schema Storage Routes.

Lemma z_check_string_inv check j s :
  z_check z_string check j = Some s -> j = Some (Json.JStr s).
Proof.
  unfold z_check, z_string.
  destruct j as [[| | |s'| |]|]; try discriminate.
  destruct (check s'); [|discriminate]. now intros [= ->].
Qed.

(** A body that passes the schema carries the two addresses the
    parsed order has. *)
Lemma createOrderV2Schema_urls zu body data :
  createOrderV2Schema zu (Some body) = Some data ->
  Json.field body "return_url" = Some (Json.JStr (return_url data))
  /\ Json.field body "callback_url" = Some (Json.JStr (callback_url data)).
Proof.
  unfold createOrderV2Schema, z_object.
  destruct body as [| | | | |fields]; try discriminate.
  repeat match goal with
         | |- match ?e with Some _ => _ | None => None end = Some _ -> _ =>
             let E := fresh "E" in destruct e eqn:E; [|discriminate]
         end.
  intros [= <-]. cbn [return_url callback_url].
  split; eapply z_check_string_inv; eassumption.
Qed.

Variable rt : Runtime.

(** The answer to a body that passed the schema. *)
Lemma post_v2_orders_valid body sv data :
  createOrderV2Schema (zod_url rt) (Some body) = Some data ->
  (Stated.url_acceptable rt (return_url data) = true
   /\ Stated.url_acceptable rt (callback_url data) = true
   /\ code (snd (post_v2_orders rt body sv)) = 201)
  \/ ((Stated.url_acceptable rt (return_url data) = false
       \/ Stated.url_acceptable rt (callback_url data) = false)
      /\ Stated.rejected_unregistered sv (post_v2_orders rt body sv)).
Proof.
  intros Hparse. unfold post_v2_orders, Stated.url_acceptable,
    Stated.rejected_unregistered. rewrite Hparse.
  destruct (URL_parse rt (return_url data)) as [ru|];
    [destruct (URL_parse rt (callback_url data)) as [cu|]|].
  - destruct (url_allowed ru), (url_allowed cu); cbn [negb orb].
    + left.
      destruct (createOrderV2 (randomUUID rt) data (nowIso rt sv) (store sv)).
      cbn. auto.
    + right. split; [right; reflexivity|]. cbn. eauto.
    + right. split; [left; reflexivity|]. cbn. eauto.
    + right. split; [left; reflexivity|]. cbn. eauto.
  - right. split; [right; reflexivity|]. cbn. eauto.
  - right. split; [left; reflexivity|]. cbn. eauto.
Qed.

End OrderCreation.

(** C7, as stated, fails: a body whose [return_url] does not parse
    as a URL is answered 400 with the error Validation failed, not
    with ERR_URL_NOT_REGISTERED; so is a body without [merchant_id]
    whose [return_url] is a plain-http address of another host. *)
Lemma invalid_body_is_not_answered_unregistered :
  (Stated.field_acceptable Scenario.platform
     (Scenario.order_body "not a url") "return_url" = false
   /\ snd (Routes.post_v2_orders Scenario.platform
             (Scenario.order_body "not a url") Scenario.boot)
      = {| Routes.code := 400;
           Routes.json := Routes.ErrorBody "Validation failed" None |}
   /\ ~ Stated.url_rule Scenario.platform
          (Scenario.order_body "not a url") Scenario.boot)
  /\
  (Stated.field_acceptable Scenario.platform
     (Scenario.anonymous_body "http://shop.example/return") "return_url"
   = false
   /\ snd (Routes.post_v2_orders Scenario.platform
             (Scenario.anonymous_body "http://shop.example/return")
             Scenario.boot)
      = {| Routes.code := 400;
           Routes.json := Routes.ErrorBody "Validation failed" None |}
   /\ ~ Stated.url_rule Scenario.platform
          (Scenario.anonymous_body "http://shop.example/return")
          Scenario.boot).
Proof.
  split; (split; [vm_compute; reflexivity|]);
    (split; [vm_compute; reflexivity|]);
    intros [_ Hif];
    destruct Hif as (_ & [message Hm] & _);
    try (left; vm_compute; reflexivity);
    vm_compute in Hm; discriminate.
Qed.

(** C7, amended. For a v2 order-creation request whose body passes
    the schema, the request is rejected with HTTP 400 and the error
    code ERR_URL_NOT_REGISTERED, no order being created, if and only
    if [return_url] or [callback_url] does not parse as a URL or is
    neither an HTTPS URL nor a URL whose hostname is localhost or
    127.0.0.1.  A body that fails the schema is rejected with HTTP
    400 and the error Validation failed, and no order is created
    either. *)
Theorem url_rule_after_validation
    (rt : Routes.Runtime) (body : Json.t) (sv : Routes.Server) :
  let out := Routes.post_v2_orders rt body sv in
  (Schema.createOrderV2Schema (Routes.zod_url rt) (Some body) <> None ->
   Stated.url_rule rt body sv)
  /\ (Schema.createOrderV2Schema (Routes.zod_url rt) (Some body) = None ->
      snd out = {| Routes.code := 400;
                   Routes.json := Routes.ErrorBody "Validation failed" None |}
      /\ fst out = sv).
Proof.
  intros out. split.
  - intros Hvalid.
    destruct (Schema.createOrderV2Schema (Routes.zod_url rt) (Some body))
      as [data|] eqn:Hparse; [clear Hvalid | congruence].
    destruct (createOrderV2Schema_urls _ _ _ Hparse) as [Hru Hcu].
    unfold Stated.url_rule, Stated.field_acceptable. rewrite Hru, Hcu.
    destruct (post_v2_orders_valid rt body sv data Hparse)
      as [(Hr & Hc & H201)|[Hbad Hrej]].
    + split.
      * intros (H400 & _). rewrite H201 in H400. discriminate.
      * intros [H|H]; congruence.
    + split; auto.
  - intros Hparse. subst out. unfold Routes.post_v2_orders.
    rewrite Hparse. split; reflexivity.
Qed.

Lemma url_rule_after_validation_witness :
  Stated.url_rule Scenario.platform
    (Scenario.order_body "http://shop.example/return") Scenario.boot
  /\ snd (Routes.post_v2_orders Scenario.platform
            (Scenario.order_body "not a url") Scenario.boot)
     = {| Routes.code := 400;
          Routes.json := Routes.ErrorBody "Validation failed" None |}.
Proof.
  split.
  - apply (url_rule_after_validation Scenario.platform
             (Scenario.order_body "http://shop.example/return") Scenario.boot).
    vm_compute. discriminate.
  - apply (url_rule_after_validation Scenario.platform
             (Scenario.order_body "not a url") Scenario.boot).
    vm_compute. reflexivity.
Defined.

(** * Further properties of the code *)

(** ** The delivery loop: where it stops and how long it waits *)

Section DispatchMore.
Import Webhooks Trace.

Variable endpoint : nat -> Request -> FetchOutcome.
Variable jitter_draw : nat -> Z.
Variable mk : Z -> Request.
Variable maxRetries : Z.

Notation Run := (Dispatch endpoint jitter_draw mk maxRetries).

Lemma last_event_single e : last_event [e] = Some e.
Proof. reflexivity. Qed.

(** After [n] failures the first accepted request ends the run. *)
Lemma dispatch_stops_at_first_acceptance n :
  forall attempt k d evs res code,
    Run attempt k d evs res ->
    (forall i, (i < n)%nat ->
       delivered (endpoint (k + i) (mk (attempt + Z.of_nat i))) = false) ->
    endpoint (k + n) (mk (attempt + Z.of_nat n)) = Responded code ->
    ok code = true ->
    attempt + Z.of_nat n <= maxRetries ->
    res = {| success := true; status := code |}
    /\ List.length (requests evs) = S n
    /\ List.length (sleeps evs) = n
    /\ last_event evs
       = Some (EvFetch (mk (attempt + Z.of_nat n)) (Responded code)).
Proof.
  induction n as [|n IH]; intros attempt k d evs res code HR Hfail Hc Hok Hle.
  - rewrite Nat.add_0_r, Z.add_0_r in *.
    destruct (dispatch_first_accepted _ _ _ _ _ _ _ _ _ code HR) as [-> ->];
      auto.
  - inversion HR; subst.
    + lia.
    + specialize (Hfail 0%nat ltac:(lia)).
      rewrite Nat.add_0_r, Z.add_0_r in Hfail.
      rewrite H0 in Hfail. simpl in Hfail. congruence.
    + destruct (IH (attempt + 1) (S k) (S d) rest res code) as (Hr & Hn & Hs & Hl);
        auto.
      * intros i Hi. specialize (Hfail (S i) ltac:(lia)).
        replace (S k + i)%nat with (k + S i)%nat by lia.
        replace (attempt + 1 + Z.of_nat i) with (attempt + Z.of_nat (S i))
          by lia.
        exact Hfail.
      * replace (S k + n)%nat with (k + S n)%nat by lia.
        replace (attempt + 1 + Z.of_nat n) with (attempt + Z.of_nat (S n))
          by lia.
        exact Hc.
      * lia.
      * simpl. repeat split; try lia; auto.
        rewrite last_event_cons2.
        -- rewrite Hl. do 3 f_equal. lia.
        -- intros ->. discriminate Hl.
Qed.

Lemma worst_case_wait_nonneg n attempt : 0 <= Budget.worst_case_wait n attempt.
Proof.
  revert attempt.
  induction n as [|n IH]; intros attempt; cbn [Budget.worst_case_wait]; [lia|].
  specialize (IH (attempt + 1)).
  pose proof (Z.pow_nonneg 2 (attempt + 1) ltac:(lia)). unfold baseDelay. lia.
Qed.

Lemma dispatch_total_wait attempt k d evs res :
  (forall i, 0 <= jitter_draw i < 300) ->
  Run attempt k d evs res ->
  Budget.total (sleeps evs)
  <= Budget.worst_case_wait (Z.to_nat (maxRetries + 1 - attempt)) attempt.
Proof.
  intros Hj. induction 1.
  - apply worst_case_wait_nonneg.
  - apply worst_case_wait_nonneg.
  - replace (Z.to_nat (maxRetries + 1 - attempt))
      with (S (Z.to_nat (maxRetries + 1 - (attempt + 1)))) by lia.
    cbn [Budget.worst_case_wait sleeps Budget.total fold_right].
    fold (Budget.total (sleeps rest)).
    specialize (Hj d). unfold backoffDelay. lia.
Qed.

Lemma dispatch_sleeps_sorted attempt k d evs res :
  (forall i, 0 <= jitter_draw i < 300) ->
  0 <= attempt ->
  Run attempt k d evs res ->
  Sorted Z.le (sleeps evs)
  /\ HdRel Z.le (Z.min 30000 (baseDelay * 2 ^ attempt + 299)) (sleeps evs)
  /\ Forall (fun ms => 2000 <= ms <= 30000) (sleeps evs).
Proof.
  intros Hj Ha HR. induction HR; cbn [sleeps].
  - repeat constructor.
  - repeat constructor.
  - destruct IHHR as (Hs & Hh & Hall); [lia|].
    assert (Hpow : 2 ^ (attempt + 1) = 2 * 2 ^ attempt)
      by (rewrite Z.pow_add_r by lia; lia).
    assert (Hpos : 1 <= 2 ^ attempt) by (pose proof (Z.pow_pos_nonneg 2 attempt); lia).
    pose proof (Hj d) as Hd.
    split; [|split].
    + constructor; [exact Hs|].
      inversion Hh; subst; constructor.
      unfold backoffDelay, baseDelay in *. lia.
    + constructor. unfold backoffDelay, baseDelay. lia.
    + constructor; [|exact Hall]. unfold backoffDelay, baseDelay. lia.
Qed.

End DispatchMore.

(** X1. A dispatch ends with the first accepted request: when the
    first [n] requests fail and request number [n] (within the
    budget) is answered 2xx, the dispatch resolves to success with
    that status after exactly [n + 1] requests and [n] suspensions,
    the accepted request being its last event. *)
Theorem delivery_ends_with_first_accepted_request
    (hmac_sha256_hex : string -> string -> string)
    (endpoint : nat -> Webhooks.Request -> Webhooks.FetchOutcome)
    (latency jitter_draw : nat -> Z)
    (opts : Webhooks.WebhookOptions) (w : Webhooks.World)
    (n : nat) (code : Z) :
  (forall i, (i < n)%nat ->
     Trace.delivered
       (endpoint (Webhooks.fetched w + i)%nat
          (Trace.request_of hmac_sha256_hex opts w (Z.of_nat i))) = false) ->
  endpoint (Webhooks.fetched w + n)%nat
    (Trace.request_of hmac_sha256_hex opts w (Z.of_nat n))
  = Webhooks.Responded code ->
  Webhooks.ok code = true ->
  Z.of_nat n <= Js.nullish (Webhooks.maxRetries opts) 5 ->
  let run :=
    Webhooks.sendSignedWebhook hmac_sha256_hex endpoint latency jitter_draw
      opts w in
  let evs := Trace.produced w (fst run) in
  snd run = Webhooks.Fulfilled
              {| Webhooks.success := true; Webhooks.status := code |}
  /\ List.length (Trace.requests evs) = S n
  /\ List.length (Trace.sleeps evs) = n
  /\ Trace.last_event evs
     = Some (Webhooks.EvFetch
               (Trace.request_of hmac_sha256_hex opts w (Z.of_nat n))
               (Webhooks.Responded code)).
Proof.
  intros Hfail Hc Hok Hle run evs.
  destruct (send_dispatch hmac_sha256_hex endpoint latency jitter_draw opts w)
    as (res & Hres & HD).
  fold run in Hres, HD. fold evs in HD.
  destruct (dispatch_stops_at_first_acceptance _ _ _ _ n _ _ _ _ _ code HD)
    as (Hr & Hn & Hs & Hl); auto.
  rewrite Hres, Hr. auto.
Qed.

Lemma delivery_ends_with_first_accepted_request_witness :
  let run :=
    Webhooks.sendSignedWebhook Scenario.digest Scenario.flaky
      Scenario.quick Scenario.steady_jitter Scenario.hook Scenario.dawn in
  let evs := Trace.produced Scenario.dawn (fst run) in
  snd run = Webhooks.Fulfilled
              {| Webhooks.success := true; Webhooks.status := 200 |}
  /\ List.length (Trace.requests evs) = 2%nat
  /\ List.length (Trace.sleeps evs) = 1%nat
  /\ Trace.last_event evs
     = Some (Webhooks.EvFetch
               (Trace.request_of Scenario.digest Scenario.hook Scenario.dawn 1)
               (Webhooks.Responded 200)).
Proof.
  apply (delivery_ends_with_first_accepted_request Scenario.digest
           Scenario.flaky Scenario.quick Scenario.steady_jitter
           Scenario.hook Scenario.dawn 1%nat 200).
  - intros i Hi. assert (i = 0%nat) as -> by lia. reflexivity.
  - reflexivity.
  - reflexivity.
  - simpl. lia.
Defined.

(** X2. With jitter below 300 the suspensions of one dispatch add up
    to at most the worst case of its budget, which is 91196 ms for
    the default budget of 5 retries. *)
Theorem total_suspension_is_bounded
    (hmac_sha256_hex : string -> string -> string)
    (endpoint : nat -> Webhooks.Request -> Webhooks.FetchOutcome)
    (latency jitter_draw : nat -> Z)
    (opts : Webhooks.WebhookOptions) (w : Webhooks.World) :
  (forall i, 0 <= jitter_draw i < 300) ->
  let run :=
    Webhooks.sendSignedWebhook hmac_sha256_hex endpoint latency jitter_draw
      opts w in
  let waited := Budget.total (Trace.sleeps (Trace.produced w (fst run))) in
  waited
  <= Budget.worst_case_wait
       (Z.to_nat (Js.nullish (Webhooks.maxRetries opts) 5 + 1)) 0
  /\ (Webhooks.maxRetries opts = None -> waited <= 91196).
Proof.
  intros Hj run waited.
  destruct (send_dispatch hmac_sha256_hex endpoint latency jitter_draw opts w)
    as (res & Hres & HD).
  fold run in HD.
  pose proof (dispatch_total_wait _ _ _ _ _ _ _ _ _ Hj HD) as Hw.
  rewrite Z.sub_0_r in Hw. fold waited in Hw.
  split; [exact Hw|].
  intros Hdef. rewrite Hdef in Hw. exact Hw.
Qed.

Lemma total_suspension_is_bounded_witness :
  Budget.total
    (Trace.sleeps
       (Trace.produced Scenario.dawn
          (fst (Webhooks.sendSignedWebhook Scenario.digest Scenario.rejecting
                  Scenario.quick (fun _ => 299) Scenario.hook Scenario.dawn))))
  <= 91196.
Proof.
  apply (total_suspension_is_bounded Scenario.digest Scenario.rejecting
           Scenario.quick (fun _ => 299) Scenario.hook Scenario.dawn).
  - intros i. lia.
  - reflexivity.
Defined.

(** X3. An explicit budget [maxRetries = m] allows at most [m + 1]
    requests, and exactly that many when every request fails; a
    negative budget sends nothing and suspends never: the world is
    left as it was and the result is the failure result. *)
Theorem explicit_budget_bounds_requests
    (hmac_sha256_hex : string -> string -> string)
    (endpoint : nat -> Webhooks.Request -> Webhooks.FetchOutcome)
    (latency jitter_draw : nat -> Z)
    (opts : Webhooks.WebhookOptions) (w : Webhooks.World) (m : Z) :
  Webhooks.maxRetries opts = Some m ->
  let run :=
    Webhooks.sendSignedWebhook hmac_sha256_hex endpoint latency jitter_draw
      opts w in
  let evs := Trace.produced w (fst run) in
  (List.length (Trace.requests evs) <= Z.to_nat (m + 1))%nat
  /\ ((forall k r, Trace.delivered (endpoint k r) = false) ->
      List.length (Trace.requests evs) = Z.to_nat (m + 1)
      /\ snd run = Webhooks.Fulfilled Webhooks.failure)
  /\ (m < 0 -> run = (w, Webhooks.Fulfilled Webhooks.failure)).
Proof.
  intros Hm run evs.
  destruct (send_dispatch hmac_sha256_hex endpoint latency jitter_draw opts w)
    as (res & Hres & HD).
  fold run in Hres, HD. fold evs in HD.
  rewrite Hm in HD. cbn [Js.nullish] in HD.
  split; [|split].
  - apply dispatch_requests_bound in HD. rewrite Z.sub_0_r in HD. exact HD.
  - intros Hall.
    destruct (dispatch_all_rejected _ _ _ _ _ _ _ _ _ Hall HD) as (Hf & Hn & _).
    rewrite Z.sub_0_r in Hn. rewrite Hres, Hf. auto.
  - intros Hneg. subst run. unfold Webhooks.sendSignedWebhook.
    rewrite Hm. cbn [Js.nullish]. apply attemptLoop_exit. lia.
Qed.

Lemma explicit_budget_bounds_requests_witness :
  let opts :=
    {| Webhooks.url := "https://merchant.example/hook";
       Webhooks.body := "{}";
       Webhooks.secret := "test_secret";
       Webhooks.maxRetries := Some 2;
       Webhooks.idempotencyKey := None;
       Webhooks.testMode := None |} in
  let run :=
    Webhooks.sendSignedWebhook Scenario.digest Scenario.unreachable
      Scenario.quick Scenario.steady_jitter opts Scenario.dawn in
  List.length (Trace.requests (Trace.produced Scenario.dawn (fst run)))
  = 3%nat
  /\ snd run = Webhooks.Fulfilled Webhooks.failure.
Proof.
  cbv zeta.
  apply (explicit_budget_bounds_requests Scenario.digest Scenario.unreachable
           Scenario.quick Scenario.steady_jitter
           {| Webhooks.url := "https://merchant.example/hook";
              Webhooks.body := "{}";
              Webhooks.secret := "test_secret";
              Webhooks.maxRetries := Some 2;
              Webhooks.idempotencyKey := None;
              Webhooks.testMode := None |} Scenario.dawn 2 eq_refl).
  intros k r. reflexivity.
Defined.

(** X4. With jitter below 300 the suspensions of a dispatch never
    shrink from one retry to the next, and each lasts between 2000
    and 30000 ms. *)
Theorem suspensions_grow_and_stay_capped
    (hmac_sha256_hex : string -> string -> string)
    (endpoint : nat -> Webhooks.Request -> Webhooks.FetchOutcome)
    (latency jitter_draw : nat -> Z)
    (opts : Webhooks.WebhookOptions) (w : Webhooks.World) :
  (forall i, 0 <= jitter_draw i < 300) ->
  let run :=
    Webhooks.sendSignedWebhook hmac_sha256_hex endpoint latency jitter_draw
      opts w in
  let waits := Trace.sleeps (Trace.produced w (fst run)) in
  Sorted Z.le waits /\ Forall (fun ms => 2000 <= ms <= 30000) waits.
Proof.
  intros Hj run waits.
  destruct (send_dispatch hmac_sha256_hex endpoint latency jitter_draw opts w)
    as (res & Hres & HD).
  fold run in HD.
  destruct (dispatch_sleeps_sorted _ _ _ _ _ _ _ _ _ Hj (Z.le_refl 0) HD)
    as (Hs & _ & Hall).
  split; assumption.
Qed.

Lemma suspensions_grow_and_stay_capped_witness :
  let waits :=
    Trace.sleeps
      (Trace.produced Scenario.dawn
         (fst (Webhooks.sendSignedWebhook Scenario.digest Scenario.rejecting
                 Scenario.quick (fun k => Z.max 0 (299 - Z.of_nat k)) Scenario.hook
                 Scenario.dawn))) in
  Sorted Z.le waits /\ Forall (fun ms => 2000 <= ms <= 30000) waits.
Proof.
  apply (suspensions_grow_and_stay_capped Scenario.digest Scenario.rejecting
           Scenario.quick (fun k => Z.max 0 (299 - Z.of_nat k)) Scenario.hook
           Scenario.dawn).
  intros i. lia.
Defined.

(** X5. Every request of a dispatch is a POST to the url of the
    options with the body of the options, is marked as JSON, carries
    the signature of the very body it sends, and carries the
    idempotency key and the test-mode mark exactly when the options
    give a non-empty key and a true test mode. *)
Theorem every_request_is_the_signed_post
    (hmac_sha256_hex : string -> string -> string)
    (endpoint : nat -> Webhooks.Request -> Webhooks.FetchOutcome)
    (latency jitter_draw : nat -> Z)
    (opts : Webhooks.WebhookOptions) (w : Webhooks.World)
    (i : nat) (r : Webhooks.Request) :
  let run :=
    Webhooks.sendSignedWebhook hmac_sha256_hex endpoint latency jitter_draw
      opts w in
  nth_error (Trace.requests (Trace.produced w (fst run))) i = Some r ->
  Webhooks.req_url r = Webhooks.url opts
  /\ Webhooks.req_method r = "POST"
  /\ Webhooks.req_body r = Webhooks.body opts
  /\ Trace.header r "Content-Type" = Some "application/json"
  /\ Trace.header r "X-Gateway-Signature"
     = Some (Webhooks.computeSignature hmac_sha256_hex
               (Webhooks.secret opts) (Webhooks.req_body r))
  /\ Trace.header r "X-Gateway-Idempotency-Key"
     = (if Js.truthy_string (Webhooks.idempotencyKey opts)
        then Webhooks.idempotencyKey opts else None)
  /\ Trace.header r "X-Gateway-Test-Mode"
     = (if Js.truthy_bool (Webhooks.testMode opts)
        then Some "true" else None).
Proof.
  intros run Hi.
  destruct (send_dispatch hmac_sha256_hex endpoint latency jitter_draw opts w)
    as (res & Hres & HD).
  fold run in HD.
  rewrite (dispatch_nth_request _ _ _ _ _ _ _ _ _ _ _ HD Hi).
  unfold Trace.header, Trace.request_of, Webhooks.buildRequest,
    Webhooks.buildHeaders.
  cbn [Webhooks.req_headers Webhooks.req_url Webhooks.req_method
       Webhooks.req_body].
  destruct (Webhooks.idempotencyKey opts) as [[|c key]|];
    destruct (Webhooks.testMode opts) as [[|]|];
    cbn; repeat split; reflexivity.
Qed.

Lemma every_request_is_the_signed_post_witness :
  let r := Trace.request_of Scenario.digest Scenario.hook Scenario.dawn 1 in
  Webhooks.req_url r = "https://merchant.example/hook"
  /\ Webhooks.req_method r = "POST"
  /\ Webhooks.req_body r = "{}"
  /\ Trace.header r "Content-Type" = Some "application/json"
  /\ Trace.header r "X-Gateway-Signature"
     = Some (Webhooks.computeSignature Scenario.digest "test_secret" "{}")
  /\ Trace.header r "X-Gateway-Idempotency-Key" = Some "TXN_0A1B2C3D4E5F"
  /\ Trace.header r "X-Gateway-Test-Mode" = Some "true".
Proof.
  exact (every_request_is_the_signed_post Scenario.digest Scenario.flaky
           Scenario.quick Scenario.steady_jitter Scenario.hook Scenario.dawn
           1%nat
           (Trace.request_of Scenario.digest Scenario.hook Scenario.dawn 1)
           eq_refl).
Defined.

(** ** Maps *)

Lemma get_remove_same {V} (d : Js.Dict V) k : Js.get (MapOps.remove d k) k = None.
Proof.
  induction d as [|[k' v] d IH]; simpl; [reflexivity|].
  destruct (String.eqb k' k) eqn:E; simpl; [exact IH|].
  now rewrite E.
Qed.

Lemma get_remove_other {V} (d : Js.Dict V) k k' :
  k <> k' -> Js.get (MapOps.remove d k) k' = Js.get d k'.
Proof.
  intros Hne. induction d as [|[k0 v] d IH]; simpl; [reflexivity|].
  destruct (String.eqb_spec k0 k) as [->|Hk]; simpl.
  - destruct (String.eqb_spec k k'); [congruence | exact IH].
  - now rewrite IH.
Qed.

Lemma remove_absent {V} (d : Js.Dict V) k :
  Js.get d k = None -> MapOps.remove d k = d.
Proof.
  induction d as [|[k' v] d IH]; simpl; [reflexivity|].
  destruct (String.eqb k' k); [discriminate|].
  intros H. now rewrite IH.
Qed.

Lemma set_fresh {V} (d : Js.Dict V) k v :
  Js.get d k = None -> Js.set d k v = (d ++ [(k, v)])%list.
Proof.
  induction d as [|[k' v'] d IH]; simpl; [reflexivity|].
  destruct (String.eqb k' k); [discriminate|].
  intros H. now rewrite IH.
Qed.

Lemma set_keys_present {V} (d : Js.Dict V) k v v0 :
  Js.get d k = Some v0 -> MapOps.keys (Js.set d k v) = MapOps.keys d.
Proof.
  unfold MapOps.keys.
  induction d as [|[k' v'] d IH]; simpl; [discriminate|].
  destruct (String.eqb_spec k' k) as [->|Hk]; simpl; [reflexivity|].
  intros H. now rewrite IH.
Qed.

Lemma startsWith_app (p s : string) : Str.startsWith p (p ++ s) = true.
Proof.
  unfold Str.startsWith. apply prefix_correct.
  induction p as [|c p IH]; simpl.
  - destruct s; reflexivity.
  - now rewrite IH.
Qed.

Lemma storage_eta (st : Storage.MemStorage) :
  {| Storage.bankAccounts := Storage.bankAccounts st;
     Storage.orders := Storage.orders st;
     Storage.v2orders := Storage.v2orders st;
     Storage.transactions := Storage.transactions st;
     Storage.uuids := Storage.uuids st |} = st.
Proof. destruct st; reflexivity. Qed.

Lemma server_eta (sv : Routes.Server) : Routes.with_store sv (Routes.store sv) = sv.
Proof. destruct sv; reflexivity. Qed.

(** ** Bank accounts *)

Section Accounts.
Import Schema Storage Ledger.

(** X6. An account created by [createBankAccount] is found under
    its id with the four values given, every account under another
    id is found as before, and when the id is new the listing is the
    old listing followed by the new account. *)
Theorem created_account_is_stored
    (randomUUID : nat -> string)
    (data : InsertBankAccount) (st : MemStorage) :
  let out := createBankAccount randomUUID data st in
  let account := snd out in
  getBankAccount (ba_id account) (fst out) = Some account
  /\ ba_id account = randomUUID (uuids st)
  /\ accountHolderName account = i_accountHolderName data
  /\ accountNumber account = i_accountNumber data
  /\ bankName account = i_bankName data
  /\ balance account = i_balance data
  /\ (forall id, id <> ba_id account ->
        getBankAccount id (fst out) = getBankAccount id st)
  /\ (getBankAccount (ba_id account) st = None ->
      getBankAccounts (fst out) = (getBankAccounts st ++ [account])%list).
Proof.
  intros out account. subst account out.
  unfold createBankAccount, getBankAccount, getBankAccounts, MapOps.values.
  cbn [fst snd bankAccounts ba_id accountHolderName accountNumber bankName
       balance].
  repeat split.
  - apply get_set_same.
  - intros id Hid. apply get_set_other. congruence.
  - intros Hnew. rewrite (set_fresh _ _ _ Hnew), map_app. reflexivity.
Qed.

Lemma created_account_is_stored_witness :
  let out :=
    createBankAccount Scenario.uuid
      {| i_accountHolderName := "Asha Rao";
         i_accountNumber := "4000123412341234";
         i_bankName := "Axis Bank";
         i_balance := 7500 |}
      (MemStorage_new Scenario.uuid) in
  List.length (getBankAccounts (fst out)) = 4%nat
  /\ option_map balance (getBankAccount (ba_id (snd out)) (fst out))
     = Some 7500.
Proof.
  cbv zeta.
  destruct (created_account_is_stored Scenario.uuid
              {| i_accountHolderName := "Asha Rao";
                 i_accountNumber := "4000123412341234";
                 i_bankName := "Axis Bank";
                 i_balance := 7500 |}
              (MemStorage_new Scenario.uuid))
    as (Hget & _ & _ & _ & _ & Hbal & _ & Hlist).
  split.
  - rewrite Hlist by (vm_compute; reflexivity).
    vm_compute. reflexivity.
  - rewrite Hget. cbn [option_map]. rewrite Hbal. reflexivity.
Defined.

(** X7. [updateBankAccountBalance] on a stored account sets its
    balance and nothing else: the id, holder, number and bank name
    stay, every other account and the order of the listing stay, and
    neither orders nor transactions are touched; on an unknown id it
    returns nothing and leaves the storage as it was. *)
Theorem balance_update_touches_one_balance
    (id : string) (newBalance : Z) (st : MemStorage) :
  let out := updateBankAccountBalance id newBalance st in
  (forall account,
     getBankAccount id st = Some account ->
     exists updated,
       snd out = Some updated
       /\ getBankAccount id (fst out) = Some updated
       /\ balance updated = newBalance
       /\ ba_id updated = ba_id account
       /\ accountHolderName updated = accountHolderName account
       /\ accountNumber updated = accountNumber account
       /\ bankName updated = bankName account
       /\ (forall other, other <> id ->
             getBankAccount other (fst out) = getBankAccount other st)
       /\ MapOps.keys (bankAccounts (fst out)) = MapOps.keys (bankAccounts st)
       /\ orders (fst out) = orders st
       /\ v2orders (fst out) = v2orders st
       /\ transactions (fst out) = transactions st)
  /\ (getBankAccount id st = None -> out = (st, None)).
Proof.
  intros out. subst out. unfold updateBankAccountBalance, getBankAccount.
  split.
  - intros account Hget. rewrite Hget. eexists. cbn [fst snd bankAccounts].
    split; [reflexivity|]. split; [apply get_set_same|].
    cbn [balance ba_id accountHolderName accountNumber bankName orders
         v2orders transactions].
    repeat split.
    + intros other Hother. apply get_set_other. congruence.
    + eapply set_keys_present. exact Hget.
  - intros Hget. rewrite Hget. reflexivity.
Qed.

Lemma balance_update_touches_one_balance_witness :
  let st := MemStorage_new Scenario.uuid in
  let id := Scenario.uuid 1 in
  option_map balance
    (getBankAccount id (fst (updateBankAccountBalance id 24000 st)))
  = Some 24000
  /\ updateBankAccountBalance "no-such-account" 1 st = (st, None).
Proof.
  cbv zeta.
  destruct (balance_update_touches_one_balance (Scenario.uuid 1) 24000
              (MemStorage_new Scenario.uuid)) as [Hknown _].
  destruct (balance_update_touches_one_balance "no-such-account" 1
              (MemStorage_new Scenario.uuid)) as [_ Hunknown].
  split.
  - match eval vm_compute in
          (getBankAccount (Scenario.uuid 1) (MemStorage_new Scenario.uuid))
    with
    | Some ?a =>
        destruct (Hknown a ltac:(vm_compute; reflexivity))
          as (updated & _ & Hget & Hbal & _)
    end.
    rewrite Hget. cbn [option_map]. rewrite Hbal. reflexivity.
  - apply Hunknown. vm_compute. reflexivity.
Defined.

(** X8. [DELETE /api/accounts/:id] answers 204 exactly when the
    account was stored, after which it is gone while every other
    account is found as before; for an unknown id it answers 404 and
    leaves the server as it was. *)
Theorem delete_account_removes_one_account
    (id : string) (sv : Routes.Server) :
  let out := delete_account id sv in
  (forall account,
     getBankAccount id (Routes.store sv) = Some account ->
     snd out = {| r_code := 204; r_body := NoContent |}
     /\ getBankAccount id (Routes.store (fst out)) = None
     /\ (forall other, other <> id ->
           getBankAccount other (Routes.store (fst out))
           = getBankAccount other (Routes.store sv)))
  /\ (getBankAccount id (Routes.store sv) = None ->
      out = (sv, {| r_code := 404;
                    r_body := ErrorJson "Bank account not found" |})).
Proof.
  intros out. subst out.
  unfold delete_account, deleteBankAccount, getBankAccount, MapOps.has.
  split.
  - intros account Hget. rewrite Hget.
    cbn [fst snd Routes.store Routes.with_store bankAccounts].
    split; [reflexivity|]. split; [apply get_remove_same|].
    intros other Hother. apply get_remove_other. congruence.
  - intros Hget. rewrite Hget, (remove_absent _ _ Hget), storage_eta, server_eta.
    reflexivity.
Qed.

Lemma delete_account_removes_one_account_witness :
  let sv := Routes.with_store Scenario.boot (MemStorage_new Scenario.uuid) in
  snd (delete_account (Scenario.uuid 0) sv)
  = {| r_code := 204; r_body := NoContent |}
  /\ getBankAccount (Scenario.uuid 0)
       (Routes.store (fst (delete_account (Scenario.uuid 0) sv))) = None
  /\ snd (delete_account "no-such-account" sv)
     = {| r_code := 404; r_body := ErrorJson "Bank account not found" |}.
Proof.
  cbv zeta.
  destruct (delete_account_removes_one_account (Scenario.uuid 0)
              (Routes.with_store Scenario.boot (MemStorage_new Scenario.uuid)))
    as [Hknown _].
  destruct (delete_account_removes_one_account "no-such-account"
              (Routes.with_store Scenario.boot (MemStorage_new Scenario.uuid)))
    as [_ Hunknown].
  match eval vm_compute in
        (getBankAccount (Scenario.uuid 0) (MemStorage_new Scenario.uuid))
  with
  | Some ?a =>
      destruct (Hknown a ltac:(vm_compute; reflexivity)) as (Hr & Hgone & _)
  end.
  split; [exact Hr|]. split; [exact Hgone|].
  rewrite Hunknown by (vm_compute; reflexivity). reflexivity.
Defined.

Lemma z_optional_check_inv {A} (p : Parser A) (check : A -> bool) j a :
  z_optional (z_check p check) j = Some (Some a) -> check a = true.
Proof.
  unfold z_optional, z_check. destruct j as [v|]; [|discriminate].
  destruct (p (Some v)) as [a'|]; [|discriminate].
  destruct (check a') eqn:E; [|discriminate].
  cbn. intros [= <-]. exact E.
Qed.

(** X9. [PUT /api/accounts/:id] with a body the partial schema
    accepts answers 200 with the stored account merged with the
    body: the id is kept, a property the body gives replaces the
    stored one and a property it omits is kept, and the merged
    account is what is found afterwards; a balance the body gives is
    never negative.  For an unknown id it answers 404, for a body the
    schema refuses 400, and both leave the server as it was. *)
Theorem put_account_merges_the_body
    (id : string) (body : Json.t) (sv : Routes.Server) :
  let out := put_account id body sv in
  (forall data account,
     insertBankAccountSchema_partial (Some body) = Some data ->
     getBankAccount id (Routes.store sv) = Some account ->
     let merged := merge_account account data in
     snd out = {| r_code := 200; r_body := AccountJson merged |}
     /\ getBankAccount id (Routes.store (fst out)) = Some merged
     /\ ba_id merged = ba_id account
     /\ balance merged = Js.nullish (p_balance data) (balance account)
     /\ accountHolderName merged
        = Js.nullish (p_accountHolderName data) (accountHolderName account)
     /\ (forall b, p_balance data = Some b -> 0 <= b))
  /\ (insertBankAccountSchema_partial (Some body) <> None ->
      getBankAccount id (Routes.store sv) = None ->
      out = (sv, {| r_code := 404;
                    r_body := ErrorJson "Bank account not found" |}))
  /\ (insertBankAccountSchema_partial (Some body) = None ->
      out = (sv, {| r_code := 400; r_body := ErrorJson "Validation failed" |})).
Proof.
  intros out. subst out. unfold put_account, updateBankAccount, getBankAccount.
  split; [|split].
  - intros data account Hparse Hget. rewrite Hparse, Hget.
    cbn [fst snd Routes.store Routes.with_store bankAccounts].
    split; [reflexivity|]. split; [apply get_set_same|].
    repeat split.
    intros b Hb.
    unfold insertBankAccountSchema_partial, z_object in Hparse.
    destruct body as [| | | | |fields]; try discriminate.
    repeat match type of Hparse with
           | match ?e with Some _ => _ | None => None end = Some _ =>
               let E := fresh "E" in
               destruct e eqn:E; [|discriminate]
           end.
    injection Hparse as <-. cbn [p_balance] in Hb. subst.
    match goal with
    | H : z_optional (z_check z_number _) _ = Some (Some b) |- _ =>
        apply z_optional_check_inv in H; lia
    end.
  - intros Hparse Hget.
    destruct (insertBankAccountSchema_partial (Some body)); [|congruence].
    rewrite Hget. now rewrite server_eta.
  - intros Hparse. now rewrite Hparse.
Qed.

Lemma put_account_merges_the_body_witness :
  let sv := Routes.with_store Scenario.boot (MemStorage_new Scenario.uuid) in
  let body := Json.JObj [("balance", Json.JNum 120)] in
  option_map balance
    (getBankAccount (Scenario.uuid 2)
       (Routes.store (fst (put_account (Scenario.uuid 2) body sv))))
  = Some 120
  /\ snd (put_account (Scenario.uuid 2)
            (Json.JObj [("balance", Json.JNum (-1))]) sv)
     = {| r_code := 400; r_body := ErrorJson "Validation failed" |}.
Proof.
  cbv zeta.
  destruct (put_account_merges_the_body (Scenario.uuid 2)
              (Json.JObj [("balance", Json.JNum 120)])
              (Routes.with_store Scenario.boot (MemStorage_new Scenario.uuid)))
    as [Hok _].
  destruct (put_account_merges_the_body (Scenario.uuid 2)
              (Json.JObj [("balance", Json.JNum (-1))])
              (Routes.with_store Scenario.boot (MemStorage_new Scenario.uuid)))
    as (_ & _ & Hbad).
  split.
  - match eval vm_compute in
          (insertBankAccountSchema_partial
             (Some (Json.JObj [("balance", Json.JNum 120)])),
           getBankAccount (Scenario.uuid 2) (MemStorage_new Scenario.uuid))
    with
    | (Some ?d, Some ?a) =>
        destruct (Hok d a ltac:(vm_compute; reflexivity)
                        ltac:(vm_compute; reflexivity))
          as (_ & Hget & _ & Hbal & _)
    end.
    rewrite Hget. cbn [option_map]. rewrite Hbal. reflexivity.
  - rewrite Hbad by (vm_compute; reflexivity). reflexivity.
Defined.

End Accounts.

(** ** Transactions *)

Section TransactionList.
Import Schema Storage Ledger.

Variable Date_getTime : string -> Z.

Notation time t := (Date_getTime (t_timestamp t)).
Notation cmp := (compare_newest_first Date_getTime).
Notation not_older := (Ledger.not_older Date_getTime).

Lemma insert_by_perm x l : Permutation (x :: l) (insert_by cmp x l).
Proof.
  induction l as [|y l IH]; simpl; [reflexivity|].
  destruct (cmp x y <=? 0); [reflexivity|].
  rewrite perm_swap. now constructor.
Qed.

Lemma insert_by_sorted x l :
  Sorted not_older l -> Sorted not_older (insert_by cmp x l).
Proof.
  induction 1 as [|y l Hs IH Hh]; simpl.
  - repeat constructor.
  - unfold compare_newest_first at 1.
    destruct (Z.leb_spec (time y - time x) 0) as [Hle|Hgt].
    + constructor; [constructor; assumption|].
      constructor. unfold not_older. lia.
    + constructor; [exact IH|].
      destruct l as [|z l]; simpl.
      * constructor. unfold not_older. lia.
      * unfold compare_newest_first at 1.
        destruct (time z - time x <=? 0).
        -- constructor. unfold not_older. lia.
        -- inversion Hh; subst. constructor. assumption.
Qed.

Lemma insert_by_same_time T x l :
  filter (fun t => time t =? T) (insert_by cmp x l)
  = filter (fun t => time t =? T) (x :: l).
Proof.
  induction l as [|y l IH]; [reflexivity|].
  cbn [insert_by]. unfold compare_newest_first at 1.
  destruct (Z.leb_spec (time y - time x) 0) as [Hle|Hgt]; [reflexivity|].
  cbn [filter] in *. rewrite IH.
  destruct (Z.eqb_spec (time x) T), (Z.eqb_spec (time y) T);
    try reflexivity; lia.
Qed.

End TransactionList.

(** X10. [getTransactions] returns the stored transactions, each as
    often as it is stored, newest first, and transactions with the
    same time in the order the map holds them. *)
Theorem transactions_are_listed_newest_first
    (Date_getTime : string -> Z) (st : Storage.MemStorage) :
  let stored := MapOps.values (Storage.transactions st) in
  let listed := Ledger.getTransactions Date_getTime st in
  Permutation stored listed
  /\ Sorted (Ledger.not_older Date_getTime) listed
  /\ forall T,
       filter (fun t => Date_getTime (Schema.t_timestamp t) =? T) listed
       = filter (fun t => Date_getTime (Schema.t_timestamp t) =? T) stored.
Proof.
  intros stored listed. subst listed. unfold Ledger.getTransactions.
  fold stored. generalize stored. clear stored.
  induction stored as [|x l (Hp & Hs & Hf)]; cbn [Ledger.Array_sort].
  - repeat split; constructor.
  - split; [|split].
    + rewrite <- insert_by_perm. now constructor.
    + apply insert_by_sorted. exact Hs.
    + intros T. rewrite insert_by_same_time. cbn [filter]. now rewrite Hf.
Qed.

Section PaymentRecords.
Import Schema Storage Routes.

Variable rt : Runtime.

Lemma notify_v2_frame data s tx iso st :
  let out := notify_v2 rt data s tx iso st in
  bankAccounts (fst out) = bankAccounts st
  /\ orders (fst out) = orders st
  /\ transactions (fst out) = transactions st
  /\ uuids (fst out) = uuids st.
Proof.
  unfold notify_v2. destruct (Js.get (v2orders st) (orderId data));
    repeat split.
Qed.

(** The storage after an event that completes. *)
Lemma completed_event_store data sv st1 s fr bn :
  order_found (orderId data) (store sv) = true ->
  simulate_payment data (store sv) = Some (st1, s, fr, bn) ->
  let run := process_payment rt data sv in
  let tx := snd (transaction_for rt data sv st1 s fr bn) in
  snd (fst run) = {| code := 201; json := TransactionBody tx |}
  /\ bankAccounts (store (fst (fst run))) = bankAccounts st1
  /\ orders (store (fst (fst run))) = orders st1
  /\ transactions (store (fst (fst run)))
     = Js.set (transactions st1) (t_id tx) tx
  /\ uuids (store (fst (fst run))) = S (uuids st1).
Proof.
  intros Hfound Hsim run tx. subst run tx.
  destruct (process_payment_cases rt data sv)
    as [[E _]|[(_ & E & _)|(st1' & s' & fr' & bn' & _ & Hsim' & E)]];
    try congruence.
  rewrite Hsim in Hsim'. injection Hsim' as <- <- <- <-.
  cbv zeta in E. rewrite E. cbn [fst snd store with_store].
  destruct (notify_v2_frame data s
              (snd (transaction_for rt data sv st1 s fr bn)) (nowIso rt sv)
              (fst (transaction_for rt data sv st1 s fr bn)))
    as (Hb & Ho & Ht & Hu).
  rewrite Hb, Ho, Ht, Hu. repeat split.
Qed.

(** Every answer of the handler falls under one of these. *)
Lemma process_payment_outcome data sv :
  (fst (fst (process_payment rt data sv)) = sv
   /\ snd (process_payment rt data sv) = []
   /\ code (snd (fst (process_payment rt data sv))) = 404)
  \/ (exists st1 s fr bn,
        order_found (orderId data) (store sv) = true
        /\ simulate_payment data (store sv) = Some (st1, s, fr, bn)).
Proof.
  destruct (process_payment_cases rt data sv)
    as [[_ E]|[(_ & _ & E)|(st1 & s & fr & bn & Hf & Hsim & _)]].
  - left. rewrite E. auto.
  - left. rewrite E. auto.
  - right. exists st1, s, fr, bn. auto.
Qed.

Lemma simulate_payment_shape data st st1 s fr bn :
  simulate_payment data st = Some (st1, s, fr, bn) ->
  orders st1 = orders st
  /\ transactions st1 = transactions st
  /\ uuids st1 = uuids st
  /\ (fr = None <-> s = success)
  /\ (paymentMethod data <> netbanking -> st1 = st /\ bn = None)
  /\ (s = failed -> st1 = st).
Proof.
  unfold simulate_payment.
  destruct (paymentMethod data) eqn:Hm; cbn [andb].
  - destruct (cardDetails data) as [cd|].
    + repeat match goal with
             | |- context [if ?b then _ else _] => destruct b
             end;
        intros [= <- <- <- <-]; repeat split; try discriminate; auto.
    + intros [= <- <- <- <-]; repeat split; try discriminate; auto.
  - destruct (cardDetails data) as [cd|];
      repeat match goal with
             | |- context [if ?b then _ else _] => destruct b
             end;
      intros [= <- <- <- <-]; repeat split; try discriminate; auto.
  - destruct (Js.truthy_string (bankAccountId data)).
    + destruct (getBankAccount _ st) as [acct|]; [|discriminate].
      destruct (balance acct <? amount data).
      * intros [= <- <- <- <-]; repeat split; try discriminate; auto;
          congruence.
      * unfold updateBankAccountBalance.
        destruct (Js.get (bankAccounts st) _);
          intros [= <- <- <- <-]; repeat split; try discriminate; auto;
          congruence.
    + destruct (cardDetails data);
        intros [= <- <- <- <-]; repeat split; try discriminate; auto;
        congruence.
Qed.

End PaymentRecords.

(** X11. A payment event that is answered with a transaction has
    stored it: [GET /api/transactions/:id] with its id answers 200
    with that same transaction; its id starts with TXN_, it names
    the order, the amount and the method of the event, and every
    transaction stored under another id is found as before. *)
Theorem completed_payment_is_recorded
    (rt : Routes.Runtime) (data : Schema.ProcessPaymentInput)
    (sv : Routes.Server) (t : Schema.Transaction) :
  let run := Routes.process_payment rt data sv in
  let sv' := fst (fst run) in
  Routes.json (snd (fst run)) = Routes.TransactionBody t ->
  Ledger.get_transaction (Schema.t_id t) sv'
  = {| Ledger.r_code := 200; Ledger.r_body := Ledger.TransactionJson t |}
  /\ Str.startsWith "TXN_" (Schema.t_id t) = true
  /\ Schema.t_orderId t = Schema.orderId data
  /\ Schema.t_amount t = Schema.amount data
  /\ Schema.t_paymentMethod t = Schema.paymentMethod data
  /\ Schema.t_bankAccountId t = Schema.bankAccountId data
  /\ (forall id, id <> Schema.t_id t ->
        Ledger.getTransaction id (Routes.store sv')
        = Ledger.getTransaction id (Routes.store sv)).
Proof.
  intros run sv' Ht. subst sv' run.
  destruct (process_payment_cases rt data sv)
    as [[_ E]|[(_ & _ & E)|(st1 & s & fr & bn & Hfound & Hsim & _)]].
  - rewrite E in Ht. discriminate.
  - rewrite E in Ht. discriminate.
  - destruct (completed_event_store rt data sv st1 s fr bn Hfound Hsim)
      as (Hres & _ & _ & Htx & _).
    rewrite Hres in Ht. cbn [Routes.json] in Ht. injection Ht as <-.
    destruct (simulate_payment_shape data _ _ _ _ _ Hsim) as (_ & Hsame & _).
    unfold Ledger.get_transaction, Ledger.getTransaction.
    rewrite Htx, get_set_same.
    split; [reflexivity|].
    split; [apply (startsWith_app "TXN_")|].
    repeat (split; [reflexivity|]).
    intros id Hid. rewrite get_set_other.
    + now rewrite Hsame.
    + intros Heq. apply Hid. symmetry. exact Heq.
Qed.

Lemma completed_payment_is_recorded_witness :
  let run :=
    Routes.process_payment Scenario.platform
      (Scenario.card_payment "4242424242424242") Scenario.opened in
  exists t,
    Ledger.get_transaction "TXN_0B9D2F64-1E3" (fst (fst run))
    = {| Ledger.r_code := 200; Ledger.r_body := Ledger.TransactionJson t |}
    /\ Schema.t_id t = "TXN_0B9D2F64-1E3"
    /\ Schema.t_amount t = 49900.
Proof.
  cbv zeta.
  match eval vm_compute in
        (Routes.json
           (snd (fst (Routes.process_payment Scenario.platform
                        (Scenario.card_payment "4242424242424242")
                        Scenario.opened))))
  with
  | Routes.TransactionBody ?t =>
      exists t;
      destruct (completed_payment_is_recorded Scenario.platform
                  (Scenario.card_payment "4242424242424242") Scenario.opened t
                  ltac:(vm_compute; reflexivity))
        as (Hget & _ & _ & Hamt & _)
  end.
  split; [exact Hget|]. split; [reflexivity | exact Hamt].
Defined.

(** X12. A payment event that is not answered 201 is answered 404
    and has changed nothing: the server is as it was, no transaction
    is stored, no account is debited, no order is marked and no
    webhook is started. *)
Theorem refused_payment_changes_nothing
    (rt : Routes.Runtime) (data : Schema.ProcessPaymentInput)
    (sv : Routes.Server) :
  let run := Routes.process_payment rt data sv in
  Routes.code (snd (fst run)) <> 201 ->
  Routes.code (snd (fst run)) = 404
  /\ fst (fst run) = sv
  /\ snd run = [].
Proof.
  intros run Hc. subst run.
  destruct (process_payment_cases rt data sv)
    as [[_ E]|[(_ & _ & E)|(st1 & s & fr & bn & _ & _ & E)]];
    cbv zeta in E; rewrite E in *; cbn [fst snd Routes.code] in *; auto.
  congruence.
Qed.

Lemma refused_payment_changes_nothing_witness :
  let data :=
    {| Schema.orderId := "gw_unknown";
       Schema.amount := 100;
       Schema.paymentMethod := Schema.upi;
       Schema.bankAccountId := None;
       Schema.cardDetails := None;
       Schema.upiId := Some "asha@bank" |} in
  fst (fst (Routes.process_payment Scenario.platform data Scenario.opened))
  = Scenario.opened
  /\ snd (Routes.process_payment Scenario.platform data Scenario.opened) = [].
Proof.
  cbv zeta.
  apply (refused_payment_changes_nothing Scenario.platform
           {| Schema.orderId := "gw_unknown";
              Schema.amount := 100;
              Schema.paymentMethod := Schema.upi;
              Schema.bankAccountId := None;
              Schema.cardDetails := None;
              Schema.upiId := Some "asha@bank" |} Scenario.opened).
  vm_compute. discriminate.
Defined.

(** X13. Every transaction the payment route creates has a failure
    reason exactly when its status is failed, and a bank name only
    for a netbanking payment. *)
Theorem failure_reason_iff_failed
    (rt : Routes.Runtime) (data : Schema.ProcessPaymentInput)
    (sv : Routes.Server) (t : Schema.Transaction) :
  Routes.json (snd (fst (Routes.process_payment rt data sv)))
  = Routes.TransactionBody t ->
  (Schema.t_failureReason t = None <-> Schema.t_status t = Schema.success)
  /\ (Schema.t_bankName t <> None ->
      Schema.paymentMethod data = Schema.netbanking).
Proof.
  intros Ht.
  destruct (process_payment_cases rt data sv)
    as [[_ E]|[(_ & _ & E)|(st1 & s & fr & bn & _ & Hsim & E)]];
    cbv zeta in E; rewrite E in Ht; cbn [fst snd Routes.json] in Ht;
    try discriminate.
  injection Ht as <-.
  destruct (simulate_payment_shape data _ _ _ _ _ Hsim)
    as (_ & _ & _ & Hiff & Hbank & _).
  cbn [Routes.transaction_for Storage.createTransaction snd
       Schema.t_failureReason Schema.t_status Schema.t_bankName].
  split; [exact Hiff|].
  intros Hbn.
  destruct (Schema.paymentMethod data) eqn:Hm; try reflexivity;
    destruct Hbank as [_ Hnone]; try discriminate; congruence.
Qed.

Lemma failure_reason_iff_failed_witness :
  exists t,
    Routes.json
      (snd (fst (Routes.process_payment Scenario.platform
                   (Scenario.card_payment "5500000000001111")
                   Scenario.opened)))
    = Routes.TransactionBody t
    /\ Schema.t_failureReason t = Some "Insufficient funds"
    /\ (Schema.t_failureReason t = None
        <-> Schema.t_status t = Schema.success).
Proof.
  match eval vm_compute in
        (Routes.json
           (snd (fst (Routes.process_payment Scenario.platform
                        (Scenario.card_payment "5500000000001111")
                        Scenario.opened))))
  with
  | Routes.TransactionBody ?t =>
      exists t;
      assert (Ht : Routes.json
                (snd (fst (Routes.process_payment Scenario.platform
                             (Scenario.card_payment "5500000000001111")
                             Scenario.opened)))
              = Routes.TransactionBody t) by (vm_compute; reflexivity);
      split; [exact Ht|]; split; [reflexivity|];
      apply (failure_reason_iff_failed Scenario.platform
               (Scenario.card_payment "5500000000001111") Scenario.opened t Ht)
  end.
Defined.

(** ** Money *)

Section Money.
Import Schema Storage Routes.



Lemma simulate_payment_nonneg data st st1 s fr bn :
  simulate_payment data st = Some (st1, s, fr, bn) ->
  Inv.balances_nonneg st -> Inv.balances_nonneg st1.
Proof.
  intros Hsim Hinv.
  destruct (paymentMethod data) eqn:Hm;
    try (destruct (simulate_payment_shape data _ _ _ _ _ Hsim)
           as (_ & _ & _ & _ & [-> _] & _); [congruence | exact Hinv]).
  unfold simulate_payment in Hsim. rewrite Hm in Hsim. cbn [andb] in Hsim.
  destruct (Js.truthy_string (bankAccountId data)).
  - destruct (getBankAccount _ st) as [acct|]; [|discriminate].
    destruct (Z.ltb_spec (balance acct) (amount data)).
    + injection Hsim as <- _ _ _. exact Hinv.
    + unfold updateBankAccountBalance in Hsim.
      destruct (Js.get (bankAccounts st) _) as [acct'|];
        injection Hsim as <- _ _ _; [|exact Hinv].
      intros k a. cbn [bankAccounts].
      set (id := Js.nullish (bankAccountId data) EmptyString).
      destruct (String.eqb_spec id k) as [<-|Hk].
      * rewrite get_set_same. intros [= <-]. cbn [balance]. lia.
      * rewrite get_set_other by exact Hk. apply Hinv.
  - destruct (cardDetails data); injection Hsim as <- _ _ _; exact Hinv.
Qed.

End Money.



(** X15. Only a successful netbanking payment moves money: a card
    or UPI payment, and any payment whose transaction is failed,
    leaves every bank account as it was; and no payment event ever
    changes a v1 order. *)
Theorem only_netbanking_success_moves_money
    (rt : Routes.Runtime) (data : Schema.ProcessPaymentInput)
    (sv : Routes.Server) :
  let run := Routes.process_payment rt data sv in
  let sv' := fst (fst run) in
  (Schema.paymentMethod data <> Schema.netbanking ->
   Storage.bankAccounts (Routes.store sv')
   = Storage.bankAccounts (Routes.store sv))
  /\ (forall t,
        Routes.json (snd (fst run)) = Routes.TransactionBody t ->
        Schema.t_status t = Schema.failed ->
        Storage.bankAccounts (Routes.store sv')
        = Storage.bankAccounts (Routes.store sv))
  /\ Storage.orders (Routes.store sv') = Storage.orders (Routes.store sv).
Proof.
  intros run sv'. subst sv' run.
  destruct (process_payment_cases rt data sv)
    as [[_ E]|[(_ & _ & E)|(st1 & s & fr & bn & Hfound & Hsim & _)]];
    try (rewrite E; cbn [fst snd]; repeat split; auto; fail).
  destruct (completed_event_store rt data sv st1 s fr bn Hfound Hsim)
    as (Hres & Hbank & Hord & _).
  destruct (simulate_payment_shape data _ _ _ _ _ Hsim)
    as (Hord1 & _ & _ & _ & Hother & Hfailed).
  rewrite Hres, Hbank, Hord. cbn [Routes.json].
  split; [|split].
  - intros Hm. destruct (Hother Hm) as [-> _]. reflexivity.
  - intros t [= <-] Hs.
    cbn [Routes.transaction_for Storage.createTransaction snd Schema.t_status]
      in Hs.
    now rewrite (Hfailed Hs).
  - exact Hord1.
Qed.

Lemma only_netbanking_success_moves_money_witness :
  Storage.bankAccounts
    (Routes.store
       (fst (fst (Routes.process_payment Scenario.platform
                    {| Schema.orderId := "ORD_E5F60718";
                       Schema.amount := 49900;
                       Schema.paymentMethod := Schema.upi;
                       Schema.bankAccountId := Some Bank.john;
                       Schema.cardDetails := None;
                       Schema.upiId := Some "asha@bank" |} Bank.shop))))
  = Storage.bankAccounts (Routes.store Bank.shop).
Proof.
  apply (only_netbanking_success_moves_money Scenario.platform
           {| Schema.orderId := "ORD_E5F60718";
              Schema.amount := 49900;
              Schema.paymentMethod := Schema.upi;
              Schema.bankAccountId := Some Bank.john;
              Schema.cardDetails := None;
              Schema.upiId := Some "asha@bank" |} Bank.shop).
  discriminate.
Defined.

(** ** What the schemas let through *)

Section SchemaFacts.
Import Json Schema Storage Ledger.

Lemma z_check_inv {A} (p : Parser A) (check : A -> bool) j a :
  z_check p check j = Some a -> p j = Some a /\ check a = true.
Proof.
  unfold z_check. destruct (p j) as [a'|]; [|discriminate].
  destruct (check a') eqn:E; [|discriminate].
  intros [= <-]. auto.
Qed.

Lemma z_optional_inv {A} (p : Parser A) j a :
  z_optional p j = Some (Some a) -> p j = Some a.
Proof.
  unfold z_optional. destruct j as [v|]; [|discriminate].
  destruct (p (Some v)); [|discriminate]. cbn. now intros [= ->].
Qed.

Ltac parse_steps H :=
  repeat match type of H with
         | match ?e with Some _ => _ | None => None end = Some _ =>
             let E := fresh "E" in destruct e eqn:E; [|discriminate]
         end.

Lemma insertBankAccountSchema_valid body data :
  insertBankAccountSchema (Some body) = Some data ->
  (1 <= String.length (i_accountHolderName data))%nat
  /\ (10 <= String.length (i_accountNumber data))%nat
  /\ (1 <= String.length (i_bankName data))%nat
  /\ 0 <= i_balance data.
Proof.
  unfold insertBankAccountSchema, z_object. intros H.
  destruct body as [| | | | |fields]; try discriminate.
  parse_steps H. injection H as <-.
  cbn [i_accountHolderName i_accountNumber i_bankName i_balance].
  repeat match goal with
         | E : z_check _ _ _ = Some _ |- _ =>
             apply z_check_inv in E; destruct E as [_ E]
         end.
  unfold min_length in *.
  repeat match goal with
         | E : Nat.leb _ _ = true |- _ => apply Nat.leb_le in E
         end.
  repeat split; try assumption; lia.
Qed.

Lemma partial_schema_valid body data b :
  insertBankAccountSchema_partial (Some body) = Some data ->
  p_balance data = Some b -> 0 <= b.
Proof.
  unfold insertBankAccountSchema_partial, z_object. intros H Hb.
  destruct body as [| | | | |fields]; try discriminate.
  parse_steps H. injection H as <-. cbn [p_balance] in Hb. subst.
  match goal with
  | E : z_optional (z_check z_number _) _ = Some (Some b) |- _ =>
      apply z_optional_inv, z_check_inv in E; destruct E as [_ E]; lia
  end.
Qed.

Lemma insertOrderSchema_valid zod_email body data :
  insertOrderSchema zod_email (Some body) = Some data ->
  (1 <= String.length (i_name data))%nat
  /\ zod_email (i_email data) = true
  /\ (10 <= String.length (i_phone data))%nat
  /\ 1 <= i_amount data.
Proof.
  unfold insertOrderSchema, z_object. intros H.
  destruct body as [| | | | |fields]; try discriminate.
  parse_steps H. injection H as <-.
  cbn [i_name i_email i_phone i_amount].
  repeat match goal with
         | E : z_check _ _ _ = Some _ |- _ =>
             apply z_check_inv in E; destruct E as [_ E]
         end.
  unfold min_length in *.
  repeat match goal with
         | E : Nat.leb _ _ = true |- _ => apply Nat.leb_le in E
         end.
  repeat split; try assumption; lia.
Qed.

End SchemaFacts.

(** X16. No route makes a balance negative: if no stored account
    has a negative balance, none has one after a payment event, an
    account creation, an account update or an account deletion,
    whatever the request. *)
Theorem balances_stay_nonnegative
    (rt : Routes.Runtime) (sv : Routes.Server) :
  Inv.balances_nonneg (Routes.store sv) ->
  (forall data,
     Inv.balances_nonneg
       (Routes.store (fst (fst (Routes.process_payment rt data sv)))))
  /\ (forall body,
        Inv.balances_nonneg
          (Routes.store
             (fst (Ledger.post_create_account (Routes.randomUUID rt) body sv))))
  /\ (forall id body,
        Inv.balances_nonneg
          (Routes.store (fst (Ledger.put_account id body sv))))
  /\ (forall id,
        Inv.balances_nonneg
          (Routes.store (fst (Ledger.delete_account id sv)))).
Proof.
  intros Hinv. split; [|split; [|split]].
  - intros data.
    destruct (process_payment_cases rt data sv)
      as [[_ E]|[(_ & _ & E)|(st1 & s & fr & bn & Hfound & Hsim & _)]];
      try (rewrite E; exact Hinv).
    destruct (completed_event_store rt data sv st1 s fr bn Hfound Hsim)
      as (_ & Hbank & _).
    pose proof (simulate_payment_nonneg data _ _ _ _ _ Hsim Hinv) as H1.
    intros k a. rewrite Hbank. apply H1.
  - intros body. unfold Ledger.post_create_account.
    destruct (Ledger.insertBankAccountSchema (Some body)) as [data|] eqn:Hp;
      [|exact Hinv].
    destruct (insertBankAccountSchema_valid body data Hp) as (_ & _ & _ & Hb).
    unfold Ledger.createBankAccount.
    cbn [fst Routes.store Routes.with_store]. intros k a.
    cbn [Storage.bankAccounts].
    destruct (String.eqb_spec (Routes.randomUUID rt (Storage.uuids (Routes.store sv))) k)
      as [<-|Hk].
    + rewrite get_set_same. intros [= <-]. exact Hb.
    + rewrite get_set_other by exact Hk. apply Hinv.
  - intros id body. unfold Ledger.put_account.
    destruct (Ledger.insertBankAccountSchema_partial (Some body))
      as [data|] eqn:Hp; [|exact Hinv].
    unfold Ledger.updateBankAccount.
    destruct (Js.get (Storage.bankAccounts (Routes.store sv)) id)
      as [acct|] eqn:Hget; cbn [fst Routes.store Routes.with_store];
      [|exact Hinv].
    intros k a. cbn [Storage.bankAccounts].
    destruct (String.eqb_spec id k) as [<-|Hk].
    + rewrite get_set_same. intros [= <-].
      cbn [Ledger.merge_account Schema.balance].
      destruct (Ledger.p_balance data) as [b|] eqn:Hb; cbn [Js.nullish].
      * exact (partial_schema_valid body data b Hp Hb).
      * exact (Hinv id acct Hget).
    + rewrite get_set_other by exact Hk. apply Hinv.
  - intros id. unfold Ledger.delete_account, Ledger.deleteBankAccount.
    destruct (MapOps.has (Storage.bankAccounts (Routes.store sv)) id);
      cbn [fst Routes.store Routes.with_store]; intros k a;
      cbn [Storage.bankAccounts];
      (destruct (String.eqb_spec id k) as [<-|Hk];
       [rewrite get_remove_same; discriminate
       |rewrite get_remove_other by exact Hk; apply Hinv]).
Qed.

Lemma seeded_balances_nonneg :
  Inv.balances_nonneg (Ledger.MemStorage_new Scenario.uuid).
Proof.
  intros id account. vm_compute.
  repeat match goal with
         | |- context [if ?b then _ else _] => destruct b
         end;
    intros [= <-]; discriminate.
Qed.

Lemma balances_stay_nonnegative_witness :
  Inv.balances_nonneg
    (Routes.store
       (fst (fst (Routes.process_payment Scenario.platform
                    (Bank.netbanking_payment Bank.john) Bank.shop)))).
Proof.
  apply (balances_stay_nonnegative Scenario.platform Bank.shop).
  exact seeded_balances_nonneg.
Defined.

Lemma get_in_values {V} (d : Js.Dict V) k v :
  Js.get d k = Some v -> In v (MapOps.values d).
Proof.
  unfold MapOps.values. induction d as [|[k' v'] d IH]; simpl; [discriminate|].
  destruct (String.eqb k' k); [intros [= ->]; auto | auto].
Qed.

(** X17. [POST /api/create-account] stores what it answers: for a
    body the schema accepts the answer is 201 with an account that
    is found under its id and listed by [GET /api/accounts], and
    whose holder and bank names are not empty, whose number has at
    least 10 characters and whose balance is not negative; a body
    the schema refuses is answered 400 and nothing is stored. *)
Theorem create_account_stores_a_valid_account
    (randomUUID : nat -> string) (body : Json.t) (sv : Routes.Server) :
  let out := Ledger.post_create_account randomUUID body sv in
  (Ledger.insertBankAccountSchema (Some body) <> None ->
   exists account,
     snd out = {| Ledger.r_code := 201;
                  Ledger.r_body := Ledger.AccountJson account |}
     /\ Storage.getBankAccount (Schema.ba_id account) (Routes.store (fst out))
        = Some account
     /\ (exists listed,
           Ledger.get_accounts (fst out)
           = {| Ledger.r_code := 200;
                Ledger.r_body := Ledger.AccountsJson listed |}
           /\ In account listed)
     /\ (1 <= String.length (Schema.accountHolderName account))%nat
     /\ (10 <= String.length (Schema.accountNumber account))%nat
     /\ (1 <= String.length (Schema.bankName account))%nat
     /\ 0 <= Schema.balance account)
  /\ (Ledger.insertBankAccountSchema (Some body) = None ->
      out = (sv, {| Ledger.r_code := 400;
                    Ledger.r_body := Ledger.ErrorJson "Validation failed" |})).
Proof.
  intros out. subst out. unfold Ledger.post_create_account. split.
  - intros Hvalid.
    destruct (Ledger.insertBankAccountSchema (Some body)) as [data|] eqn:Hp;
      [clear Hvalid | congruence].
    destruct (insertBankAccountSchema_valid body data Hp) as (Hh & Hn & Hb & Hbal).
    unfold Ledger.createBankAccount, Storage.getBankAccount,
      Ledger.get_accounts, Ledger.getBankAccounts.
    cbn [fst snd Routes.store Routes.with_store Storage.bankAccounts
         Schema.ba_id Schema.accountHolderName Schema.accountNumber
         Schema.bankName Schema.balance].
    eexists. split; [reflexivity|].
    cbn [Schema.ba_id Schema.accountHolderName Schema.accountNumber
         Schema.bankName Schema.balance].
    split; [apply get_set_same|].
    split; [|auto].
    eexists. split; [reflexivity|].
    eapply get_in_values. apply get_set_same.
  - intros Hp. now rewrite Hp.
Qed.

Lemma create_account_stores_a_valid_account_witness :
  let body :=
    Json.JObj
      [ ("accountHolderName", Json.JStr "Asha Rao");
        ("accountNumber", Json.JStr "4000123412341234");
        ("bankName", Json.JStr "Axis Bank");
        ("balance", Json.JNum 7500) ] in
  (exists account,
     snd (Ledger.post_create_account Scenario.uuid body Bank.seeded)
     = {| Ledger.r_code := 201; Ledger.r_body := Ledger.AccountJson account |}
     /\ 0 <= Schema.balance account)
  /\ Ledger.post_create_account Scenario.uuid
       (Json.JObj [("accountHolderName", Json.JStr "Asha Rao")]) Bank.seeded
     = (Bank.seeded,
        {| Ledger.r_code := 400;
           Ledger.r_body := Ledger.ErrorJson "Validation failed" |}).
Proof.
  cbv zeta. split.
  - destruct (create_account_stores_a_valid_account Scenario.uuid
                (Json.JObj
                   [ ("accountHolderName", Json.JStr "Asha Rao");
                     ("accountNumber", Json.JStr "4000123412341234");
                     ("bankName", Json.JStr "Axis Bank");
                     ("balance", Json.JNum 7500) ]) Bank.seeded) as [Hok _].
    destruct Hok as (account & Hres & _ & _ & _ & _ & _ & Hbal).
    + vm_compute. discriminate.
    + exists account. auto.
  - apply (create_account_stores_a_valid_account Scenario.uuid
             (Json.JObj [("accountHolderName", Json.JStr "Asha Rao")])
             Bank.seeded).
    vm_compute. reflexivity.
Defined.

(** X18. [POST /api/create-order] stores what it answers and the
    payment route then finds it: for a body the schema accepts the
    answer is 201 with an order whose id starts with ORD_, whose
    name is not empty, whose email passed the email check, whose
    phone has at least 10 characters and whose amount is at least 1;
    the order is found under its id, so a payment event naming it is
    never answered Order not found.  A body the schema refuses is
    answered 400 and nothing is stored. *)
Theorem created_order_can_be_paid
    (randomUUID : nat -> string) (zod_email : string -> bool)
    (body : Json.t) (sv : Routes.Server) :
  let out := Ledger.post_create_order randomUUID zod_email body sv in
  (Ledger.insertOrderSchema zod_email (Some body) <> None ->
   exists order,
     snd out = {| Ledger.r_code := 201; Ledger.r_body := Ledger.OrderJson order |}
     /\ Str.startsWith "ORD_" (Schema.o_id order) = true
     /\ (1 <= String.length (Schema.o_name order))%nat
     /\ zod_email (Schema.o_email order) = true
     /\ (10 <= String.length (Schema.o_phone order))%nat
     /\ 1 <= Schema.o_amount order
     /\ Storage.getOrder (Schema.o_id order) (Routes.store (fst out))
        = Some order
     /\ Routes.order_found (Schema.o_id order) (Routes.store (fst out)) = true)
  /\ (Ledger.insertOrderSchema zod_email (Some body) = None ->
      out = (sv, {| Ledger.r_code := 400;
                    Ledger.r_body := Ledger.ErrorJson "Validation failed" |})).
Proof.
  intros out. subst out. unfold Ledger.post_create_order. split.
  - intros Hvalid.
    destruct (Ledger.insertOrderSchema zod_email (Some body)) as [data|] eqn:Hp;
      [clear Hvalid | congruence].
    destruct (insertOrderSchema_valid zod_email body data Hp)
      as (Hn & He & Hph & Ha).
    unfold Ledger.createOrder, Routes.order_found, Storage.getOrder.
    cbn [fst snd Routes.store Routes.with_store Storage.orders].
    eexists. split; [reflexivity|].
    cbn [Schema.o_id Schema.o_name Schema.o_email Schema.o_phone
         Schema.o_amount].
    split; [apply (startsWith_app "ORD_")|].
    rewrite get_set_same. auto 10.
  - intros Hp. now rewrite Hp.
Qed.

Lemma created_order_can_be_paid_witness :
  exists order,
    snd (Ledger.post_create_order Scenario.uuid (fun _ => true)
           Bank.checkout_body Bank.seeded)
    = {| Ledger.r_code := 201; Ledger.r_body := Ledger.OrderJson order |}
    /\ Routes.order_found (Schema.o_id order) (Routes.store Bank.shop) = true.
Proof.
  destruct (created_order_can_be_paid Scenario.uuid (fun _ => true)
              Bank.checkout_body Bank.seeded) as [Hok _].
  destruct Hok as (order & Hres & _ & _ & _ & _ & _ & _ & Hfound).
  - vm_compute. discriminate.
  - exists order. split; [exact Hres | exact Hfound].
Defined.

(** ** v2 orders *)

Section V2Orders.
Import Json Schema Storage Routes.

Ltac parse_steps H :=
  repeat match type of H with
         | match ?e with Some _ => _ | None => None end = Some _ =>
             let E := fresh "E" in destruct e eqn:E; [|discriminate]
         end.

Lemma createOrderV2Schema_valid zu body data :
  createOrderV2Schema zu (Some body) = Some data ->
  0 < amount_in_paisa data
  /\ zu (return_url data) = true
  /\ zu (callback_url data) = true
  /\ (forall t, one_time_order_token data = Some t -> token_length_ok t = true).
Proof.
  unfold createOrderV2Schema, z_object. intros H.
  destruct body as [| | | | |fields]; try discriminate.
  parse_steps H. injection H as <-.
  cbn [amount_in_paisa return_url callback_url one_time_order_token].
  repeat match goal with
         | E : z_check _ _ _ = Some _ |- _ =>
             apply z_check_inv in E; destruct E as [_ E]
         end.
  repeat split; try assumption; try lia.
  intros t ->.
  match goal with
  | E : z_optional (z_check z_string token_length_ok) _ = Some (Some t) |- _ =>
      apply z_optional_inv, z_check_inv in E; destruct E as [_ E]; exact E
  end.
Qed.

Variable rt : Runtime.

(** The order [createOrderV2] stores. *)
Lemma createOrderV2_stored order iso st :
  let out := createOrderV2 (randomUUID rt) order iso st in
  let gid := r_gateway_order_id (snd out) in
  gid = "gw_" ++ Str.slice_to 8 (randomUUID rt (uuids st))
  /\ bankAccounts (fst out) = bankAccounts st
  /\ orders (fst out) = orders st
  /\ transactions (fst out) = transactions st
  /\ exists stored,
       v2orders (fst out) = Js.set (v2orders st) gid stored
       /\ gateway_order_id stored = gid
       /\ status stored = CREATED
       /\ paid_at stored = None
       /\ transaction_id stored = None
       /\ v_merchant_id stored = merchant_id order
       /\ merchant_order_id stored = order_id order
       /\ v_amount_in_paisa stored = amount_in_paisa order
       /\ v_return_url stored = return_url order
       /\ v_callback_url stored = callback_url order
       /\ v_test_mode stored = Js.truthy_bool (test_mode order)
       /\ v_metadata stored = metadata order
       /\ v_one_time_order_token stored = r_one_time_order_token (snd out)
       /\ created_at stored = iso.
Proof.
  unfold createOrderV2.
  destruct (one_time_order_token order) as [t|];
    cbn [fst snd r_gateway_order_id r_one_time_order_token bankAccounts orders
         transactions v2orders];
    (split; [reflexivity|]); repeat (split; [reflexivity|]);
    eexists; (split; [reflexivity|]); repeat split.
Qed.

(** What an answer 201 of the order route means. *)
Lemma post_v2_orders_created body sv gid redirect token tm :
  snd (post_v2_orders rt body sv)
  = {| code := 201; json := OrderCreatedBody gid redirect token tm |} ->
  exists data,
    createOrderV2Schema (zod_url rt) (Some body) = Some data
    /\ Stated.url_acceptable rt (return_url data) = true
    /\ Stated.url_acceptable rt (callback_url data) = true
    /\ post_v2_orders rt body sv
       = (with_store sv
            (fst (createOrderV2 (randomUUID rt) data (nowIso rt sv) (store sv))),
          {| code := 201; json := OrderCreatedBody gid redirect token tm |})
    /\ gid = r_gateway_order_id
               (snd (createOrderV2 (randomUUID rt) data (nowIso rt sv)
                       (store sv)))
    /\ token = r_one_time_order_token
                 (snd (createOrderV2 (randomUUID rt) data (nowIso rt sv)
                         (store sv)))
    /\ redirect = "https://localhost:5000/checkout?gw_order=" ++ gid
    /\ tm = Js.truthy_bool (test_mode data).
Proof.
  unfold post_v2_orders, Stated.url_acceptable.
  destruct (createOrderV2Schema (zod_url rt) (Some body)) as [data|];
    [|discriminate].
  destruct (URL_parse rt (return_url data)) as [ru|] eqn:Eru;
    [destruct (URL_parse rt (callback_url data)) as [cu|] eqn:Ecu|];
    try discriminate.
  destruct (url_allowed ru) eqn:Aru, (url_allowed cu) eqn:Acu;
    cbn [negb orb]; try discriminate.
  destruct (createOrderV2 (randomUUID rt) data (nowIso rt sv) (store sv))
    as [st' created] eqn:Ec.
  cbn [fst snd]. intros [= <- <- <- <-].
  exists data. rewrite Eru, Ecu, Ec. cbn [fst snd].
  repeat (split; [reflexivity || assumption|]).
  split; [|reflexivity].
  unfold createOrderV2 in Ec.
  destruct (one_time_order_token data); injection Ec as <- <-; reflexivity.
Qed.

Lemma find_by_merchant_sound vs m o v :
  find_by_merchant vs m o = Some v ->
  v_merchant_id v = m /\ merchant_order_id v = o /\ In v (MapOps.values vs).
Proof.
  unfold MapOps.values.
  induction vs as [|[k x] vs IH]; simpl; [discriminate|].
  destruct (String.eqb_spec (v_merchant_id x) m) as [Hm|Hm]; cbn [andb].
  - destruct (String.eqb_spec (merchant_order_id x) o) as [Ho|Ho].
    + intros [= <-]. auto.
    + intros H. destruct (IH H) as (? & ? & ?). auto.
  - intros H. destruct (IH H) as (? & ? & ?). auto.
Qed.

Lemma find_by_merchant_none vs m o :
  find_by_merchant vs m o = None <->
  (forall v, In v (MapOps.values vs) ->
             ~ (v_merchant_id v = m /\ merchant_order_id v = o)).
Proof.
  unfold MapOps.values.
  induction vs as [|[k x] vs IH]; simpl.
  - split; [intros _ v [] | reflexivity].
  - destruct (String.eqb_spec (v_merchant_id x) m) as [Hm|Hm];
      destruct (String.eqb_spec (merchant_order_id x) o) as [Ho|Ho];
      cbn [andb].
    + split; [discriminate|]. intros H. exfalso. apply (H x); auto.
    + rewrite IH. split.
      * intros H v [<-|Hin]; [intros [_ ?]; congruence | auto].
      * intros H v Hin. apply H. auto.
    + rewrite IH. split.
      * intros H v [<-|Hin]; [intros [? _]; congruence | auto].
      * intros H v Hin. apply H. auto.
    + rewrite IH. split.
      * intros H v [<-|Hin]; [intros [? _]; congruence | auto].
      * intros H v Hin. apply H. auto.
Qed.

End V2Orders.

(** X19. An order the v2 route answers 201 for is stored and can be
    paid: its id starts with gw_ and ends the redirect url; under
    that id the storage holds an order with status CREATED, no
    payment time and no transaction, a positive amount, two
    addresses the URL rule accepts, and the token and test mode of
    the answer; the payment route finds it; and every order stored
    under another id is as before. *)
Theorem accepted_v2_order_is_stored_and_payable
    (rt : Routes.Runtime) (body : Json.t) (sv : Routes.Server)
    (gid redirect token : string) (tm : bool) :
  snd (Routes.post_v2_orders rt body sv)
  = {| Routes.code := 201;
       Routes.json := Routes.OrderCreatedBody gid redirect token tm |} ->
  let sv' := fst (Routes.post_v2_orders rt body sv) in
  Str.startsWith "gw_" gid = true
  /\ redirect = "https://localhost:5000/checkout?gw_order=" ++ gid
  /\ (exists v2,
        Storage.getV2Order gid (Routes.store sv') = Some v2
        /\ Storage.gateway_order_id v2 = gid
        /\ Storage.status v2 = Storage.CREATED
        /\ Storage.paid_at v2 = None
        /\ Storage.transaction_id v2 = None
        /\ 0 < Storage.v_amount_in_paisa v2
        /\ Stated.url_acceptable rt (Storage.v_return_url v2) = true
        /\ Stated.url_acceptable rt (Storage.v_callback_url v2) = true
        /\ Storage.v_one_time_order_token v2 = token
        /\ Storage.v_test_mode v2 = tm)
  /\ Routes.order_found gid (Routes.store sv') = true
  /\ (forall k, k <> gid ->
        Storage.getV2Order k (Routes.store sv')
        = Storage.getV2Order k (Routes.store sv)).
Proof.
  intros Hres sv'. subst sv'.
  destruct (post_v2_orders_created rt body sv gid redirect token tm Hres)
    as (data & Hparse & Hru & Hcu & Hout & Hgid & Htok & Hred & Htm).
  destruct (createOrderV2_stored rt data (Routes.nowIso rt sv) (Routes.store sv))
    as (Hid & _ & _ & _ & stored & Hset & Hg & Hst & Hpaid & Htx & _ & _
        & Hamt & Hr & Hc & Htest & _ & Htoken & _).
  cbv zeta in *. rewrite <- Hgid in *. rewrite <- Htok in *.
  destruct (createOrderV2Schema_valid _ _ _ Hparse) as (Hpos & _).
  rewrite Hout. cbn [fst Routes.store Routes.with_store].
  assert (Hprefix : Str.startsWith "gw_" gid = true)
    by (rewrite Hid; apply (startsWith_app "gw_")).
  assert (Hget : Storage.getV2Order gid
                   (fst (Storage.createOrderV2 (Routes.randomUUID rt) data
                           (Routes.nowIso rt sv) (Routes.store sv)))
                 = Some stored)
    by (unfold Storage.getV2Order; rewrite Hset; apply get_set_same).
  split; [exact Hprefix|]. split; [exact Hred|]. split; [|split].
  - exists stored. rewrite Hamt, Hr, Hc, Htest.
    repeat (split; [assumption || reflexivity|]). symmetry. exact Htm.
  - unfold Routes.order_found.
    destruct (Storage.getOrder gid _); [reflexivity|].
    rewrite Hprefix, Hget. rewrite Hid. reflexivity.
  - intros k Hk. unfold Storage.getV2Order. rewrite Hset.
    apply get_set_other. congruence.
Qed.

Lemma accepted_v2_order_is_stored_and_payable_witness :
  Routes.order_found "gw_7d3f9a10" (Routes.store Scenario.opened) = true
  /\ exists v2,
       Storage.getV2Order "gw_7d3f9a10" (Routes.store Scenario.opened)
       = Some v2
       /\ Storage.status v2 = Storage.CREATED.
Proof.
  destruct (accepted_v2_order_is_stored_and_payable Scenario.platform
              (Scenario.order_body "https://merchant.example/return")
              Scenario.boot "gw_7d3f9a10"
              "https://localhost:5000/checkout?gw_order=gw_7d3f9a10"
              "ott_c41e88b290aa4f3d8a165e6f7a8b9c0d" false
              ltac:(vm_compute; reflexivity))
    as (_ & _ & (v2 & Hget & _ & Hst & _) & Hfound & _).
  split; [exact Hfound|]. exists v2. split; [exact Hget | exact Hst].
Defined.

Lemma length_substring_0 n s :
  String.length (substring 0 n s) = Nat.min n (String.length s).
Proof.
  revert s. induction n as [|n IH]; intros [|c s]; simpl; auto.
Qed.

(** X20. [createOrderV2] keeps a token the order brings and draws
    one value from [randomUUID]; without one it draws two and makes
    the token ott_ followed by the first 40 characters of the second
    value without its dashes, which satisfies the length rule of the
    schema (32 to 128) as soon as that value has 28 characters
    besides its dashes.  The stored token is the token answered. *)
Theorem generated_token_meets_the_schema
    (randomUUID : nat -> string) (order : Schema.CreateOrderV2)
    (iso : string) (st : Storage.MemStorage) :
  let out := Storage.createOrderV2 randomUUID order iso st in
  let token := Storage.r_one_time_order_token (snd out) in
  let second := Str.remove_dashes (randomUUID (S (Storage.uuids st))) in
  (forall t,
     Schema.one_time_order_token order = Some t ->
     token = t /\ Storage.uuids (fst out) = S (Storage.uuids st))
  /\ (Schema.one_time_order_token order = None ->
      token = "ott_" ++ Str.slice_to 40 second
      /\ Storage.uuids (fst out) = S (S (Storage.uuids st))
      /\ String.length token = (4 + Nat.min 40 (String.length second))%nat
      /\ ((28 <= String.length second)%nat ->
          Schema.token_length_ok token = true))
  /\ option_map Storage.v_one_time_order_token
       (Storage.getV2Order (Storage.r_gateway_order_id (snd out)) (fst out))
     = Some token.
Proof.
  intros out token second. subst out token second.
  unfold Storage.createOrderV2, Storage.getV2Order.
  destruct (Schema.one_time_order_token order) as [t|];
    cbn [fst snd Storage.r_one_time_order_token Storage.r_gateway_order_id
         Storage.uuids Storage.v2orders];
    rewrite get_set_same; cbn [option_map Storage.v_one_time_order_token].
  - split; [intros t' [= <-]; auto|]. split; [discriminate | reflexivity].
  - split; [discriminate|]. split; [|reflexivity].
    intros _.
    assert (Hlen : String.length
                     ("ott_" ++ Str.slice_to 40
                                  (Str.remove_dashes
                                     (randomUUID (S (Storage.uuids st)))))
                   = (4 + Nat.min 40
                            (String.length
                               (Str.remove_dashes
                                  (randomUUID (S (Storage.uuids st))))))%nat).
    { rewrite length_app_string. unfold Str.slice_to.
      rewrite length_substring_0. reflexivity. }
    split; [reflexivity|]. split; [reflexivity|]. split; [exact Hlen|].
    intros H28. unfold Schema.token_length_ok. rewrite Hlen.
    apply andb_true_intro. split; apply Nat.leb_le; lia.
Qed.

Lemma generated_token_meets_the_schema_witness :
  Schema.token_length_ok
    (Storage.r_one_time_order_token
       (snd (Storage.createOrderV2 Scenario.uuid
               {| Schema.merchant_id := "m_42";
                  Schema.order_id := "order-1001";
                  Schema.one_time_order_token := None;
                  Schema.amount_in_paisa := 49900;
                  Schema.currency := "INR";
                  Schema.display_amount := None;
                  Schema.customer := None;
                  Schema.plan := None;
                  Schema.return_url := "https://merchant.example/return";
                  Schema.callback_url := "https://merchant.example/hook";
                  Schema.test_mode := None;
                  Schema.metadata := None;
                  Schema.idempotency_key := None |}
               "2023-11-14T22:13:20.123Z"
               (Routes.store Scenario.boot))))
  = true.
Proof.
  apply (generated_token_meets_the_schema Scenario.uuid
           {| Schema.merchant_id := "m_42";
              Schema.order_id := "order-1001";
              Schema.one_time_order_token := None;
              Schema.amount_in_paisa := 49900;
              Schema.currency := "INR";
              Schema.display_amount := None;
              Schema.customer := None;
              Schema.plan := None;
              Schema.return_url := "https://merchant.example/return";
              Schema.callback_url := "https://merchant.example/hook";
              Schema.test_mode := None;
              Schema.metadata := None;
              Schema.idempotency_key := None |}
           "2023-11-14T22:13:20.123Z" (Routes.store Scenario.boot)).
  - reflexivity.
  - vm_compute. lia.
Defined.

(** X21. [getOrderByMerchantId] answers only with a stored order
    that has the merchant id and the merchant order id asked for, it
    answers nothing exactly when no stored order has them, and an
    order just created by [createOrderV2] makes it answer for the
    merchant and order ids of that order. *)
Theorem getOrderByMerchantId_finds_a_match
    (m o : string) (st : Storage.MemStorage) :
  (forall v,
     Storage.getOrderByMerchantId m o st = Some v ->
     Storage.v_merchant_id v = m
     /\ Storage.merchant_order_id v = o
     /\ In v (MapOps.values (Storage.v2orders st)))
  /\ (Storage.getOrderByMerchantId m o st = None <->
      forall v, In v (MapOps.values (Storage.v2orders st)) ->
                ~ (Storage.v_merchant_id v = m
                   /\ Storage.merchant_order_id v = o))
  /\ (forall randomUUID order iso,
        Schema.merchant_id order = m ->
        Schema.order_id order = o ->
        Storage.getOrderByMerchantId m o
          (fst (Storage.createOrderV2 randomUUID order iso st)) <> None).
Proof.
  unfold Storage.getOrderByMerchantId. split; [|split].
  - intros v. apply find_by_merchant_sound.
  - apply find_by_merchant_none.
  - intros randomUUID order iso Hm Ho Hnone.
    pose proof (proj1 (find_by_merchant_none _ _ _) Hnone) as Hno.
    unfold Storage.createOrderV2 in Hno.
    destruct (Schema.one_time_order_token order);
      cbn [fst Storage.v2orders] in Hno;
      (eapply Hno;
       [eapply get_in_values; apply get_set_same
       |cbn [Storage.v_merchant_id Storage.merchant_order_id]; auto]).
Qed.

Lemma getOrderByMerchantId_finds_a_match_witness :
  exists v,
    Storage.getOrderByMerchantId "m_42" "order-1001"
      (Routes.store Scenario.opened) = Some v
    /\ Storage.gateway_order_id v = "gw_7d3f9a10"
    /\ Storage.v_merchant_id v = "m_42".
Proof.
  match eval vm_compute in
        (Storage.getOrderByMerchantId "m_42" "order-1001"
           (Routes.store Scenario.opened))
  with
  | Some ?v =>
      exists v;
      assert (Hf : Storage.getOrderByMerchantId "m_42" "order-1001"
                     (Routes.store Scenario.opened) = Some v)
        by (vm_compute; reflexivity);
      destruct (getOrderByMerchantId_finds_a_match "m_42" "order-1001"
                  (Routes.store Scenario.opened)) as [Hsound _];
      destruct (Hsound v Hf) as (Hm & _ & _);
      split; [exact Hf|]; split; [reflexivity | exact Hm]
  end.
Defined.

Section Identity.
Import Schema Storage Routes.

Variable rt : Runtime.




End Identity.



(** X23. The webhook a payment event starts for a v2 order reports
    that event: it goes to the callback url of the order, its
    idempotency key is the id of the transaction, it runs with the
    default budget, its secret is the test secret of the environment
    (or test_secret) for a test-mode order and the production secret
    (or prod_secret) otherwise, and its body is the serialized
    payload whose status is SUCCESS for a successful transaction and
    FAILED otherwise, whose payment reference is the transaction id
    and whose order id and amount are those of the order. *)
Theorem webhook_reports_the_transaction
    (rt : Routes.Runtime) (data : Schema.ProcessPaymentInput)
    (sv : Routes.Server) (v2 : Storage.V2Order) (t : Schema.Transaction) :
  Storage.getV2Order (Schema.orderId data) (Routes.store sv) = Some v2 ->
  Routes.json (snd (fst (Routes.process_payment rt data sv)))
  = Routes.TransactionBody t ->
  exists o payload,
    snd (Routes.process_payment rt data sv) = [o]
    /\ Webhooks.url o = Storage.v_callback_url v2
    /\ Webhooks.idempotencyKey o = Some (Schema.t_id t)
    /\ Webhooks.testMode o = Some (Storage.v_test_mode v2)
    /\ Webhooks.maxRetries o = None
    /\ Webhooks.secret o
       = (if Storage.v_test_mode v2
          then Js.nullish
                 (Routes.process_env rt "MERCHANT_TEST_WEBHOOK_SECRET")
                 "test_secret"
          else Js.nullish (Routes.process_env rt "MERCHANT_WEBHOOK_SECRET")
                 "prod_secret")
    /\ Webhooks.body o = Routes.JSON_stringify rt payload
    /\ Json.field payload "status"
       = Some (Json.JStr match Schema.t_status t with
                         | Schema.success => "SUCCESS"
                         | Schema.failed => "FAILED"
                         end)
    /\ Json.field payload "payment_ref" = Some (Json.JStr (Schema.t_id t))
    /\ Json.field payload "gateway_order_id"
       = Some (Json.JStr (Storage.gateway_order_id v2))
    /\ Json.field payload "merchant_order_id"
       = Some (Json.JStr (Storage.merchant_order_id v2))
    /\ Json.field payload "amount_in_paisa"
       = Some (Json.JNum (Storage.v_amount_in_paisa v2))
    /\ Json.field payload "one_time_order_token"
       = Some (Json.JStr (Storage.v_one_time_order_token v2)).
Proof.
  unfold Storage.getV2Order. intros Hget Ht.
  destruct (process_payment_cases rt data sv)
    as [[_ E]|[(_ & _ & E)|(st1 & s & fr & bn & _ & Hsim & E)]];
    cbv zeta in E; rewrite E in *; cbn [fst snd Routes.json] in *;
    try discriminate.
  injection Ht as <-.
  unfold Routes.notify_v2.
  cbn [fst Routes.transaction_for Storage.createTransaction Storage.v2orders].
  rewrite (simulate_payment_frame _ _ _ _ _ _ Hsim), Hget.
  cbn [snd]. eexists.
  exists (Routes.webhook_payload
            (Routes.mark_paid v2 s (Routes.nowIso rt sv)
               ("TXN_" ++ Str.toUpperCase
                            (Str.slice_to 12
                               (Routes.randomUUID rt (Storage.uuids st1)))))
            (snd (Routes.transaction_for rt data sv st1 s fr bn))
            s data (Routes.nowIso rt sv)).
  split; [reflexivity|].
  cbn [Webhooks.url Webhooks.idempotencyKey Webhooks.testMode
       Webhooks.maxRetries Webhooks.secret Webhooks.body
       Routes.mark_paid Storage.v_callback_url Storage.v_test_mode
       snd Schema.t_id Schema.t_status].
  repeat (split; [reflexivity|]).
  unfold Routes.webhook_payload.
  destruct s, (Schema.paymentMethod data), (Schema.cardDetails data);
    cbn; repeat split; reflexivity.
Qed.

Lemma webhook_reports_the_transaction_witness :
  exists o,
    snd (Routes.process_payment Scenario.platform
           (Scenario.card_payment "4000000000000000") Scenario.opened) = [o]
    /\ Webhooks.url o = "https://merchant.example/hook"
    /\ Webhooks.secret o = "prod_secret".
Proof.
  match eval vm_compute in
        (Storage.getV2Order "gw_7d3f9a10" (Routes.store Scenario.opened),
         Routes.json
           (snd (fst (Routes.process_payment Scenario.platform
                        (Scenario.card_payment "4000000000000000")
                        Scenario.opened))))
  with
  | (Some ?v, Routes.TransactionBody ?t) =>
      destruct (webhook_reports_the_transaction Scenario.platform
                  (Scenario.card_payment "4000000000000000") Scenario.opened
                  v t ltac:(vm_compute; reflexivity)
                  ltac:(vm_compute; reflexivity))
        as (o & payload & Ho & Hurl & _ & _ & _ & Hsecret & _);
      exists o; split; [exact Ho|]; split; [exact Hurl | exact Hsecret]
  end.
Defined.

(** X24. A payment for an order whose id does not start with gw_
    starts no webhook and leaves every v2 order as it is, provided
    every v2 order is stored under an id that starts with gw_, as
    the orders of [createOrderV2] are. *)
Theorem v1_payment_starts_no_webhook
    (rt : Routes.Runtime) (data : Schema.ProcessPaymentInput)
    (sv : Routes.Server) :
  Inv.v2_keys_wellformed (Routes.store sv) ->
  Str.startsWith "gw_" (Schema.orderId data) = false ->
  snd (Routes.process_payment rt data sv) = []
  /\ Storage.v2orders
       (Routes.store (fst (fst (Routes.process_payment rt data sv))))
     = Storage.v2orders (Routes.store sv).
Proof.
  intros Hinv Hprefix.
  assert (Hnone : Js.get (Storage.v2orders (Routes.store sv))
                         (Schema.orderId data) = None).
  { destruct (Js.get _ _) as [v2|] eqn:Hget; [|reflexivity].
    destruct (Hinv _ _ Hget) as [_ Hgw]. congruence. }
  destruct (process_payment_cases rt data sv)
    as [[_ E]|[(_ & _ & E)|(st1 & s & fr & bn & _ & Hsim & E)]];
    cbv zeta in E; rewrite E; cbn [fst snd]; auto.
  rewrite notify_v2_absent.
  - cbn [fst snd Routes.store Routes.with_store Routes.transaction_for
         Storage.createTransaction Storage.v2orders].
    split; [reflexivity|]. exact (simulate_payment_frame _ _ _ _ _ _ Hsim).
  - cbn [fst Routes.transaction_for Storage.createTransaction
         Storage.v2orders].
    rewrite (simulate_payment_frame _ _ _ _ _ _ Hsim). exact Hnone.
Qed.

Lemma v1_payment_starts_no_webhook_witness :
  snd (Routes.process_payment Scenario.platform
         (Bank.netbanking_payment Bank.john) Bank.shop) = [].
Proof.
  apply (v1_payment_starts_no_webhook Scenario.platform
           (Bank.netbanking_payment Bank.john) Bank.shop).
  - intros k v2. vm_compute. discriminate.
  - vm_compute. reflexivity.
Defined.

(** ** The decline table *)

Lemma prefix_app (p s : string) :
  prefix p s = true <-> exists b, s = p ++ b.
Proof.
  revert s. induction p as [|c p IH]; intros s.
  - split; [intros _; exists s; reflexivity | destruct s; reflexivity].
  - destruct s as [|c' s]; simpl.
    + split; [discriminate | intros [b Hb]; discriminate].
    + destruct (ascii_dec c c') as [->|Hne].
      * rewrite IH. split; intros [b Hb]; exists b; congruence.
      * split; [discriminate | intros [b Hb]; congruence].
Qed.

Lemma includes_spec (p s : string) :
  Str.includes p s = true <-> exists a b, s = a ++ p ++ b.
Proof.
  split.
  - induction s as [|c s IH]; cbn [Str.includes].
    + rewrite orb_false_r. intros H. apply prefix_app in H.
      destruct H as [b Hb]. exists EmptyString, b. exact Hb.
    + intros H. apply orb_true_iff in H. destruct H as [H|H].
      * apply prefix_app in H. destruct H as [b Hb].
        exists EmptyString, b. exact Hb.
      * destruct (IH H) as (a & b & ->). exists (String c a), b. reflexivity.
  - intros (a & b & ->). induction a as [|c a IH].
    + assert (Hp : prefix p (p ++ b) = true) by (apply prefix_app; eauto).
      change (EmptyString ++ p ++ b) with (p ++ b).
      destruct (p ++ b); cbn [Str.includes]; rewrite Hp; reflexivity.
    + change (String c a ++ p ++ b) with (String c (a ++ p ++ b)).
      cbn [Str.includes]. rewrite IH. apply orb_true_r.
Qed.

(** X25. The simulated outcome of a card or UPI payment follows the
    decline table and nothing else: a card payment with details is
    failed exactly when the last four characters of the number are
    0000 (Card declined by issuer) or 1111 (Insufficient funds), and
    a UPI payment with a non-empty id is failed exactly when the id
    contains the text fail (UPI transaction declined). *)
Theorem decline_table_is_complete
    (rt : Routes.Runtime) (data : Schema.ProcessPaymentInput)
    (sv : Routes.Server) (t : Schema.Transaction) :
  Routes.json (snd (fst (Routes.process_payment rt data sv)))
  = Routes.TransactionBody t ->
  (forall cd,
     Schema.paymentMethod data = Schema.card ->
     Schema.cardDetails data = Some cd ->
     let last4 := Str.slice_last 4 (Schema.cardNumber cd) in
     (last4 = "0000" ->
      Schema.t_status t = Schema.failed
      /\ Schema.t_failureReason t = Some "Card declined by issuer")
     /\ (last4 = "1111" ->
         Schema.t_status t = Schema.failed
         /\ Schema.t_failureReason t = Some "Insufficient funds")
     /\ (last4 <> "0000" -> last4 <> "1111" ->
         Schema.t_status t = Schema.success))
  /\ (forall id,
        Schema.paymentMethod data = Schema.upi ->
        Schema.upiId data = Some id ->
        id <> EmptyString ->
        ((exists a b, id = a ++ "fail" ++ b) ->
         Schema.t_status t = Schema.failed
         /\ Schema.t_failureReason t = Some "UPI transaction declined")
        /\ (~ (exists a b, id = a ++ "fail" ++ b) ->
            Schema.t_status t = Schema.success)).
Proof.
  intros Ht.
  destruct (process_payment_cases rt data sv)
    as [[_ E]|[(_ & _ & E)|(st1 & s & fr & bn & _ & Hsim & E)]];
    cbv zeta in E; rewrite E in Ht; cbn [fst snd Routes.json] in Ht;
    try discriminate.
  injection Ht as <-.
  cbn [Routes.transaction_for Storage.createTransaction snd
       Schema.t_status Schema.t_failureReason].
  split.
  - intros cd Hm Hc. cbv zeta.
    rewrite (simulate_card data _ cd Hm Hc) in Hsim.
    destruct (String.eqb_spec (Str.slice_last 4 (Schema.cardNumber cd)) "0000")
      as [H0|H0];
      [|destruct (String.eqb_spec (Str.slice_last 4 (Schema.cardNumber cd))
                    "1111") as [H1|H1]];
      injection Hsim as _ <- <- _;
      repeat split; intros; congruence.
  - intros id Hm Hu Hid.
    unfold Routes.simulate_payment in Hsim. rewrite Hm, Hu in Hsim.
    destruct id as [|c id]; [congruence|].
    cbn [andb Js.truthy_string Js.nullish] in Hsim.
    pose proof (includes_spec "fail" (String c id)) as Hspec.
    destruct (Schema.cardDetails data);
      destruct (Str.includes "fail" (String c id));
      injection Hsim as _ <- <- _; split; intros H; auto;
      try (exfalso; apply H; apply Hspec; reflexivity);
      try (apply Hspec in H; discriminate).
Qed.

Lemma decline_table_is_complete_witness :
  exists t,
    Routes.json
      (snd (fst (Routes.process_payment Scenario.platform
                   {| Schema.orderId := "gw_7d3f9a10";
                      Schema.amount := 49900;
                      Schema.paymentMethod := Schema.upi;
                      Schema.bankAccountId := None;
                      Schema.cardDetails := None;
                      Schema.upiId := Some "will-fail@bank" |}
                   Scenario.opened)))
    = Routes.TransactionBody t
    /\ Schema.t_status t = Schema.failed
    /\ Schema.t_failureReason t = Some "UPI transaction declined".
Proof.
  match eval vm_compute in
        (Routes.json
           (snd (fst (Routes.process_payment Scenario.platform
                        {| Schema.orderId := "gw_7d3f9a10";
                           Schema.amount := 49900;
                           Schema.paymentMethod := Schema.upi;
                           Schema.bankAccountId := None;
                           Schema.cardDetails := None;
                           Schema.upiId := Some "will-fail@bank" |}
                        Scenario.opened))))
  with
  | Routes.TransactionBody ?t =>
      exists t; split; [vm_compute; reflexivity|];
      destruct (decline_table_is_complete Scenario.platform
                  {| Schema.orderId := "gw_7d3f9a10";
                     Schema.amount := 49900;
                     Schema.paymentMethod := Schema.upi;
                     Schema.bankAccountId := None;
                     Schema.cardDetails := None;
                     Schema.upiId := Some "will-fail@bank" |}
                  Scenario.opened t ltac:(vm_compute; reflexivity))
        as [_ Hupi];
      destruct (Hupi "will-fail@bank" eq_refl eq_refl ltac:(discriminate))
        as [Hfail _];
      apply Hfail; exists "will-", "@bank"; reflexivity
  end.
Defined.
